(** * Decibel Python SDK: transaction pipeline and WebSocket multiplexer

    A shallow embedding of the transaction builder
    ([_transaction_builder.py]), the replay-nonce generator ([_utils.py]),
    the build / simulate / rebuild / poll pipeline ([_base.py]), the
    fee-payer submitter ([_fee_pay.py]), the gas price manager
    ([_gas_price_manager.py]) and the WebSocket subscription multiplexer
    ([read/_ws.py]), together with the properties the specification states
    about them.

    Conventions.
    - Python [int] is [Z]; [bytes] is [list byte]; [str] is [string], one
      character per code point (code points below 256).
    - [raise] is the [Raise] constructor of [result]; code that threads an
      object it mutates (the BCS serializer, the SDK instance, the
      multiplexer) is written in explicit state-passing style.
    - A callback of the user is what it does: the calls it makes on the
      object it holds, in order, and how it ends.
    - Third-party calls ([aptos_sdk], [httpx], [json], [secrets], [time])
      are either modelled after their documented behaviour (BCS integer
      encodings) or taken as parameters / oracles of the environment. *)

From Stdlib Require Import ZArith QArith List String Ascii Lia Bool.
From Stdlib.Strings Require Import Byte.
From stdpp Require Import base option list strings pretty gmap.

Local Open Scope Z_scope.

(* ===================================================================== *)
(** ** Exceptions and the error monad *)
(* ===================================================================== *)

(** The f-string of every [raise] site of the modelled modules, with the
    values it interpolates. *)
Inductive message :=
  (* _transaction_builder.py *)
  | InvalidFunctionFormat (function : string)
  | ArgumentCountMismatch (expected got : nat)
  | CannotEncodeArgument (arg_type_name normalized_type : string)
  (* _base.py *)
  | UnableToGenerateNonce
  | CannotBuildTransaction (function : string)
  | SimulationReturnedNoResults
  | SimulationFailed (status_code : Z) (text : string)
  | SimulationReturnedEmptyResults
  | SubmissionFailed (status_code : Z) (text : string)
  | FailedToFetchGasPrice (status_code : Z) (text : string)
  | TransactionFailed (vm_status : string)
  | DidNotCompleteWithin (tx_hash : string) (timeout_secs : Q)
  (* _fee_pay.py *)
  | EitherKeyOrUrlMustBeProvided
  | GasStationUrlMustBeProvided
  | GasStationApiError (status_code : Z) (text : string)
  | FeePayerError (status_code : Z) (text : string)
  (* _gas_price_manager.py *)
  | NoGasEstimate
  (* read/_ws.py *)
  | FailedToParseJson (data : string)
  | MissingTopicField (data : string)
  | ExpectedStringData.

Inductive exn :=
  | ValueError (m : message)
  | TimeoutError (m : message)
  (** An exception raised inside a library or a builtin, by class name. *)
  | LibraryError (cls : string).

Inductive result (A : Type) :=
  | Ok (a : A)
  | Raise (e : exn).
Arguments Ok {A} a.
Arguments Raise {A} e.

Global Instance result_ret : MRet result := @Ok.
Global Instance result_bind : MBind result :=
  fun A B f r => match r with Ok a => f a | Raise e => Raise e end.

Definition is_ok {A} (r : result A) : bool :=
  match r with Ok _ => true | Raise _ => false end.

(** [[f(x) for x in xs]] and loops that [append] the result of a call that
    may raise: left to right, the first exception ends the loop. *)
Fixpoint mapM {A B} (f : A -> result B) (xs : list A) : result (list B) :=
  match xs with
  | [] => Ok []
  | x :: xs' => y ← f x; ys ← mapM f xs'; mret (y :: ys)
  end.

(* ===================================================================== *)
(** ** Python [str] methods used by the SDK *)
(* ===================================================================== *)

Module PyStr.

Local Open Scope nat_scope.

(** [str.isspace] on code points below 256. *)
Definition isspace (c : ascii) : bool :=
  let n := nat_of_ascii c in
  ((9 <=? n) && (n <=? 13)) || ((28 <=? n) && (n <=? 32))
  || (n =? 133) || (n =? 160).

Fixpoint lstrip (s : string) : string :=
  match s with
  | EmptyString => EmptyString
  | String c s' => if isspace c then lstrip s' else s
  end.

Fixpoint rstrip (s : string) : string :=
  match s with
  | EmptyString => EmptyString
  | String c s' =>
      match rstrip s' with
      | EmptyString => if isspace c then EmptyString else String c EmptyString
      | r => String c r
      end
  end.

(** [s.strip()] *)
Definition strip (s : string) : string := rstrip (lstrip s).

(** [s.replace(old, new)] for a one-character [old]. *)
Fixpoint replace (old : ascii) (new : string) (s : string) : string :=
  match s with
  | EmptyString => EmptyString
  | String c s' =>
      if Ascii.eqb c old then String.append new (replace old new s')
      else String c (replace old new s')
  end.

(** [s.split("::")]: the pieces between successive, non-overlapping
    occurrences of the separator, scanning from the left. [cur] holds the
    current piece, reversed. *)
Fixpoint split_colons_aux (s : string) (cur : list ascii) : list string :=
  match s with
  | EmptyString => [string_of_list_ascii (List.rev cur)]
  | String ":" (String ":" rest) =>
      string_of_list_ascii (List.rev cur) :: split_colons_aux rest []
  | String c rest => split_colons_aux rest (c :: cur)
  end.

Definition split_colons (s : string) : list string := split_colons_aux s [].

(** [s.startswith(p)], [s.endswith(p)] *)
Definition startswith (p s : string) : bool := String.prefix p s.

Definition endswith (p s : string) : bool :=
  (String.length p <=? String.length s)
  && String.eqb (substring (String.length s - String.length p) (String.length p) s) p.

(** [s.find(p)]: index of the first occurrence, or -1. *)
Definition find (p s : string) : Z :=
  match String.index 0 p s with
  | Some i => Z.of_nat i
  | None => (-1)%Z
  end.

(** [p in s] *)
Definition contains (p s : string) : bool :=
  match String.index 0 p s with Some _ => true | None => false end.

(** [s.rfind(c)] for a one-character [c]: index of the last occurrence,
    or -1. [i] is the index of the head of [s]. *)
Fixpoint rfind_from (c : ascii) (s : string) (i : Z) (last : Z) : Z :=
  match s with
  | EmptyString => last
  | String d s' => rfind_from c s' (i + 1)%Z (if Ascii.eqb d c then i else last)
  end.

Definition rfind (c : ascii) (s : string) : Z := rfind_from c s 0%Z (-1)%Z.

(** [s[a:b]] with Python's treatment of negative and out-of-range
    bounds. *)
Definition clamp_index (len i : Z) : Z :=
  let j := (if (i <? 0)%Z then i + len else i)%Z in
  Z.max 0 (Z.min len j).

Definition slice (a b : Z) (s : string) : string :=
  let len := Z.of_nat (String.length s) in
  let a' := clamp_index len a in
  let b' := clamp_index len b in
  substring (Z.to_nat a') (Z.to_nat (b' - a')) s.

(** [s.removeprefix(p)] *)
Definition removeprefix (p s : string) : string :=
  if String.prefix p s
  then substring (String.length p) (String.length s - String.length p) s
  else s.

End PyStr.

(* ===================================================================== *)
(** ** BCS serializer ([aptos_sdk.bcs.Serializer]) *)
(* ===================================================================== *)

Module Bcs.

Definition MAX_U8   : Z := 2 ^ 8 - 1.
Definition MAX_U16  : Z := 2 ^ 16 - 1.
Definition MAX_U32  : Z := 2 ^ 32 - 1.
Definition MAX_U64  : Z := 2 ^ 64 - 1.
Definition MAX_U128 : Z := 2 ^ 128 - 1.
Definition MAX_U256 : Z := 2 ^ 256 - 1.

Definition byte_of_Z (z : Z) : byte :=
  match Byte.of_N (Z.to_N (z mod 256)) with
  | Some b => b
  | None => x00
  end.

Definition Z_of_byte (b : byte) : Z := Z.of_N (Byte.to_N b).

(** [value.to_bytes(length, "little", signed=False)] for a value in
    range. *)
Fixpoint to_bytes_little (length : nat) (value : Z) : list byte :=
  match length with
  | O => []
  | S n => byte_of_Z value :: to_bytes_little n (value / 256)
  end.

(** [int.from_bytes(bs, "little")] *)
Fixpoint from_bytes_little (bs : list byte) : Z :=
  match bs with
  | [] => 0
  | b :: bs' => Z_of_byte b + 256 * from_bytes_little bs'
  end.

(** The serializer is its output buffer; a method either raises or
    returns the buffer with the bytes it wrote appended. *)
Definition Serializer := list byte.
Definition Ser := Serializer -> result Serializer.

Definition seq (f g : Ser) : Ser := fun out => out' ← f out; g out'.
Infix ">>" := seq (at level 61, left associativity).

Definition skip : Ser := fun out => Ok out.

Definition write (bs : list byte) : Ser := fun out => Ok (out ++ bs).

Definition throw (e : exn) : Ser := fun _ => Raise e.

(** [Serializer().output()] after running [f] on a fresh serializer. *)
Definition output (f : Ser) : result (list byte) := f [].

Definition _write_int (value : Z) (length : nat) : Ser :=
  if (value <? 0) || (256 ^ Z.of_nat length <=? value)
  then throw (LibraryError "OverflowError")
  else write (to_bytes_little length value).

Definition uint (max : Z) (length : nat) (value : Z) : Ser :=
  if max <? value then throw (LibraryError "Exception")
  else _write_int value length.

Definition u8   := uint MAX_U8 1.
Definition u16  := uint MAX_U16 2.
Definition u32  := uint MAX_U32 4.
Definition u64  := uint MAX_U64 8.
Definition u128 := uint MAX_U128 16.
Definition u256 := uint MAX_U256 32.

Definition bool (value : Datatypes.bool) : Ser :=
  _write_int (if value then 1 else 0) 1.

(** The [while value >= 0x80] loop of [uleb128]; a 32-bit value leaves
    it after at most four rounds. *)
Fixpoint uleb128_loop (rounds : nat) (value : Z) : Ser :=
  match rounds with
  | O => u8 (Z.land value 127)
  | S n =>
      if 128 <=? value
      then u8 (Z.lor (Z.land value 127) 128) >> uleb128_loop n (Z.shiftr value 7)
      else u8 (Z.land value 127)
  end.

Definition uleb128 (value : Z) : Ser :=
  if MAX_U32 <? value then throw (LibraryError "Exception")
  else uleb128_loop 4 value.

Definition fixed_bytes (value : list byte) : Ser := write value.

Definition to_bytes (value : list byte) : Ser :=
  uleb128 (Z.of_nat (List.length value)) >> write value.

(** [value.encode()]: UTF-8 of a string of code points below 256. *)
Definition utf8_char (c : ascii) : list byte :=
  let n := Z.of_nat (nat_of_ascii c) in
  if n <? 128 then [byte_of_Z n]
  else [byte_of_Z (Z.lor 192 (Z.shiftr n 6)); byte_of_Z (Z.lor 128 (Z.land n 63))].

Definition encode (s : string) : list byte :=
  List.concat (List.map utf8_char (list_ascii_of_string s)).

Definition str (value : string) : Ser := to_bytes (encode value).

End Bcs.

(* ===================================================================== *)
(** ** Decoded JSON ([json.loads], [response.json()]) *)
(* ===================================================================== *)

(** A dict is the list of its items in insertion order, keys distinct; a
    number that is not an integer keeps its literal. *)
#[warnings="-register-all"]
Inductive json :=
  | JNull
  | JBool (b : bool)
  | JInt (n : Z)
  | JFloat (literal : string)
  | JStr (s : string)
  | JList (items : list json)
  | JDict (items : list (string * json)).

Module Dict.

(** [d.get(key)] *)
Fixpoint get (key : string) (items : list (string * json)) : option json :=
  match items with
  | [] => None
  | (k, v) :: rest => if String.eqb k key then Some v else get key rest
  end.

(** [key in d] *)
Definition mem (key : string) (items : list (string * json)) : bool :=
  match get key items with Some _ => true | None => false end.

(** [{k: v for k, v in d.items() if k != key}] *)
Definition without (key : string) (items : list (string * json))
    : list (string * json) :=
  List.filter (fun kv => negb (String.eqb (fst kv) key)) items.

(** [data.get(key)] on a value that need not be a dict. *)
Definition get_attr (data : json) (key : string) : result (option json) :=
  match data with
  | JDict items => Ok (get key items)
  | _ => Raise (LibraryError "AttributeError")
  end.

End Dict.

(* ===================================================================== *)
(** ** What the SDK takes from its environment *)
(* ===================================================================== *)

(** Types and calls of [aptos_sdk], of Python's dynamically typed values
    and of the wall clock that the modelled code uses but does not
    define. Every statement below holds for all implementations. *)
Class Externals := {
  (** [aptos_sdk.account_address.AccountAddress] *)
  AccountAddress : Type;
  AccountAddress_from_str : string -> result AccountAddress;
  AccountAddress_serialize : AccountAddress -> Bcs.Ser;
  (** [aptos_sdk.type_tag.StructTag] *)
  StructTag : Type;
  StructTag_from_str : string -> result StructTag;
  (** A call argument of static type [Any], with the builtins applied to
      it: [arg is None], [bool(arg)], [int(arg)], [str(arg)],
      [bytes(arg)], [isinstance(arg, str)], [isinstance(arg, bytes)],
      [len(arg)], iteration, [arg.serialize(serializer)] and
      [type(arg).__name__]. *)
  Any : Type;
  py_is_none : Any -> bool;
  py_bool : Any -> result bool;
  py_int : Any -> result Z;
  py_str : Any -> result string;
  py_bytes : Any -> result (list byte);
  py_as_str : Any -> option string;
  py_as_bytes : Any -> option (list byte);
  py_len : Any -> result nat;
  py_iter : Any -> result (list Any);
  py_serialize : Any -> Bcs.Ser;
  py_type_name : Any -> string;
  (** [bytes.fromhex] *)
  bytes_fromhex : string -> result (list byte);
  (** [int(s)] for a [str], [int(x)] and [int(x * m)] for the float with
      literal [x], [int(n * m)] for an [int] and a float [m], [str(v)] for
      a decoded JSON value that is not a [str], [str(n)] for an [int]. *)
  int_of_str : string -> result Z;
  int_of_float : string -> result Z;
  int_of_float_times : string -> Q -> result Z;
  int_of_int_times : Z -> Q -> result Z;
  str_of_json : json -> string;
  str_of_int : Z -> string;
  (** [json.loads(text)] without object hook; [None] is
      [json.JSONDecodeError]. *)
  json_loads : string -> option json;
  (** A reading [t] of [time.time()];
      [int((t * 1000 + time_delta_ms) / 1000)] in float arithmetic; and
      the test [now - start > bound] of two readings against a float
      bound. *)
  timestamp : Type;
  whole_seconds : timestamp -> Z -> Z;
  elapsed_exceeds : timestamp -> timestamp -> Q -> bool;
}.

(** [int(v)], [str(v)] and [not v] on a decoded JSON value. *)
Definition json_int {env : Externals} (v : json) : result Z :=
  match v with
  | JBool b => Ok (if b then 1 else 0)
  | JInt n => Ok n
  | JFloat x => int_of_float x
  | JStr s => int_of_str s
  | JNull | JList _ | JDict _ => Raise (LibraryError "TypeError")
  end.

Definition json_str {env : Externals} (v : json) : string :=
  match v with
  | JStr s => s
  | _ => str_of_json v
  end.

(* ===================================================================== *)
(** ** [_transaction_builder.py] *)
(* ===================================================================== *)

Module TransactionBuilder.
Section WithExternals.

Context {env : Externals}.

Definition DEADBEEF_SEQUENCE_NUMBER : Z := 0xDEADBEEF.

(** BCS variant constants for orderless transaction payloads *)
Definition _PAYLOAD_VARIANT_ORDERLESS : Z := 4.
Definition _INNER_PAYLOAD_VARIANT_V1 : Z := 0.
Definition _EXECUTABLE_VARIANT_ENTRY_FUNCTION : Z := 1.
Definition _EXTRA_CONFIG_VARIANT_V1 : Z := 0.

(** [aptos_sdk.type_tag.TypeTag], by the value [_parse_type_tag] wraps. *)
Inductive TypeTag :=
| TypeTag_BOOL | TypeTag_U8 | TypeTag_U16 | TypeTag_U32 | TypeTag_U64
| TypeTag_U128 | TypeTag_U256 | TypeTag_ACCOUNT_ADDRESS | TypeTag_SIGNER
| TypeTag_VECTOR (inner : TypeTag)
| TypeTag_STRUCT (tag : StructTag).

Record ModuleId := {
module_address : AccountAddress;
module_name : string;
}.

Record EntryFunction := {
ef_module : ModuleId;
ef_function : string;
ef_ty_args : list TypeTag;
ef_args : list (list byte);
}.

(** [abi.MoveFunction]; only [params] is read here. *)
Record MoveFunction := {
mf_name : string;
mf_visibility : string;
mf_is_entry : bool;
mf_is_view : bool;
mf_params : list string;
mf_return : list string;
}.

Record TransactionExtraConfigV1 := {
multisig_address : option AccountAddress;
replay_protection_nonce : option Z;
}.

Record TransactionExecutableEntryFunction := {
entry_function : EntryFunction;
}.

Record TransactionInnerPayloadV1 := {
executable : TransactionExecutableEntryFunction;
extra_config : TransactionExtraConfigV1;
}.

Record TransactionPayloadOrderless := {
inner_payload : TransactionInnerPayloadV1;
}.

(** [aptos_sdk.transactions.RawTransaction] as the builder fills it. *)
Record RawTransaction := {
sender : AccountAddress;
sequence_number : Z;
payload : TransactionPayloadOrderless;
max_gas_amount : Z;
gas_unit_price : Z;
expiration_timestamps_secs : Z;
chain_id : Z;
}.

Record SimpleTransaction := {
raw_transaction : RawTransaction;
fee_payer_address : option AccountAddress;
}.

Record InputEntryFunctionData := {
function : string;
function_arguments : list Any;
type_arguments : option (list string);
}.

(** *** Serialization of the orderless payload *)

Section Serialize.

(** The bytes [EntryFunction.serialize] ([aptos_sdk]) writes, or the
exception it raises. *)
Variable EntryFunction_bcs : EntryFunction -> result (list byte).

Definition EntryFunction_serialize (ef : EntryFunction) : Bcs.Ser :=
fun out => bs ← EntryFunction_bcs ef; Bcs.write bs out.

Import Bcs.

Definition TransactionExtraConfigV1_serialize
(self : TransactionExtraConfigV1) : Ser :=
uleb128 _EXTRA_CONFIG_VARIANT_V1 >>
(match multisig_address self with
| None => u8 0
| Some a => u8 1 >> AccountAddress_serialize a
end) >>
(match replay_protection_nonce self with
| None => u8 0
| Some n => u8 1 >> u64 n
end).

Definition TransactionExecutableEntryFunction_serialize
(self : TransactionExecutableEntryFunction) : Ser :=
uleb128 _EXECUTABLE_VARIANT_ENTRY_FUNCTION >>
EntryFunction_serialize (entry_function self).

Definition TransactionInnerPayloadV1_serialize
(self : TransactionInnerPayloadV1) : Ser :=
uleb128 _INNER_PAYLOAD_VARIANT_V1 >>
TransactionExecutableEntryFunction_serialize (executable self) >>
TransactionExtraConfigV1_serialize (extra_config self).

Definition TransactionPayloadOrderless_serialize
(self : TransactionPayloadOrderless) : Ser :=
uleb128 _PAYLOAD_VARIANT_ORDERLESS >>
TransactionInnerPayloadV1_serialize (inner_payload self).

End Serialize.

(** *** Building the entry function *)

Definition generate_expire_timestamp
(now : timestamp) (time_delta_ms default_txn_expiry_sec : Z) : Z :=
  whole_seconds now time_delta_ms + default_txn_expiry_sec.

(** [param.replace("&", "").strip()] *)
Definition normalize (param : string) : string :=
  PyStr.strip (PyStr.replace "&" "" param).

Fixpoint _find_first_non_signer_arg_from (i : nat) (params : list string) : nat :=
  match params with
  | [] => i
  | param :: rest =>
if String.eqb (normalize param) "signer"
then _find_first_non_signer_arg_from (S i) rest
else i
  end.

(** The loop returns the index of the first parameter that is not a
signer, and [len(params)] when it runs to the end. *)
Definition _find_first_non_signer_arg (params : list string) : nat :=
  _find_first_non_signer_arg_from 0 params.

(** [_parse_type_tag] strips its argument and recurses on
[type_str[7:-1]]; [depth] bounds the recursion depth and the
interpreter's [RecursionError] is raised at its end. *)
Fixpoint _parse_type_tag (depth : nat) (type_str : string) : result TypeTag :=
  let type_str := PyStr.strip type_str in
  if String.eqb type_str "bool" then Ok TypeTag_BOOL
  else if String.eqb type_str "u8" then Ok TypeTag_U8
  else if String.eqb type_str "u16" then Ok TypeTag_U16
  else if String.eqb type_str "u32" then Ok TypeTag_U32
  else if String.eqb type_str "u64" then Ok TypeTag_U64
  else if String.eqb type_str "u128" then Ok TypeTag_U128
  else if String.eqb type_str "u256" then Ok TypeTag_U256
  else if String.eqb type_str "address" then Ok TypeTag_ACCOUNT_ADDRESS
  else if String.eqb type_str "signer" then Ok TypeTag_SIGNER
  else if PyStr.startswith "vector<" type_str && PyStr.endswith ">" type_str then
match depth with
| O => Raise (LibraryError "RecursionError")
| S d =>
  let inner_type := PyStr.slice 7 (-1) type_str in
  inner_tag ← _parse_type_tag d inner_type;
  Ok (TypeTag_VECTOR inner_tag)
end
  else tag ← StructTag_from_str type_str; Ok (TypeTag_STRUCT tag).

(** Each nesting level removes at least eight characters, so the length
of the string bounds the depth. *)
Definition _parse_type_arguments (type_args : list string) : result (list TypeTag) :=
  mapM (fun t => _parse_type_tag (String.length t) t) type_args.

(** [addr = AccountAddress.from_str(arg) if isinstance(arg, str) else
arg; addr.serialize(serializer)] *)
Definition serialize_address_like (arg : Any) : Bcs.Ser :=
  match py_as_str arg with
  | Some s => fun out => addr ← AccountAddress_from_str s; AccountAddress_serialize addr out
  | None => py_serialize arg
  end.

Fixpoint _encode_argument (depth : nat) (arg : Any) (param_type : string)
: result (list byte) :=
  let normalized_type := normalize param_type in
  let type_is (t : string) := String.eqb normalized_type t in
  if type_is "bool" then b ← py_bool arg; Bcs.output (Bcs.bool b)
  else if type_is "u8" then n ← py_int arg; Bcs.output (Bcs.u8 n)
  else if type_is "u16" then n ← py_int arg; Bcs.output (Bcs.u16 n)
  else if type_is "u32" then n ← py_int arg; Bcs.output (Bcs.u32 n)
  else if type_is "u64" then n ← py_int arg; Bcs.output (Bcs.u64 n)
  else if type_is "u128" then n ← py_int arg; Bcs.output (Bcs.u128 n)
  else if type_is "u256" then n ← py_int arg; Bcs.output (Bcs.u256 n)
  else if type_is "address" then Bcs.output (serialize_address_like arg)
  else if type_is "vector<u8>" then
match py_as_bytes arg, py_as_str arg with
| Some bs, _ => Bcs.output (Bcs.to_bytes bs)
| None, Some s =>
  bs ← bytes_fromhex (PyStr.removeprefix "0x" s);
  Bcs.output (Bcs.to_bytes bs)
| None, None => bs ← py_bytes arg; Bcs.output (Bcs.to_bytes bs)
end
  else if PyStr.startswith "vector<" normalized_type then
(* _encode_vector_bytes(arg, normalized_type) *)
match depth with
| O => Raise (LibraryError "RecursionError")
| S d =>
  let inner_match := PyStr.slice 7 (-1) normalized_type in
  n ← py_len arg;
  head ← Bcs.output (Bcs.uleb128 (Z.of_nat n));
  items ← py_iter arg;
  encoded ← mapM (fun item => _encode_argument d item inner_match) items;
  Ok (head ++ List.concat encoded)
end
  else if type_is "0x1::string::String" then s ← py_str arg; Bcs.output (Bcs.str s)
  else if PyStr.contains "::option::Option<" normalized_type then
(* _encode_option_bytes(arg, normalized_type) *)
if py_is_none arg then Bcs.output (Bcs.u8 0)
else
match depth with
| O => Raise (LibraryError "RecursionError")
| S d =>
    head ← Bcs.output (Bcs.u8 1);
    let inner_start := PyStr.find "Option<" normalized_type + 7 in
    let inner_end := PyStr.rfind ">" normalized_type in
    let inner_type := PyStr.slice inner_start inner_end normalized_type in
    inner_bytes ← _encode_argument d arg inner_type;
    Ok (head ++ inner_bytes)
end
  else if PyStr.contains "::object::Object<" normalized_type
    || PyStr.endswith "::Object" normalized_type then
Bcs.output (serialize_address_like arg)
  else Raise (ValueError (CannotEncodeArgument (py_type_name arg) normalized_type)).

(** Every recursive call is on a strictly shorter type string. *)
Definition encode_argument (arg : Any) (param_type : string) : result (list byte) :=
  _encode_argument (String.length param_type) arg param_type.

Definition _encode_function_arguments (args : list Any) (param_types : list string)
: result (list (list byte)) :=
  if negb (List.length args =? List.length param_types)%nat then
Raise (ValueError (ArgumentCountMismatch (List.length param_types) (List.length args)))
  else
mapM (fun '(arg, param_type) => encode_argument arg param_type)
   (List.combine args param_types).

Definition _build_entry_function (data : InputEntryFunctionData) (abi : MoveFunction)
: result EntryFunction :=
  let parts := PyStr.split_colons (function data) in
  match parts with
  | [module_address; module_name; function_name] =>
addr ← AccountAddress_from_str module_address;
let module_id := {| module_address := addr; module_name := module_name |} in
type_tags ← _parse_type_arguments (default [] (type_arguments data));
let first_non_signer := _find_first_non_signer_arg (mf_params abi) in
let entry_params := List.skipn first_non_signer (mf_params abi) in
encoded_args ← _encode_function_arguments (function_arguments data) entry_params;
Ok {| ef_module := module_id; ef_function := function_name;
      ef_ty_args := type_tags; ef_args := encoded_args |}
  | _ => Raise (ValueError (InvalidFunctionFormat (function data)))
  end.

(** Keyword arguments with a default are [option]s: [None] is "not
passed". [now] is the reading of [time.time()] taken by
[generate_expire_timestamp]. *)
Definition build_simple_transaction_sync
(now : timestamp)
(sender : string + AccountAddress)
(data : InputEntryFunctionData)
(chain_id gas_unit_price : Z)
(abi : MoveFunction)
(with_fee_payer : bool)
(replay_protection_nonce : Z)
(time_delta_ms max_gas_amount default_txn_expiry_sec : option Z)
: result SimpleTransaction :=
  let time_delta_ms := default 0 time_delta_ms in
  let max_gas_amount := default 100000 max_gas_amount in
  let default_txn_expiry_sec := default 20 default_txn_expiry_sec in
  sender_address ←
match sender with
| inl s => AccountAddress_from_str s
| inr a => Ok a
end;
  entry_function ← _build_entry_function data abi;
  let executable := {| entry_function := entry_function |} in
  let extra_config :=
{| multisig_address := None;
 replay_protection_nonce := Some replay_protection_nonce |} in
  let inner_payload := {| executable := executable; extra_config := extra_config |} in
  let payload := {| inner_payload := inner_payload |} in
  let expire_timestamp :=
generate_expire_timestamp now time_delta_ms default_txn_expiry_sec in
  let raw_txn :=
{| sender := sender_address;
 sequence_number := DEADBEEF_SEQUENCE_NUMBER;
 payload := payload;
 max_gas_amount := max_gas_amount;
 gas_unit_price := gas_unit_price;
 expiration_timestamps_secs := expire_timestamp;
 chain_id := chain_id |} in
  fee_payer ←
(if with_fee_payer then a ← AccountAddress_from_str "0x0"; Ok (Some a)
else Ok None);
  Ok {| raw_transaction := raw_txn; fee_payer_address := fee_payer |}.

End WithExternals.
End TransactionBuilder.

(* ===================================================================== *)
(** ** [_transaction_builder.py]: reading the extra config back *)
(* ===================================================================== *)

Module Decode.
Section WithExternals.

Context {env : Externals}.
Import TransactionBuilder.

(** A [Deserializer] is the input not yet read. Its methods [uleb128],
    [u8] and [u64] and [AccountAddress.deserialize] belong to
    [aptos_sdk]: each returns the value read and the input left, or
    raises. *)
Record Reader := {
  read_uleb128 : list byte -> result (Z * list byte);
  read_u8 : list byte -> result (Z * list byte);
  read_u64 : list byte -> result (Z * list byte);
  read_address : list byte -> result (AccountAddress * list byte);
}.

(** How [TransactionExtraConfigV1.deserialize] ends: with the config
    and the input left, with its own [ValueError] "Unknown
    TransactionExtraConfig variant", or with an exception of a read. *)
Inductive outcome :=
  | Decoded (config : TransactionExtraConfigV1) (rest : list byte)
  | UnknownVariant (variant : Z)
  | ReadFailed (e : exn).

Definition TransactionExtraConfigV1_deserialize (deserializer : Reader)
    (input : list byte) : outcome :=
  match read_uleb128 deserializer input with
  | Raise e => ReadFailed e
  | Ok (variant, input) =>
      if negb (variant =? _EXTRA_CONFIG_VARIANT_V1) then UnknownVariant variant
      else
        match read_u8 deserializer input with
        | Raise e => ReadFailed e
        | Ok (flag, input) =>
            let has_multisig := flag =? 1 in
            match
              (if has_multisig then
                 match read_address deserializer input with
                 | Ok (a, input) => Ok (Some a, input)
                 | Raise e => Raise e
                 end
               else Ok (None, input))
            with
            | Raise e => ReadFailed e
            | Ok (multisig_address, input) =>
                match read_u8 deserializer input with
                | Raise e => ReadFailed e
                | Ok (flag, input) =>
                    let has_nonce := flag =? 1 in
                    match
                      (if has_nonce then
                         match read_u64 deserializer input with
                         | Ok (n, input) => Ok (Some n, input)
                         | Raise e => Raise e
                         end
                       else Ok (None, input))
                    with
                    | Raise e => ReadFailed e
                    | Ok (nonce, input) =>
                        Decoded {| multisig_address := multisig_address;
                                   replay_protection_nonce := nonce |} input
                    end
                end
            end
        end
  end.

(** The reads give back what the serializer's methods of the same name
    wrote: one-byte ULEB128 values (the variant tags), [u8] and [u64];
    and the address [a], when there is one, is written by appending
    bytes that [AccountAddress.deserialize] reads back. *)
Definition reads_back (deserializer : Reader) (a : option AccountAddress) : Prop :=
  (forall n bs rest, 0 <= n < 128 -> Bcs.uleb128 n [] = Ok bs ->
     read_uleb128 deserializer (bs ++ rest) = Ok (n, rest)) /\
  (forall n bs rest, Bcs.u8 n [] = Ok bs ->
     read_u8 deserializer (bs ++ rest) = Ok (n, rest)) /\
  (forall n bs rest, Bcs.u64 n [] = Ok bs ->
     read_u64 deserializer (bs ++ rest) = Ok (n, rest)) /\
  (forall address out out', a = Some address ->
     AccountAddress_serialize address out = Ok out' ->
     exists bs, out' = out ++ bs /\
       forall rest, read_address deserializer (bs ++ rest) = Ok (address, rest)).

End WithExternals.
End Decode.

(* ===================================================================== *)
(** ** The world the pipeline runs in *)
(* ===================================================================== *)

(** Random bits, the clock and the network are oracles: infinite tapes
    read front to back. Everything the code does to the outside (requests
    sent, sleeps, log records) is appended to the world, and the one
    mutable object shared between the SDK and its caller, the gas price
    manager, lives in it. *)
Module Env.
Section WithExternals.

Context {env : Externals}.

Inductive body :=
  | NoBody
  | Content (bytes : list byte)
  | Json (value : json).

Record Request := {
  req_method : string;
  req_url : string;
  req_headers : list (string * string);
  req_params : list (string * string);
  req_body : body;
}.

(** [httpx.Response]: [response.json()] may raise. *)
Record Response := {
  status_code : Z;
  text : string;
  response_json : result json;
}.

(** [response.is_success]: a 2xx status. *)
Definition is_success (r : Response) : bool :=
  (200 <=? status_code r) && (status_code r <=? 299).

Inductive Reply :=
  | NetworkError (e : exn)
  | Replied (r : Response).

(** [_gas_price_manager.py]: [GasPriceInfo] and the mutable fields of a
    manager; a task or thread is represented by whether it exists. *)
Record GasPriceInfo := {
  gas_estimate : Z;
  fetched_at : timestamp;
}.

Record GasPriceManager := {
  _gas_price : option GasPriceInfo;
  _refresh_task : bool;
  _is_initialized : bool;
}.

Inductive level := ERROR | WARNING | DEBUG.

Record World := {
  randbits_tape : nat -> Z;
  randbits_drawn : nat;
  clock_tape : nat -> timestamp;
  clock_read : nat;
  reply_tape : nat -> Reply;
  requests : list Request;
  sleeps : list Q;
  logged : list (level * string * exn);
  manager : GasPriceManager;
}.

(** State and exceptions: what a call did to the world before it raised
    stays done. *)
Definition M (A : Type) : Type := World -> result A * World.

Definition ret {A} (a : A) : M A := fun w => (Ok a, w).

Definition bind {A B} (m : M A) (f : A -> M B) : M B :=
  fun w =>
    match m w with
    | (Ok a, w') => f a w'
    | (Raise e, w') => (Raise e, w')
    end.

Definition raise {A} (e : exn) : M A := fun w => (Raise e, w).

Definition lift {A} (r : result A) : M A := fun w => (r, w).

(** [try: body except Exception as e: handler(e)] *)
Definition try_except {A} (body : M A) (handler : exn -> M A) : M A :=
  fun w =>
    match body w with
    | (Ok a, w') => (Ok a, w')
    | (Raise e, w') => handler e w'
    end.

(** [secrets.randbits(32)] *)
Definition randbits32 : M Z :=
  fun w =>
    (Ok (randbits_tape w (randbits_drawn w) mod 2 ^ 32),
     {| randbits_tape := randbits_tape w; randbits_drawn := S (randbits_drawn w);
clock_tape := clock_tape w; clock_read := clock_read w;
reply_tape := reply_tape w; requests := requests w; sleeps := sleeps w;
logged := logged w; manager := manager w |}).

(** [time.time()] *)
Definition time : M timestamp :=
  fun w =>
    (Ok (clock_tape w (clock_read w)),
     {| randbits_tape := randbits_tape w; randbits_drawn := randbits_drawn w;
clock_tape := clock_tape w; clock_read := S (clock_read w);
reply_tape := reply_tape w; requests := requests w; sleeps := sleeps w;
logged := logged w; manager := manager w |}).

(** [time.sleep(seconds)] / [await asyncio.sleep(seconds)] *)
Definition sleep (seconds : Q) : M unit :=
  fun w =>
    (Ok tt,
     {| randbits_tape := randbits_tape w; randbits_drawn := randbits_drawn w;
clock_tape := clock_tape w; clock_read := clock_read w;
reply_tape := reply_tape w; requests := requests w;
sleeps := sleeps w ++ [seconds];
logged := logged w; manager := manager w |}).

(** [logger.error(...)], [logger.warning(...)] with the exception
    interpolated. *)
Definition log (l : level) (site : string) (e : exn) : M unit :=
  fun w =>
    (Ok tt,
     {| randbits_tape := randbits_tape w; randbits_drawn := randbits_drawn w;
clock_tape := clock_tape w; clock_read := clock_read w;
reply_tape := reply_tape w; requests := requests w; sleeps := sleeps w;
logged := logged w ++ [(l, site, e)]; manager := manager w |}).

(** [client.get(...)] / [client.post(...)]: the request goes out, the
    next reply of the tape comes back. *)
Definition send (req : Request) : M Response :=
  fun w =>
    let w' :=
      {| randbits_tape := randbits_tape w; randbits_drawn := randbits_drawn w;
clock_tape := clock_tape w; clock_read := clock_read w;
reply_tape := reply_tape w; requests := requests w ++ [req];
sleeps := sleeps w; logged := logged w; manager := manager w |} in
    match reply_tape w (List.length (requests w)) with
    | NetworkError e => (Raise e, w')
    | Replied r => (Ok r, w')
    end.

Definition get_manager : M GasPriceManager := fun w => (Ok (manager w), w).

Definition set_manager (g : GasPriceManager) : M unit :=
  fun w =>
    (Ok tt,
     {| randbits_tape := randbits_tape w; randbits_drawn := randbits_drawn w;
clock_tape := clock_tape w; clock_read := clock_read w;
reply_tape := reply_tape w; requests := requests w; sleeps := sleeps w;
logged := logged w; manager := g |}).

(** The two halves the next call of the nonce generator draws. *)
Definition next_hi (w : World) : Z := randbits_tape w (randbits_drawn w) mod 2 ^ 32.
Definition next_lo (w : World) : Z := randbits_tape w (S (randbits_drawn w)) mod 2 ^ 32.

(** A computation that draws no random bits. *)
Definition keeps_draws {A} (m : M A) : Prop :=
  forall w r w', m w = (r, w') ->
    randbits_drawn w' = randbits_drawn w /\ randbits_tape w' = randbits_tape w.

End WithExternals.
End Env.

Notation "x <- m ;; k" := (Env.bind m (fun x => k))
  (at level 100, m at next level, right associativity,
   format "'[v' x  <-  m  ;;  '/' k ']'").
Notation "m ;;; k" := (Env.bind m (fun _ => k))
  (at level 100, right associativity).

(* ===================================================================== *)
(** ** [_utils.py]: the replay-protection nonce *)
(* ===================================================================== *)

Module Utils.
Section WithExternals.

Context {env : Externals}.

(** Two 32-bit draws; [None] when either is zero. *)
Definition generate_random_replay_protection_nonce : Env.M (option Z) :=
  hi <- Env.randbits32 ;;
  lo <- Env.randbits32 ;;
  if (hi =? 0) || (lo =? 0) then Env.ret None
  else Env.ret (Some (Z.lor (Z.shiftl hi 32) lo)).

(** The test of the event loop of [extract_vault_address_from_create_tx]:
    a dict whose ["type"] is a string containing
    ["::vault::VaultCreatedEvent"]. *)
Definition is_vault_created_event (event : json) : bool :=
  match event with
  | JDict event_dict =>
      match default (JStr "") (Dict.get "type" event_dict) with
      | JStr event_type => PyStr.contains "::vault::VaultCreatedEvent" event_type
      | _ => false
      end
  | _ => false
  end.

(** What the loop leaves in [vault_address]; it ends at the first
    event that passes the test. *)
Definition vault_of_events (events : list json) : option json :=
  match List.find is_vault_created_event events with
  | Some (JDict event_dict) =>
      match default (JDict []) (Dict.get "data" event_dict) with
      | JDict data_dict =>
          match Dict.get "vault" data_dict with
          | Some (JStr vault_val) => Some (JStr vault_val)
          | Some (JDict vault_val) => Some (JDict vault_val)
          | _ => None
          end
      | _ => None
      end
  | _ => None
  end.

(** [None] is the [ValueError] "Unable to extract vault address from
    transaction", the function's only exception. *)
Definition extract_vault_address_from_create_tx (create_vault_tx : list (string * json))
    : option json :=
  let vault_address :=
    match Dict.get "events" create_vault_tx with
    | Some (JList events) => vault_of_events events
    | _ => None
    end in
  match vault_address with
  | None => None
  | Some (JDict vault_address) => Dict.get "inner" vault_address
  | Some (JStr vault_address) => Some (JStr vault_address)
  | Some _ => None
  end.

End WithExternals.
End Utils.

(* ===================================================================== *)
(** ** [_gas_price_manager.py] *)
(* ===================================================================== *)

(** [GasPriceManager] and [GasPriceManagerSync] run the same statements,
    one with [await] and an asyncio task, the other with a daemon thread;
    one model serves both. *)
Module GasPriceManager.
Section WithExternals.

Context {env : Externals}.
Import Env.

Record GasPriceManagerOptions := {
  node_api_key : option string;
  multiplier : Q;
  refresh_interval_seconds : Q;
}.

Definition default_options : GasPriceManagerOptions :=
  {| node_api_key := None; multiplier := 2; refresh_interval_seconds := 60 |}.

Variable fullnode_url : string.
Variable opts : GasPriceManagerOptions.

(** A [str | None] is falsy when it is [None] or empty. *)
Definition truthy (s : option string) : bool :=
  match s with
  | Some s => negb (String.eqb s "")
  | None => false
  end.

Definition _build_auth_headers (api_key : option string) : list (string * string) :=
  match api_key with
  | Some k => if String.eqb k "" then [] else [("x-api-key", k)]
  | None => []
  end.

Definition gas_price (g : GasPriceManager) : option Z :=
  match _gas_price g with
  | None => None
  | Some info => Some (gas_estimate info)
  end.

Definition get_gas_price : M (option Z) :=
  g <- get_manager ;; ret (gas_price g).

(** [int(gas_estimate * self._multiplier)] on the decoded field. *)
Definition scaled (v : json) (m : Q) : result Z :=
  match v with
  | JInt n => int_of_int_times n m
  | JBool b => int_of_int_times (if b then 1 else 0) m
  | JFloat x => int_of_float_times x m
  | JNull | JStr _ | JList _ | JDict _ => Raise (LibraryError "TypeError")
  end.

Definition fetch_gas_price_estimation : M Z :=
  let url := String.append fullnode_url "/estimate_gas_price" in
  let headers := _build_auth_headers (node_api_key opts) in
  response <- send {| req_method := "GET"; req_url := url; req_headers := headers;
    req_params := []; req_body := NoBody |} ;;
  if negb (is_success response) then
    raise (ValueError (FailedToFetchGasPrice (status_code response) (text response)))
  else
    data <- lift (response_json response) ;;
    field <- lift (Dict.get_attr data "gas_estimate") ;;
    let gas_estimate := default (JInt 0) field in
    lift (scaled gas_estimate (multiplier opts)).

Definition fetch_and_set_gas_price : M Z :=
  try_except
    (gas_estimate <- fetch_gas_price_estimation ;;
     if gas_estimate =? 0 then raise (ValueError NoGasEstimate)
     else
       now <- time ;;
       g <- get_manager ;;
       set_manager {| _gas_price := Some {| gas_estimate := gas_estimate; fetched_at := now |};
    _refresh_task := _refresh_task g;
    _is_initialized := _is_initialized g |} ;;;
       ret gas_estimate)
    (fun e => log ERROR "Failed to fetch gas price" e ;;; raise e).

(** The refresh loop is started ([asyncio.create_task] /
    [Thread.start]) and the manager marked initialized only after the
    first fetch returned. *)
Definition initialize : M unit :=
  g <- get_manager ;;
  if _is_initialized g then ret tt
  else
    try_except
      (_ <- fetch_and_set_gas_price ;;
       g <- get_manager ;;
       set_manager {| _gas_price := _gas_price g; _refresh_task := true;
    _is_initialized := _is_initialized g |} ;;;
       g <- get_manager ;;
       set_manager {| _gas_price := _gas_price g; _refresh_task := _refresh_task g;
    _is_initialized := true |})
      (fun e => log ERROR "Failed to initialize gas price manager" e).

Definition destroy : M unit :=
  g <- get_manager ;;
  set_manager {| _gas_price := None; _refresh_task := false; _is_initialized := false |}.

(** [_safe_fetch], which is also the body of [GasPriceManagerSync.refresh]. *)
Definition _safe_fetch : M unit :=
  try_except
    (_ <- fetch_and_set_gas_price ;; ret tt)
    (fun e => log WARNING "Failed to fetch gas price" e).

(** The first [rounds] rounds of the [while True] loop of
    [_refresh_loop]. *)
Fixpoint _refresh_loop (rounds : nat) : M unit :=
  match rounds with
  | O => ret tt
  | S n =>
      sleep (refresh_interval_seconds opts) ;;;
      try_except
        (_ <- fetch_and_set_gas_price ;; ret tt)
        (fun e => log WARNING "Failed to fetch gas price during refresh" e) ;;;
      _refresh_loop n
  end.

End WithExternals.
End GasPriceManager.

(* ===================================================================== *)
(** ** [_constants.py] *)
(* ===================================================================== *)

Module Constants.

Inductive Network := MAINNET | TESTNET | CUSTOM.

Record DecibelConfig := {
  network : Network;
  fullnode_url : string;
  trading_http_url : string;
  trading_ws_url : string;
  gas_station_url : option string;
  gas_station_api_key : option string;
  chain_id : option Z;
}.

Definition is_testnet (n : Network) : bool :=
  match n with TESTNET => true | _ => false end.

End Constants.

(** Signing and the BCS encodings [aptos_sdk] provides for the
    transaction types. *)
Class AptosTransactions {env : Externals} := {
  Account : Type;
  AccountAuthenticator : Type;
  (** [signer.address()] *)
  account_address : Account -> AccountAddress;
  (** [raw_txn.sign(signer.private_key)] and
      [FeePayerRawTransaction(raw_txn, [], fee_payer).sign(signer.private_key)] *)
  sign_raw : Account -> TransactionBuilder.RawTransaction -> result AccountAuthenticator;
  sign_fee_payer : Account -> TransactionBuilder.RawTransaction -> AccountAddress
                   -> result AccountAuthenticator;
  (** [EntryFunction.serialize], [RawTransaction.serialize],
      [AccountAuthenticator.serialize] *)
  EntryFunction_bcs : TransactionBuilder.EntryFunction -> result (list byte);
  RawTransaction_serialize : TransactionBuilder.RawTransaction -> Bcs.Ser;
  AccountAuthenticator_serialize : AccountAuthenticator -> Bcs.Ser;
  (** [SignedTransaction(raw_txn, authenticator).bytes()] for the
      authenticator built from the account's public key and a signature,
      alone or with a fee payer slot. *)
  SignedTransaction_bytes :
    TransactionBuilder.RawTransaction -> Account -> list byte -> option AccountAddress
    -> result (list byte);
  (** [str(address)] *)
  AccountAddress_str : AccountAddress -> string;
}.

(* ===================================================================== *)
(** ** [_fee_pay.py] *)
(* ===================================================================== *)

(** The [async] functions and their [_sync] twins run the same
    statements; one model serves both. *)
Module FeePay.
Section WithExternals.

Context {env : Externals} {txs : AptosTransactions}.
Import Env Constants TransactionBuilder.

Record PendingTransactionResponse := {
  hash : string;
  pt_sender : string;
  pt_sequence_number : string;
  pt_max_gas_amount : string;
  pt_gas_unit_price : string;
  pt_expiration_timestamp_secs : string;
}.

Definition truthy := GasPriceManager.truthy.

(** [list(serializer.output())] as a JSON array of byte values. *)
Definition byte_list (bs : list byte) : json :=
  JList (List.map (fun b => JInt (Bcs.Z_of_byte b)) bs).

Definition _get_default_gas_station_url (config : DecibelConfig) : result string :=
  if is_testnet (network config) then Ok "https://api.testnet.aptoslabs.com/gs/v1"
  else if bool_decide (Constants.chain_id config = Some 208) then Ok "https://api.netna.aptoslabs.com/gs/v1"
  else
    match gas_station_url config with
    | Some url => if String.eqb url "" then Raise (ValueError GasStationUrlMustBeProvided)
                  else Ok url
    | None => Raise (ValueError GasStationUrlMustBeProvided)
    end.

(** [f"{x}"] of a [str | None] *)
Definition fmt (s : option string) : string := default "None" s.

Definition _submit_via_gas_station_api
    (config : DecibelConfig) (transaction : SimpleTransaction)
    (sender_authenticator : AccountAuthenticator) : M PendingTransactionResponse :=
  base_url <- lift (_get_default_gas_station_url config) ;;
  let url := String.append base_url "/api/transaction/signAndSubmit" in
  let raw_txn := raw_transaction transaction in
  transaction_bytes <- lift (Bcs.output (Bcs.seq
    (RawTransaction_serialize raw_txn)
    (match fee_payer_address transaction with
     | None => Bcs.bool false
     | Some a => Bcs.seq (Bcs.bool true) (AccountAddress_serialize a)
     end))) ;;
  authenticator_bytes <- lift (Bcs.output (AccountAuthenticator_serialize sender_authenticator)) ;;
  let body := JDict [("transactionBytes", byte_list transaction_bytes);
                     ("senderAuth", byte_list authenticator_bytes)] in
  let headers := [("Content-Type", "application/json");
                  ("Authorization",
                   String.append "Bearer " (fmt (gas_station_api_key config)))] in
  response <- send {| req_method := "POST"; req_url := url; req_headers := headers;
req_params := []; req_body := Json body |} ;;
  if negb (is_success response) then
    raise (ValueError (GasStationApiError (status_code response) (text response)))
  else
    data <- lift (response_json response) ;;
    fallback <- lift (Dict.get_attr data "hash") ;;
    first <- lift (Dict.get_attr data "transactionHash") ;;
    let transaction_hash := default (default (JStr "") fallback) first in
    match transaction_hash with
    | JStr h =>
        ret {| hash := h;
               pt_sender := AccountAddress_str (sender raw_txn);
               pt_sequence_number := str_of_int (sequence_number raw_txn);
               pt_max_gas_amount := str_of_int (max_gas_amount raw_txn);
               pt_gas_unit_price := str_of_int (gas_unit_price raw_txn);
               pt_expiration_timestamp_secs :=
                 str_of_int (expiration_timestamps_secs raw_txn) |}
    | _ => raise (LibraryError "ValidationError")
    end.

Definition _submit_via_legacy_fee_payer
    (config : DecibelConfig) (transaction : SimpleTransaction)
    (sender_authenticator : AccountAuthenticator) : M PendingTransactionResponse :=
  let url := String.append (fmt (gas_station_url config)) "/transactions" in
  signature_bytes <- lift (Bcs.output (AccountAuthenticator_serialize sender_authenticator)) ;;
  transaction_bytes <- lift (Bcs.output (RawTransaction_serialize (raw_transaction transaction))) ;;
  let body := JDict [("signature", byte_list signature_bytes);
                     ("transaction", byte_list transaction_bytes)] in
  let headers := [("Content-Type", "application/json")] in
  response <- send {| req_method := "POST"; req_url := url; req_headers := headers;
req_params := []; req_body := Json body |} ;;
  if negb (is_success response) then
    raise (ValueError (FeePayerError (status_code response) (text response)))
  else
    data <- lift (response_json response) ;;
    let field (key : string) : M string :=
      v <- lift (Dict.get_attr data key) ;; ret (json_str (default (JStr "") v)) in
    h <- field "hash" ;;
    s <- field "sender" ;;
    n <- field "sequence_number" ;;
    g <- field "max_gas_amount" ;;
    p <- field "gas_unit_price" ;;
    e <- field "expiration_timestamp_secs" ;;
    ret {| hash := h; pt_sender := s; pt_sequence_number := n; pt_max_gas_amount := g;
           pt_gas_unit_price := p; pt_expiration_timestamp_secs := e |}.

Definition submit_fee_paid_transaction
    (config : DecibelConfig) (transaction : SimpleTransaction)
    (sender_authenticator : AccountAuthenticator) : M PendingTransactionResponse :=
  if truthy (gas_station_api_key config) then
    _submit_via_gas_station_api config transaction sender_authenticator
  else if truthy (gas_station_url config) then
    _submit_via_legacy_fee_payer config transaction sender_authenticator
  else raise (ValueError EitherKeyOrUrlMustBeProvided).

End WithExternals.
End FeePay.

(* ===================================================================== *)
(** ** [_base.py] *)
(* ===================================================================== *)

(** [BaseSDK] and [BaseSDKSync] run the same statements (the latter may
    reuse one [httpx.Client]); one model serves both. *)
Module Base.
Section WithExternals.

Context {env : Externals} {txs : AptosTransactions}.
Import Env Constants TransactionBuilder FeePay.

Definition DEFAULT_MAX_GAS_AMOUNT : Z := 200000.
Definition DEFAULT_GAS_ESTIMATE : Z := 100.
Definition MAX_GAS_UNITS_LIMIT : Z := 2000000.

(** The fields [__init__] sets. [_abi_registry] is the table of the
    chain's ABI file; [_gas_price_manager] holds the node URL and the
    options of the manager the SDK was given, whose mutable state is
    the world's. *)
Record BaseSDK := {
  _config : DecibelConfig;
  _account : Account;
  _chain_id : option Z;
  _abi_registry : gmap string MoveFunction;
  _skip_simulate : bool;
  _no_fee_payer : bool;
  _node_api_key : option string;
  _gas_price_manager : option (string * GasPriceManager.GasPriceManagerOptions);
  _time_delta_ms : Z;
}.

Definition _get_abi (self : BaseSDK) (function_id : string) : option MoveFunction :=
  _abi_registry self !! function_id.

Definition _build_node_headers (self : BaseSDK) : list (string * string) :=
  match _node_api_key self with
  | Some k => if String.eqb k "" then [] else [("x-api-key", k)]
  | None => []
  end.

Definition _fetch_gas_price_estimation (self : BaseSDK) : M Z :=
  let url := String.append (fullnode_url (_config self)) "/estimate_gas_price" in
  let headers := _build_node_headers self in
  response <- send {| req_method := "GET"; req_url := url; req_headers := headers;
                      req_params := []; req_body := NoBody |} ;;
  if negb (is_success response) then
    raise (ValueError (FailedToFetchGasPrice (status_code response) (text response)))
  else
    data <- lift (response_json response) ;;
    field <- lift (Dict.get_attr data "gas_estimate") ;;
    lift (json_int (default (JInt DEFAULT_GAS_ESTIMATE) field)).

(** [x or DEFAULT_MAX_GAS_AMOUNT]: [None] and [0] are both falsy. *)
Definition or_default (x : option Z) (d : Z) : Z :=
  match x with
  | Some v => if v =? 0 then d else v
  | None => d
  end.

Definition build_tx (self : BaseSDK) (data : InputEntryFunctionData)
    (sender : AccountAddress) (max_gas_amount gas_unit_price : option Z)
    : M SimpleTransaction :=
  let function_abi := _get_abi self (function data) in
  nonce <- Utils.generate_random_replay_protection_nonce ;;
  match nonce with
  | None => raise (ValueError UnableToGenerateNonce)
  | Some nonce =>
      match function_abi, _chain_id self with
      | Some function_abi, Some chain_id =>
          gas_unit_price <-
            match gas_unit_price with
            | Some p => ret p
            | None =>
                match _gas_price_manager self with
                | Some (url, opts) =>
                    cached_price <- GasPriceManager.get_gas_price ;;
                    match cached_price with
                    | Some p => ret p
                    | None => GasPriceManager.fetch_and_set_gas_price url opts
                    end
                | None => _fetch_gas_price_estimation self
                end
            end ;;
          now <- time ;;
          lift (build_simple_transaction_sync now (inr sender) data chain_id
                  gas_unit_price function_abi (negb (_no_fee_payer self)) nonce
                  (Some (_time_delta_ms self))
                  (Some (or_default max_gas_amount DEFAULT_MAX_GAS_AMOUNT))
                  None)
      | _, _ => raise (ValueError (CannotBuildTransaction (function data)))
      end
  end.

Definition _serialize_for_simulation (self : BaseSDK) (transaction : SimpleTransaction)
    : result (list byte) :=
  let zero_signature := List.repeat x00 64 in
  SignedTransaction_bytes (raw_transaction transaction) (_account self)
    zero_signature (fee_payer_address transaction).

Definition _serialize_signed_transaction (transaction : SimpleTransaction)
    (sender_authenticator : AccountAuthenticator) : result (list byte) :=
  Bcs.output (Bcs.seq (RawTransaction_serialize (raw_transaction transaction))
                      (AccountAuthenticator_serialize sender_authenticator)).

Definition _simulate_transaction (self : BaseSDK) (transaction : SimpleTransaction)
    : M json :=
  let url := String.append (fullnode_url (_config self)) "/transactions/simulate" in
  let headers := _build_node_headers self
                 ++ [("Content-Type", "application/x.aptos.signed_transaction+bcs")] in
  bcs_bytes <- lift (_serialize_for_simulation self transaction) ;;
  response <- send {| req_method := "POST"; req_url := url; req_headers := headers;
                      req_params := [("estimate_max_gas_amount", "true");
         ("estimate_gas_unit_price", "true")];
                      req_body := Content bcs_bytes |} ;;
  if negb (is_success response) then
    raise (ValueError (SimulationFailed (status_code response) (text response)))
  else
    data <- lift (response_json response) ;;
    match data with
    | JList (first :: _) => ret first
    | _ => raise (ValueError SimulationReturnedEmptyResults)
    end.

Definition _submit_direct (self : BaseSDK) (transaction : SimpleTransaction)
    (sender_authenticator : AccountAuthenticator) : M PendingTransactionResponse :=
  let url := String.append (fullnode_url (_config self)) "/transactions" in
  let headers := _build_node_headers self
                 ++ [("Content-Type", "application/x.aptos.signed_transaction+bcs")] in
  bcs_bytes <- lift (_serialize_signed_transaction transaction sender_authenticator) ;;
  response <- send {| req_method := "POST"; req_url := url; req_headers := headers;
                      req_params := []; req_body := Content bcs_bytes |} ;;
  if negb (is_success response) then
    raise (ValueError (SubmissionFailed (status_code response) (text response)))
  else
    data <- lift (response_json response) ;;
    h <- lift (Dict.get_attr data "hash") ;;
    let raw_txn := raw_transaction transaction in
    ret {| hash := json_str (default (JStr "") h);
           pt_sender := AccountAddress_str (sender raw_txn);
           pt_sequence_number := str_of_int (sequence_number raw_txn);
           pt_max_gas_amount := str_of_int (max_gas_amount raw_txn);
           pt_gas_unit_price := str_of_int (gas_unit_price raw_txn);
           pt_expiration_timestamp_secs :=
             str_of_int (expiration_timestamps_secs raw_txn) |}.

Definition submit_tx (self : BaseSDK) (transaction : SimpleTransaction)
    (sender_authenticator : AccountAuthenticator) : M PendingTransactionResponse :=
  if _no_fee_payer self then _submit_direct self transaction sender_authenticator
  else submit_fee_paid_transaction (_config self) transaction sender_authenticator.

Definition _sign_transaction (signer : Account) (transaction : SimpleTransaction)
    : result AccountAuthenticator :=
  let raw_txn := raw_transaction transaction in
  match fee_payer_address transaction with
  | Some fee_payer => sign_fee_payer signer raw_txn fee_payer
  | None => sign_raw signer raw_txn
  end.

(** *** Polling *)

Inductive poll_step :=
  | Pending
  | Succeeded (data : json)
  | Failed (vm_status : json).

(** [v == "pending_transaction"], [v is True], [v is False] for the
    result [v] of a [dict.get]. *)
Definition eq_str (v : option json) (s : string) : bool :=
  match v with Some (JStr t) => String.eqb t s | _ => false end.

Definition is_bool (v : option json) (b : bool) : bool :=
  match v with Some (JBool c) => Bool.eqb c b | _ => false end.

(** The [if response.is_success:] block of the poll loop. *)
Definition classify (response : Response) : result poll_step :=
  if is_success response then
    data ← response_json response;
    tx_type ← Dict.get_attr data "type";
    if eq_str tx_type "pending_transaction" then Ok Pending
    else
      success ← Dict.get_attr data "success";
      if is_bool success true then Ok (Succeeded data)
      else if is_bool success false then
        vm_status ← Dict.get_attr data "vm_status";
        Ok (Failed (default (JStr "Unknown error") vm_status))
      else Ok Pending
  else Ok Pending.

(** The [while True] loop, for at most [rounds] rounds; [None] when the
    loop is still running after them. *)
Fixpoint poll_loop (rounds : nat) (request : Request) (tx_hash : string)
    (start_time : timestamp) (timeout_secs poll_interval_secs : Q)
    : M (option json) :=
  match rounds with
  | O => ret None
  | S n =>
      response <- send request ;;
      step <- lift (classify response) ;;
      match step with
      | Succeeded data => ret (Some data)
      | Failed vm_status =>
          raise (ValueError (TransactionFailed (json_str vm_status)))
      | Pending =>
          now <- time ;;
          if elapsed_exceeds now start_time timeout_secs then
            raise (TimeoutError (DidNotCompleteWithin tx_hash timeout_secs))
          else
            sleep poll_interval_secs ;;;
            poll_loop n request tx_hash start_time timeout_secs poll_interval_secs
      end
  end.

Definition _wait_for_transaction (rounds : nat) (self : BaseSDK) (tx_hash : string)
    (timeout_secs poll_interval_secs : option Q) : M (option json) :=
  let timeout_secs := default (30 : Q) timeout_secs in
  let poll_interval_secs := default (1 : Q) poll_interval_secs in
  let url := String.append (fullnode_url (_config self))
               (String.append "/transactions/by_hash/" tx_hash) in
  let headers := _build_node_headers self in
  start_time <- time ;;
  poll_loop rounds
    {| req_method := "GET"; req_url := url; req_headers := headers;
       req_params := []; req_body := NoBody |}
    tx_hash start_time timeout_secs poll_interval_secs.

(** *** The send flow *)

(** [d.get(key) is None]: the key is missing or its value is [null]. *)
Definition is_none (v : option json) : bool :=
  match v with
  | None | Some JNull => true
  | Some _ => false
  end.

(** [_send_tx] up to the envelope it signs: build, and unless
    simulation is skipped, simulate and rebuild. *)
Definition _send_tx_transaction (self : BaseSDK) (payload : InputEntryFunctionData)
    (signer : Account) : M SimpleTransaction :=
  let sender := account_address signer in
  transaction <- build_tx self payload sender None None ;;
  if negb (_skip_simulate self) then
    sim_result <- _simulate_transaction self transaction ;;
    max_gas_amount_str <- lift (Dict.get_attr sim_result "max_gas_amount") ;;
    gas_unit_price_str <- lift (Dict.get_attr sim_result "gas_unit_price") ;;
    if is_none max_gas_amount_str || is_none gas_unit_price_str then
      raise (ValueError SimulationReturnedNoResults)
    else
      simulated_max_gas <- lift (json_int (default JNull max_gas_amount_str)) ;;
      simulated_gas_price <- lift (json_int (default JNull gas_unit_price_str)) ;;
      let max_gas_amount :=
        Z.min (Z.max (simulated_max_gas * 2) DEFAULT_MAX_GAS_AMOUNT)
              MAX_GAS_UNITS_LIMIT in
      let gas_unit_price := Z.max simulated_gas_price 1 in
      build_tx self payload sender (Some max_gas_amount) (Some gas_unit_price)
  else ret transaction.

Definition _send_tx (rounds : nat) (self : BaseSDK) (payload : InputEntryFunctionData)
    (account_override : option Account) : M (option json) :=
  let signer := default (_account self) account_override in
  transaction <- _send_tx_transaction self payload signer ;;
  sender_authenticator <- lift (_sign_transaction signer transaction) ;;
  pending_tx <- submit_tx self transaction sender_authenticator ;;
  _wait_for_transaction rounds self (hash pending_tx) None None.

End WithExternals.
End Base.

(* ===================================================================== *)
(** ** [read/_ws.py]: the subscription multiplexer *)
(* ===================================================================== *)

Module Ws.
Section WithExternals.

Context {env : Externals}.

(** [_get_subscribe_message] / [_get_unsubscribe_message]: the control
    message, by its two fields. *)
Inductive control :=
  | Subscribe (topic : string)
  | Unsubscribe (topic : string).

(** What [asyncio.create_task] was called with, and timer
    cancellations. *)
Inductive task :=
  | SendTask (message : control)
  | OpenTask
  | DelayedCloseTask
  | ResetTopicTask (topic : string)
  | CancelCloseTimer.

#[local] Unset Elimination Schemes.

(** What a callback does to the multiplexer while it runs. [on_data]
    is the user's code: it holds the multiplexer and the [unsubscribe]
    closures it was given, so that it can subscribe, unsubscribe and
    reset before it returns or raises. The coroutine [close] is not
    modelled, here or elsewhere. *)
Inductive call :=
  | CallSubscribe (topic : string) (on_data : json -> list call * result unit)
  | CallUnsubscribe (topic : string) (listener : nat)
  | CallReset (topic : string).
#[local] Set Elimination Schemes.

(** A listener is the closure [subscribe] creates; closures are
    compared by identity, which is the number [subscribe] gave them.
    [listener_body] is what calling the closure with a payload does
    ([model.model_validate] followed by [on_data]): the calls it makes
    on the multiplexer, in order, and how it ends. *)
Record DecibelWsSubscription := {
  _ws : bool;
  _subscriptions : gmap string (gset nat);
  _reconnect_attempts : nat;
  _running : bool;
  _close_timer_task : bool;
  listener_body : gmap nat (json -> list call * result unit);
  next_listener : nat;
  tasks : list task;
  delivered : list (nat * string * json);
  listener_errors : list (string * exn);
}.

Definition with_subscriptions (subs : gmap string (gset nat))
    (self : DecibelWsSubscription) : DecibelWsSubscription :=
  {| _ws := _ws self; _subscriptions := subs;
     _reconnect_attempts := _reconnect_attempts self; _running := _running self;
     _close_timer_task := _close_timer_task self;
     listener_body := listener_body self; next_listener := next_listener self;
     tasks := tasks self; delivered := delivered self;
     listener_errors := listener_errors self |}.

Definition create_task (t : task) (self : DecibelWsSubscription)
    : DecibelWsSubscription :=
  {| _ws := _ws self; _subscriptions := _subscriptions self;
     _reconnect_attempts := _reconnect_attempts self; _running := _running self;
     _close_timer_task := _close_timer_task self;
     listener_body := listener_body self; next_listener := next_listener self;
     tasks := tasks self ++ [t]; delivered := delivered self;
     listener_errors := listener_errors self |}.

Definition set_close_timer (b : bool) (self : DecibelWsSubscription)
    : DecibelWsSubscription :=
  {| _ws := _ws self; _subscriptions := _subscriptions self;
     _reconnect_attempts := _reconnect_attempts self; _running := _running self;
     _close_timer_task := b;
     listener_body := listener_body self; next_listener := next_listener self;
     tasks := tasks self; delivered := delivered self;
     listener_errors := listener_errors self |}.

(** *** Parsing *)

(** [_utils.bigint_reviver] *)
Definition bigint_reviver (obj : list (string * json)) : result json :=
  match Dict.get "$bigint" obj with
  | Some (JStr s) => n ← int_of_str s; Ok (JInt n)
  | _ => Ok (JDict obj)
  end.

(** [object_hook]: the decoder calls the hook on every object once its
    members are decoded, and puts the hook's result in its place. *)
Fixpoint revive (j : json) : result json :=
  match j with
  | JList items =>
      items' ← (fix go (l : list json) : result (list json) :=
                  match l with
                  | [] => Ok []
                  | x :: l' => x' ← revive x; r ← go l'; Ok (x' :: r)
                  end) items;
      Ok (JList items')
  | JDict items =>
      items' ← (fix go (l : list (string * json)) : result (list (string * json)) :=
                  match l with
                  | [] => Ok []
                  | (k, v) :: l' => v' ← revive v; r ← go l'; Ok ((k, v') :: r)
                  end) items;
      bigint_reviver items'
  | _ => Ok j
  end.

(** [None] is the return value [None]. *)
Definition _parse_message (data : string)
    : result (option (string * list (string * json))) :=
  match json_loads data with
  | None => Raise (ValueError (FailedToParseJson data))
  | Some raw =>
      json_data ← revive raw;
      match json_data with
      | JDict items =>
          match Dict.get "topic" items with
          | Some (JStr topic) =>
              if Dict.mem "success" items then Ok None
              else Ok (Some (topic, Dict.without "topic" items))
          | _ => Raise (ValueError (MissingTopicField data))
          end
      | _ => Raise (ValueError (MissingTopicField data))
      end
  end.

(** *** Subscribing and unsubscribing *)

Definition subscribe (topic : string) (body : json -> list call * result unit)
    (self : DecibelWsSubscription) : nat * DecibelWsSubscription :=
  let listeners := default ∅ (_subscriptions self !! topic) in
  let is_new_topic := bool_decide (listeners = ∅) in
  let listener := next_listener self in
  let self :=
    {| _ws := _ws self;
       _subscriptions := <[topic := {[listener]} ∪ listeners]> (_subscriptions self);
       _reconnect_attempts := _reconnect_attempts self; _running := _running self;
       _close_timer_task := _close_timer_task self;
       listener_body := <[listener := body]> (listener_body self);
       next_listener := S listener;
       tasks := tasks self; delivered := delivered self;
       listener_errors := listener_errors self |} in
  let self := if is_new_topic && _ws self
              then create_task (SendTask (Subscribe topic)) self else self in
  let self := if negb (_ws self) then create_task OpenTask self else self in
  let self := if _close_timer_task self
              then set_close_timer false (create_task CancelCloseTimer self)
              else self in
  (listener, self).

Definition _unsubscribe_topic (topic : string) (self : DecibelWsSubscription)
    : DecibelWsSubscription :=
  match _subscriptions self !! topic with
  | None => self
  | Some _ =>
      let self := with_subscriptions (delete topic (_subscriptions self)) self in
      let self := if _ws self
                  then create_task (SendTask (Unsubscribe topic)) self else self in
      if bool_decide (_subscriptions self = ∅)
      then set_close_timer true (create_task DelayedCloseTask self)
      else self
  end.

Definition _unsubscribe_listener (topic : string) (listener : nat)
    (self : DecibelWsSubscription) : DecibelWsSubscription :=
  match _subscriptions self !! topic with
  | None => self
  | Some listeners =>
      let listeners := listeners ∖ {[listener]} in
      let self := with_subscriptions (<[topic := listeners]> (_subscriptions self)) self in
      if bool_decide (listeners = ∅) then _unsubscribe_topic topic self else self
  end.

(** The closure [subscribe] returns. *)
Definition unsubscribe (topic : string) (listener : nat) :=
  _unsubscribe_listener topic listener.

Definition reset (topic : string) (self : DecibelWsSubscription)
    : DecibelWsSubscription :=
  match _subscriptions self !! topic with
  | None => self
  | Some _ => if _ws self then create_task (ResetTopicTask topic) self else self
  end.

(** *** The receive loop *)

(** A frame of the socket: text or binary. *)
Inductive frame :=
  | Text (data : string)
  | Binary (data : list byte).

(** One call a callback makes on the multiplexer. *)
Definition perform (self : DecibelWsSubscription) (c : call) : DecibelWsSubscription :=
  match c with
  | CallSubscribe topic on_data => snd (subscribe topic on_data self)
  | CallUnsubscribe topic listener => unsubscribe topic listener self
  | CallReset topic => reset topic self
  end.

(** The calls [listener(data)] makes on the multiplexer. *)
Definition calls_by (self : DecibelWsSubscription) (data : json) (listener : nat)
    : list call :=
  match listener_body self !! listener with
  | Some body => fst (body data)
  | None => []
  end.

(** The exception [listener(data)] ends with, if it raises, as the
    receive loop logs it. *)
Definition raised_by (self : DecibelWsSubscription) (topic : string) (data : json)
    (listener : nat) : option (string * exn) :=
  match listener_body self !! listener with
  | Some body => match snd (body data) with
                 | Raise e => Some (topic, e)
                 | Ok _ => None
                 end
  | None => None
  end.

Definition log_delivered (entry : nat * string * json) (self : DecibelWsSubscription)
    : DecibelWsSubscription :=
  {| _ws := _ws self; _subscriptions := _subscriptions self;
     _reconnect_attempts := _reconnect_attempts self; _running := _running self;
     _close_timer_task := _close_timer_task self;
     listener_body := listener_body self; next_listener := next_listener self;
     tasks := tasks self; delivered := delivered self ++ [entry];
     listener_errors := listener_errors self |}.

Definition log_listener_error (entry : string * exn) (self : DecibelWsSubscription)
    : DecibelWsSubscription :=
  {| _ws := _ws self; _subscriptions := _subscriptions self;
     _reconnect_attempts := _reconnect_attempts self; _running := _running self;
     _close_timer_task := _close_timer_task self;
     listener_body := listener_body self; next_listener := next_listener self;
     tasks := tasks self; delivered := delivered self;
     listener_errors := listener_errors self ++ [entry] |}.

(** One call [listener(data)] inside [try ... except Exception]: the
    listener is called, what it does to the multiplexer happens while it
    runs, and an exception it ends with is logged. *)
Definition call_listener (topic : string) (data : json)
    (self : DecibelWsSubscription) (listener : nat) : DecibelWsSubscription :=
  let self := log_delivered (listener, topic, data) self in
  match listener_body self !! listener with
  | Some body =>
      let '(calls, outcome) := body data in
      let self := foldl perform self calls in
      match outcome with
      | Ok _ => self
      | Raise e => log_listener_error (topic, e) self
      end
  | None => self
  end.

(** The body of [async for message in self._ws]. The listeners called
    are those of the topic when the message arrives
    ([list(listeners)]), whatever the callbacks do to the table
    meanwhile. *)
Definition on_message (message : frame) (self : DecibelWsSubscription)
    : result DecibelWsSubscription :=
  match message with
  | Binary _ => Raise (ValueError ExpectedStringData)
  | Text data =>
      parsed ← _parse_message data;
      match parsed with
      | None => Ok self
      | Some (topic, data) =>
          match _subscriptions self !! topic with
          | Some listeners =>
              Ok (foldl (call_listener topic (JDict data)) self (elements listeners))
          | None => Ok self
          end
      end
  end.

(** *** The receive loop as a whole *)

(** The frames are handled in order until one raises; a handler raises
    before it has changed anything. *)
Fixpoint receive_frames (messages : list frame) (self : DecibelWsSubscription)
    : DecibelWsSubscription * option exn :=
  match messages with
  | [] => (self, None)
  | message :: rest =>
      match on_message message self with
      | Ok self => receive_frames rest self
      | Raise e => (self, Some e)
      end
  end.

(** How [_receive_loop] ends: the multiplexer it leaves, the exception
    it logged and passed to [on_error], and whether it went on to
    [_schedule_reconnect]. *)
Record LoopEnd := {
  left_state : DecibelWsSubscription;
  reported : option exn;
  reconnects : bool;
}.

(** [_receive_loop] on a socket that yields [messages] and is then
    closed by the peer. *)
Definition _receive_loop (messages : list frame) (self : DecibelWsSubscription)
    : LoopEnd :=
  if negb (_ws self) then
    {| left_state := self; reported := None; reconnects := false |}
  else
    let (self, error) := receive_frames messages self in
    let self :=
      {| _ws := false; _subscriptions := _subscriptions self;
         _reconnect_attempts := _reconnect_attempts self; _running := false;
         _close_timer_task := _close_timer_task self;
         listener_body := listener_body self; next_listener := next_listener self;
         tasks := tasks self; delivered := delivered self;
         listener_errors := listener_errors self |} in
    {| left_state := self; reported := error;
       reconnects := negb (bool_decide (_subscriptions self = ∅)) |}.

(** *** The multiplexer over its life *)

(** [__init__] *)
Definition __init__ : DecibelWsSubscription :=
  {| _ws := false; _subscriptions := ∅; _reconnect_attempts := 0; _running := false;
     _close_timer_task := false; listener_body := ∅; next_listener := 0;
     tasks := []; delivered := []; listener_errors := [] |}.

(** What happens to a multiplexer: the calls of its users, frames
    arriving, and the socket being opened or lost. *)
Inductive event :=
  | Subscribes (topic : string) (body : json -> list call * result unit)
  | Unsubscribes (topic : string) (listener : nat)
  | Resets (topic : string)
  | Receives (message : frame)
  | Socket (held : bool).

Definition after (self : DecibelWsSubscription) (ev : event) : DecibelWsSubscription :=
  match ev with
  | Subscribes topic body => snd (subscribe topic body self)
  | Unsubscribes topic listener => unsubscribe topic listener self
  | Resets topic => reset topic self
  | Receives message =>
      match on_message message self with
      | Ok self => self
      | Raise _ => self
      end
  | Socket held =>
      {| _ws := held; _subscriptions := _subscriptions self;
         _reconnect_attempts := _reconnect_attempts self; _running := held;
         _close_timer_task := _close_timer_task self;
         listener_body := listener_body self; next_listener := next_listener self;
         tasks := tasks self; delivered := delivered self;
         listener_errors := listener_errors self |}
  end.

(** Every topic of the table has a listener. *)
Definition no_empty_topic (self : DecibelWsSubscription) : Prop :=
  forall topic listeners, _subscriptions self !! topic = Some listeners -> listeners <> ∅.

(** The closures in the table were created before the next one. *)
Definition listeners_known (self : DecibelWsSubscription) : Prop :=
  forall topic listeners listener,
    _subscriptions self !! topic = Some listeners -> listener ∈ listeners ->
    (listener < next_listener self)%nat.

(** The control messages handed to [self._ws.send], in order. *)
Definition messages (self : DecibelWsSubscription) : list control :=
  omap (fun t => match t with SendTask m => Some m | _ => None end) (tasks self).

(** The number of [_open()] tasks created. *)
Definition opens (self : DecibelWsSubscription) : nat :=
  List.length (List.filter (fun t => match t with OpenTask => true | _ => false end)
                 (tasks self)).

End WithExternals.
End Ws.

(* ===================================================================== *)
(** ** Observations on a run *)
(* ===================================================================== *)

(** What a call did to the outside is read off the two worlds around
    it. *)
Module Trace.
Section WithExternals.

Context {env : Externals}.
Import Env.

(** The requests sent between [w] and [w'], in order. *)
Definition added (w w' : World) (rs : list Request) : Prop :=
  requests w' = requests w ++ rs.

(** The reply the next request of [w] gets. *)
Definition next_reply (w : World) : Reply :=
  reply_tape w (List.length (requests w)).

Context {txs : AptosTransactions}.

(** Where [build_tx] asks for the gas price: at the node of the gas
    price manager when the SDK has one, at the SDK's own otherwise. *)
Definition estimate_url (self : Base.BaseSDK) : string :=
  String.append
    match Base._gas_price_manager self with
    | Some (url, _) => url
    | None => Constants.fullnode_url (Base._config self)
    end "/estimate_gas_price".

(** The two requests the send flow makes before it signs. *)
Definition is_estimate (self : Base.BaseSDK) (req : Request) : Prop :=
  req_method req = "GET" /\ req_url req = estimate_url self /\ req_body req = NoBody.

Definition is_simulation (self : Base.BaseSDK) (req : Request) : Prop :=
  req_method req = "POST" /\
  req_url req = String.append (Constants.fullnode_url (Base._config self))
                  "/transactions/simulate".

End WithExternals.
End Trace.

(* ===================================================================== *)
(** ** A small environment to run the model in *)
(* ===================================================================== *)

(** The examples at the end of the file run the model in this
    environment. Call arguments are [None] or an [int]; addresses are
    their 32 bytes; a struct tag is kept as its source text; readings of
    the clock are rationals and float arithmetic on them is exact;
    [json.loads] knows the three documents below; a signature is the
    pair of the key and the envelope it covers. *)
Module Sample.

Inductive pyobj :=
  | PyNone
  | PyInt (n : Z).

Definition hex_digit (c : ascii) : option Z :=
  let n := Z.of_nat (nat_of_ascii c) in
  if (48 <=? n) && (n <=? 57) then Some (n - 48)
  else if (97 <=? n) && (n <=? 102) then Some (n - 87)
  else if (65 <=? n) && (n <=? 70) then Some (n - 55)
  else None.

Fixpoint hex_pairs (s : string) : option (list byte) :=
  match s with
  | EmptyString => Some []
  | String a (String b rest) =>
      match hex_digit a, hex_digit b, hex_pairs rest with
      | Some h, Some l, Some bs => Some (Bcs.byte_of_Z (16 * h + l) :: bs)
      | _, _, _ => None
      end
  | String _ EmptyString => None
  end.

(** [AccountAddress.from_str]: ["0x"] and one hex digit (a special
    address) or ["0x"] and 64 hex digits. *)
Definition address_from_str (s : string) : result (list byte) :=
  match s with
  | String "0" (String "x" (String d EmptyString)) =>
      match hex_digit d with
      | Some v => Ok (List.repeat x00 31 ++ [Bcs.byte_of_Z v])
      | None => Raise (LibraryError "RuntimeError")
      end
  | String "0" (String "x" rest) =>
      if Nat.eqb (String.length rest) 64 then
        match hex_pairs rest with
        | Some bs => Ok bs
        | None => Raise (LibraryError "RuntimeError")
        end
      else Raise (LibraryError "RuntimeError")
  | _ => Raise (LibraryError "RuntimeError")
  end.

Fixpoint digits (s : string) (acc : Z) : option Z :=
  match s with
  | EmptyString => Some acc
  | String c rest =>
      let n := Z.of_nat (nat_of_ascii c) in
      if (48 <=? n) && (n <=? 57) then digits rest (10 * acc + (n - 48)) else None
  end.

(** [int(s)] on a non-empty string of ASCII digits. *)
Definition int_of_digits (s : string) : result Z :=
  match s with
  | EmptyString => Raise (LibraryError "ValueError")
  | _ => match digits s 0 with
         | Some n => Ok n
         | None => Raise (LibraryError "ValueError")
         end
  end.

Definition quote : string := String (ascii_of_nat 34) EmptyString.

Definition quoted (s : string) : string :=
  String.append quote (String.append s quote).

(** [{"success": true}] *)
Definition ack_without_topic : string :=
  String.append "{" (String.append (quoted "success") ": true}").

(** [{"topic": "prices:0xM", "success": true}] *)
Definition ack_with_topic : string :=
  String.append "{" (String.append (quoted "topic") (String.append ": "
    (String.append (quoted "prices:0xM") (String.append ", "
      (String.append (quoted "success") ": true}"))))).

(** [{"topic": "prices:0xM", "mark_px": 100}] *)
Definition price_update : string :=
  String.append "{" (String.append (quoted "topic") (String.append ": "
    (String.append (quoted "prices:0xM") (String.append ", "
      (String.append (quoted "mark_px") ": 100}"))))).

Definition loads (text : string) : option json :=
  if String.eqb text ack_without_topic then
    Some (JDict [("success", JBool true)])
  else if String.eqb text ack_with_topic then
    Some (JDict [("topic", JStr "prices:0xM"); ("success", JBool true)])
  else if String.eqb text price_update then
    Some (JDict [("topic", JStr "prices:0xM"); ("mark_px", JInt 100)])
  else None.

(** Truncation toward zero of a rational. *)
Definition trunc (q : Q) : Z := Z.quot (Qnum q) (Zpos (Qden q)).

Definition str_json (v : json) : string :=
  match v with
  | JNull => "None"
  | JBool true => "True"
  | JBool false => "False"
  | JInt n => pretty n
  | JFloat x => x
  | JStr s => s
  | JList _ => "[...]"
  | JDict _ => "{...}"
  end.

#[export] Instance externals : Externals := {|
  AccountAddress := list byte;
  AccountAddress_from_str := address_from_str;
  AccountAddress_serialize := Bcs.fixed_bytes;
  StructTag := string;
  StructTag_from_str := fun s => Ok s;
  Any := pyobj;
  py_is_none := fun a => match a with PyNone => true | PyInt _ => false end;
  py_bool := fun a => match a with PyNone => Ok false | PyInt n => Ok (negb (n =? 0)) end;
  py_int := fun a => match a with
                     | PyNone => Raise (LibraryError "TypeError")
                     | PyInt n => Ok n
                     end;
  py_str := fun a => match a with PyNone => Ok "None" | PyInt n => Ok (pretty n) end;
  py_bytes := fun a => match a with
                       | PyNone => Raise (LibraryError "TypeError")
                       | PyInt n => if n <? 0 then Raise (LibraryError "ValueError")
  else Ok (List.repeat x00 (Z.to_nat n))
                       end;
  py_as_str := fun _ => None;
  py_as_bytes := fun _ => None;
  py_len := fun _ => Raise (LibraryError "TypeError");
  py_iter := fun _ => Raise (LibraryError "TypeError");
  py_serialize := fun _ => Bcs.throw (LibraryError "AttributeError");
  py_type_name := fun a => match a with PyNone => "NoneType" | PyInt _ => "int" end;
  bytes_fromhex := fun s => match hex_pairs s with
                            | Some bs => Ok bs
                            | None => Raise (LibraryError "ValueError")
                            end;
  int_of_str := int_of_digits;
  int_of_float := fun _ => Raise (LibraryError "ValueError");
  int_of_float_times := fun _ _ => Raise (LibraryError "ValueError");
  int_of_int_times := fun n m => Ok (trunc (inject_Z n * m));
  str_of_json := str_json;
  str_of_int := pretty;
  json_loads := loads;
  timestamp := Q;
  whole_seconds := fun t delta => trunc ((t * 1000 + inject_Z delta) / 1000);
  elapsed_exceeds := fun now start bound =>
    match Qlt_le_dec bound (now - start) with left _ => true | right _ => false end;
|}.

Import TransactionBuilder.

Record account := {
  address : list byte;
  public_key : list byte;
}.

Record signature := {
  signed_by : account;
  signed_envelope : RawTransaction;
  signed_fee_payer : option (list byte);
}.

Fixpoint sequence_of_bytes (items : list (list byte)) : Bcs.Ser :=
  match items with
  | [] => Bcs.skip
  | a :: rest => Bcs.seq (Bcs.to_bytes a) (sequence_of_bytes rest)
  end.

(** [EntryFunction.serialize] for an entry function without type
    arguments: module address, module name, function name, an empty
    sequence, the sequence of arguments as byte strings. *)
Definition entry_function_bcs (ef : EntryFunction) : result (list byte) :=
  match ef_ty_args ef with
  | [] =>
      Bcs.output (Bcs.seq (Bcs.fixed_bytes (module_address (ef_module ef)))
        (Bcs.seq (Bcs.str (module_name (ef_module ef)))
        (Bcs.seq (Bcs.str (ef_function ef))
        (Bcs.seq (Bcs.uleb128 0)
        (Bcs.seq (Bcs.uleb128 (Z.of_nat (List.length (ef_args ef))))
                 (sequence_of_bytes (ef_args ef)))))))
  | _ => Raise (LibraryError "NotImplementedError")
  end.

(** [RawTransaction.serialize]: sender, sequence number, payload, gas
    budget, expiration, chain id. *)
Definition raw_transaction_serialize (raw : RawTransaction) : Bcs.Ser :=
  Bcs.seq (Bcs.fixed_bytes (sender raw))
    (Bcs.seq (Bcs.u64 (sequence_number raw))
    (Bcs.seq (TransactionPayloadOrderless_serialize entry_function_bcs (payload raw))
    (Bcs.seq (Bcs.u64 (max_gas_amount raw))
    (Bcs.seq (Bcs.u64 (gas_unit_price raw))
    (Bcs.seq (Bcs.u64 (expiration_timestamps_secs raw))
             (Bcs.u8 (TransactionBuilder.chain_id raw))))))).

(** A reader for the sample environment: one byte for a ULEB128 value
    below 128 and for a [u8], eight bytes for a [u64], 32 bytes for an
    address. *)
Definition take (length : nat) (input : list byte) : result (list byte * list byte) :=
  if (length <=? List.length input)%nat
  then Ok (List.firstn length input, List.skipn length input)
  else Raise (LibraryError "Exception").

Definition reader : @Decode.Reader externals :=
  {| Decode.read_uleb128 := fun input =>
       '(bs, rest) ← take 1 input;
       if Bcs.from_bytes_little bs <? 128 then Ok (Bcs.from_bytes_little bs, rest)
       else Raise (LibraryError "NotImplementedError");
     Decode.read_u8 := fun input =>
       '(bs, rest) ← take 1 input; Ok (Bcs.from_bytes_little bs, rest);
     Decode.read_u64 := fun input =>
       '(bs, rest) ← take 8 input; Ok (Bcs.from_bytes_little bs, rest);
     Decode.read_address := take 32 |}.

#[export] Instance transactions : AptosTransactions := {|
  Account := account;
  AccountAuthenticator := signature;
  account_address := address;
  sign_raw := fun a raw =>
    Ok {| signed_by := a; signed_envelope := raw; signed_fee_payer := None |};
  sign_fee_payer := fun a raw payer =>
    Ok {| signed_by := a; signed_envelope := raw; signed_fee_payer := Some payer |};
  EntryFunction_bcs := entry_function_bcs;
  RawTransaction_serialize := raw_transaction_serialize;
  AccountAuthenticator_serialize := fun s =>
    Bcs.seq (Bcs.u8 0) (Bcs.seq (Bcs.to_bytes (public_key (signed_by s)))
(Bcs.to_bytes (List.repeat x00 64)));
  SignedTransaction_bytes := fun raw a sig payer =>
    Bcs.output (Bcs.seq (raw_transaction_serialize raw)
      (Bcs.seq (Bcs.u8 (match payer with Some _ => 3 | None => 0 end))
      (Bcs.seq (Bcs.to_bytes (public_key a)) (Bcs.to_bytes sig))));
  AccountAddress_str := fun a =>
    String.append "0x" (String.concat "" (List.map (fun b => pretty (Bcs.Z_of_byte b)) a));
|}.

End Sample.

(** Concrete inputs for the examples. *)
Module Scenario.

Import TransactionBuilder Constants Sample.
#[local] Existing Instance Sample.externals.
#[local] Existing Instance Sample.transactions.

(** An entry function [(&signer, u64, u64)] called with two integers. *)
Definition transfer_abi : MoveFunction :=
  {| mf_name := "fn"; mf_visibility := "public"; mf_is_entry := true;
     mf_is_view := false; mf_params := ["&signer"; "u64"; "u64"]; mf_return := [] |}.

Definition transfer : InputEntryFunctionData :=
  {| function := "0x1::mod::fn";
     function_arguments := [PyInt 5; PyInt 7];
     type_arguments := None |}.

(** The same call with one argument missing. *)
Definition transfer_short : InputEntryFunctionData :=
  {| function := "0x1::mod::fn";
     function_arguments := [PyInt 5];
     type_arguments := None |}.

Definition nonce : Z := Z.lor (Z.shiftl 5 32) 9.

(** A reading of the clock. *)
Definition noon : @timestamp Sample.externals := (1700000000 : Q).

Definition alice : account :=
  {| address := List.repeat x00 31 ++ [x0a]; public_key := List.repeat x01 32 |}.

Import Env Base.

Definition config : DecibelConfig :=
  {| network := CUSTOM;
     fullnode_url := "http://node";
     trading_http_url := "http://trading";
     trading_ws_url := "ws://trading";
     gas_station_url := None;
     gas_station_api_key := None;
     Constants.chain_id := Some 208 |}.

(** An SDK without gas price manager that submits directly. *)
Definition sdk : BaseSDK :=
  {| _config := config;
     _account := alice;
     _chain_id := Some 208;
     _abi_registry := {[ "0x1::mod::fn" := transfer_abi ]};
     _skip_simulate := false;
     _no_fee_payer := true;
     _node_api_key := None;
     _gas_price_manager := None;
     _time_delta_ms := 0 |}.

Definition idle_manager : GasPriceManager :=
  {| _gas_price := None; _refresh_task := false; _is_initialized := false |}.

(** A fresh world: the given random bits and replies, a clock that
    advances by [tick] seconds between two readings. *)
Definition world (bits : nat -> Z) (replies : nat -> Reply) (tick : Q) : World :=
  {| randbits_tape := bits;
     randbits_drawn := 0;
     clock_tape := fun n => (1700000000 + inject_Z (Z.of_nat n) * tick)%Q;
     clock_read := 0;
     reply_tape := replies;
     requests := [];
     sleeps := [];
     logged := [];
     manager := idle_manager |}.

Definition reply (status : Z) (body : json) : Reply :=
  Replied {| status_code := status; text := ""; response_json := Ok body |}.

(** The first high half is zero, every later draw is not. *)
Definition bits_zero_first (n : nat) : Z :=
  match n with O => 0 | _ => 6 + Z.of_nat n end.

Definition bits_nonzero (n : nat) : Z := 6 + Z.of_nat n.

Definition unreachable (_ : nat) : Reply := NetworkError (LibraryError "ConnectError").

Definition always_503 (_ : nat) : Reply :=
  Replied {| status_code := 503; text := "unavailable";
             response_json := Raise (LibraryError "JSONDecodeError") |}.

(** A gateway that answers every request with status 200 and a page
    that is not JSON. *)
Definition always_html (_ : nat) : Reply :=
  Replied {| status_code := 200; text := "<html></html>";
             response_json := Raise (LibraryError "JSONDecodeError") |}.

(** The first request finds the node unreachable; later ones get a gas
    estimate of 100. *)
Definition flaky_node (n : nat) : Reply :=
  match n with
  | O => NetworkError (LibraryError "ConnectError")
  | _ => reply 200 (JDict [("gas_estimate", JInt 100)])
  end.

Definition accepted (_ : nat) : Reply :=
  reply 200 (JDict [("hash", JStr "0xabc")]).

(** Testnet without relay URL and without API key. *)
Definition testnet_bare : DecibelConfig :=
  {| Constants.network := TESTNET;
     fullnode_url := "https://api.testnet.aptoslabs.com/v1";
     trading_http_url := "https://api.testnet.aptoslabs.com/decibel";
     trading_ws_url := "wss://api.testnet.aptoslabs.com/decibel/ws";
     gas_station_url := None;
     gas_station_api_key := None;
     Constants.chain_id := Some 2 |}.

(** A custom network with a relay URL and no API key. *)
Definition custom_with_relay : DecibelConfig :=
  {| Constants.network := CUSTOM;
     fullnode_url := "http://node";
     trading_http_url := "http://trading";
     trading_ws_url := "ws://trading";
     gas_station_url := Some "http://fee-payer:8080";
     gas_station_api_key := None;
     Constants.chain_id := None |}.

(** Testnet with an API key and a relay URL of its own. *)
Definition testnet_with_key : DecibelConfig :=
  {| Constants.network := TESTNET;
     fullnode_url := "https://api.testnet.aptoslabs.com/v1";
     trading_http_url := "https://api.testnet.aptoslabs.com/decibel";
     trading_ws_url := "wss://api.testnet.aptoslabs.com/decibel/ws";
     gas_station_url := Some "http://my-relay";
     gas_station_api_key := Some "key";
     Constants.chain_id := Some 2 |}.

Definition envelope : SimpleTransaction :=
  {| raw_transaction :=
       {| sender := address alice;
          sequence_number := DEADBEEF_SEQUENCE_NUMBER;
          payload :=
            {| inner_payload :=
                 {| executable :=
                      {| entry_function :=
                           {| ef_module :=
                                {| module_address := List.repeat x00 31 ++ [x01];
                                   module_name := "mod" |};
                              ef_function := "fn";
                              ef_ty_args := [];
                              ef_args := [] |} |};
                    extra_config :=
                      {| multisig_address := None;
                         replay_protection_nonce := Some nonce |} |} |};
          max_gas_amount := 200000;
          gas_unit_price := 100;
          expiration_timestamps_secs := 1700000020;
          TransactionBuilder.chain_id := 208 |};
     fee_payer_address := Some (List.repeat x00 32) |}.

Definition envelope_signature : signature :=
  {| signed_by := alice;
     signed_envelope := raw_transaction envelope;
     signed_fee_payer := Some (List.repeat x00 32) |}.

(** Gas estimate 100, then a simulation that used 60000 units at price
    5, as the node reports them. *)
Definition node_replies (n : nat) : Reply :=
  match n with
  | O => reply 200 (JDict [("gas_estimate", JInt 100)])
  | _ => reply 200 (JList [JDict [("max_gas_amount", JStr "60000");
                                   ("gas_unit_price", JStr "5")]])
  end.

(** The SDK with a gas price manager at its node. *)
Definition sdk_with_manager : BaseSDK :=
  {| _config := config;
     _account := alice;
     _chain_id := Some 208;
     _abi_registry := {[ "0x1::mod::fn" := transfer_abi ]};
     _skip_simulate := false;
     _no_fee_payer := true;
     _node_api_key := None;
     _gas_price_manager := Some ("http://node", GasPriceManager.default_options);
     _time_delta_ms := 0 |}.

(** A second account, and a call of a function the ABI does not list. *)
Definition bob : account :=
  {| address := List.repeat x00 31 ++ [x0b]; public_key := List.repeat x02 32 |}.

Definition unlisted : InputEntryFunctionData :=
  {| function := "0x1::mod::gone";
     function_arguments := [];
     type_arguments := None |}.

(** Gas estimate 100, then a node that rejects the simulation. *)
Definition simulation_down (n : nat) : Reply :=
  match n with
  | O => reply 200 (JDict [("gas_estimate", JInt 100)])
  | _ => Replied {| status_code := 503; text := "unavailable";
                    response_json := Raise (LibraryError "JSONDecodeError") |}
  end.

(** A transaction that is pending at the first poll and has succeeded
    at the second. *)
Definition committed : list (string * json) :=
  [("type", JStr "user_transaction"); ("success", JBool true);
   ("vm_status", JStr "Executed successfully")].

Definition settles_second (n : nat) : Reply :=
  match n with
  | O => reply 200 (JDict [("type", JStr "pending_transaction")])
  | _ => reply 200 (JDict committed)
  end.

(** A transaction with an unrelated event and two vault-created
    events, the first naming its vault as an object, the second as a
    string. *)
Definition create_vault_tx : list (string * json) :=
  [("hash", JStr "0xabc");
   ("events",
    JList [JDict [("type", JStr "0x1::coin::DepositEvent"); ("data", JDict [])];
           JDict [("type", JStr "0x5::vault::VaultCreatedEvent");
                  ("data", JDict [("vault", JDict [("inner", JStr "0xf1")])])];
           JDict [("type", JStr "0x5::vault::VaultCreatedEvent");
                  ("data", JDict [("vault", JStr "0xf2")])]])].

(** A listener that accepts every payload, and one whose callback
    raises. *)
Definition accepting (_ : json) : list Ws.call * result unit := ([], Ok tt).

Definition rejecting (_ : json) : list Ws.call * result unit :=
  ([], Raise (LibraryError "KeyError")).

(** A multiplexer that holds a socket and has two listeners on one
    topic, the second of them rejecting. *)
Definition watching : Ws.DecibelWsSubscription :=
  foldl Ws.after Ws.__init__
    [Ws.Socket true;
     Ws.Subscribes "prices:0xM" accepting;
     Ws.Subscribes "prices:0xM" rejecting].

(** A multiplexer with one listener and no socket yet. *)
Definition waiting : Ws.DecibelWsSubscription :=
  foldl Ws.after Ws.__init__ [Ws.Subscribes "prices:0xM" accepting].

(** A multiplexer that holds a socket and has one listener. *)
Definition watching_alone : Ws.DecibelWsSubscription :=
  foldl Ws.after Ws.__init__
    [Ws.Socket true; Ws.Subscribes "prices:0xM" accepting].



(** A gas estimate of 100 for the first request, of 0 for every later
    one. *)
Definition drained_node (n : nat) : Reply :=
  match n with
  | O => reply 200 (JDict [("gas_estimate", JInt 100)])
  | _ => reply 200 (JDict [("gas_estimate", JInt 0)])
  end.

End Scenario.

(* ===================================================================== *)
(** ** The specification's wording *)
(* ===================================================================== *)

(** Definitions that follow the specification's sentences, to compare
    the code with. *)
Module Spec.

(** A "signer-type" parameter: its declared type is [signer], by value
    or by reference. The reference marks [&] and the blanks around the
    type are not part of the type's name. *)
Fixpoint drop_blanks (cs : list ascii) : list ascii :=
  match cs with
  | [] => []
  | c :: rest => if PyStr.isspace c then drop_blanks rest else cs
  end.

Definition type_name (param : string) : list ascii :=
  let letters :=
    List.filter (fun c => negb (Ascii.eqb c "&")) (list_ascii_of_string param) in
  List.rev (drop_blanks (List.rev (drop_blanks letters))).

Definition signer_type (param : string) : bool :=
  String.eqb (string_of_list_ascii (type_name param)) "signer".

(** "The declared parameters are filtered to drop leading signer-type
    parameters": remove parameters from the front for as long as they
    are of signer type. *)
Fixpoint drop_leading_signers (params : list string) : list string :=
  match params with
  | [] => []
  | param :: rest =>
      if signer_type param then drop_leading_signers rest else params
  end.

(** "max(2x simulated_gas, default_ceiling) capped at an absolute ceiling
    (2,000,000 units)" and "max(simulated_price, 1)". *)
Definition rebuilt_max_gas (simulated_max_gas : Z) : Z :=
  Z.min (Z.max (2 * simulated_max_gas) 200000) 2000000.

Definition rebuilt_gas_price (simulated_gas_price : Z) : Z :=
  Z.max simulated_gas_price 1.

(** The terminal status a poll response contains, "success=true" or
    "success=false". A response whose body is not a JSON object
    contains none. *)
Definition terminal_status {env : Externals} (r : Env.Response) : option bool :=
  match Env.response_json r with
  | Ok (JDict items) =>
      match Dict.get "success" items with
      | Some (JBool b) => Some b
      | _ => None
      end
  | _ => None
  end.

(** The poll responses without terminal status that can be read: an
    HTTP failure, whatever its body, or a JSON object whose ["success"]
    field is neither [true] nor [false]. *)
Definition no_terminal_status {env : Externals} (r : Env.Response) : bool :=
  negb (Env.is_success r)
  || match Env.response_json r with
     | Ok (JDict items) =>
         negb (Base.is_bool (Dict.get "success" items) true)
         && negb (Base.is_bool (Dict.get "success" items) false)
     | _ => false
     end.

End Spec.

(* ===================================================================== *)
(** * Properties *)
(* ===================================================================== *)

(** Examples are stated in the sample environment; the theorems are
    stated for every environment. *)
#[local] Existing Instance Sample.externals.
#[local] Existing Instance Sample.transactions.

(** ** BCS integers *)

Lemma Z_of_byte_of_Z (z : Z) : Bcs.Z_of_byte (Bcs.byte_of_Z z) = z mod 256.
Proof.
  unfold Bcs.Z_of_byte, Bcs.byte_of_Z.
  assert (Hr : 0 <= z mod 256 < 256) by (apply Z.mod_pos_bound; lia).
  destruct (Byte.of_N (Z.to_N (z mod 256))) as [b|] eqn:E.
  - apply Byte.to_of_N in E. rewrite E. rewrite Z2N.id; lia.
  - apply Byte.of_N_None_iff in E. lia.
Qed.

(** Reading back the little-endian bytes of a value gives the value
    modulo [256 ^ length]. *)
Lemma from_to_bytes_little (len : nat) (n : Z) :
  0 <= n -> Bcs.from_bytes_little (Bcs.to_bytes_little len n) = n mod 256 ^ Z.of_nat len.
Proof.
  revert n. induction len as [|len IH]; intros n Hn.
  - cbn. rewrite Z.mod_1_r. reflexivity.
  - cbn [Bcs.to_bytes_little Bcs.from_bytes_little].
    rewrite Z_of_byte_of_Z, IH by (apply Z.div_pos; lia).
    rewrite Nat2Z.inj_succ, Z.pow_succ_r by lia.
    rewrite Z.rem_mul_r by lia. reflexivity.
Qed.

Lemma uint_in_range (len : nat) (n : Z) (out : list byte) :
  0 <= n < 256 ^ Z.of_nat len ->
  Bcs.uint (256 ^ Z.of_nat len - 1) len n out = Ok (out ++ Bcs.to_bytes_little len n).
Proof.
  intros Hn. unfold Bcs.uint, Bcs._write_int.
  replace (256 ^ Z.of_nat len - 1 <? n) with false by (symmetry; apply Z.ltb_ge; lia).
  replace (n <? 0) with false by (symmetry; apply Z.ltb_ge; lia).
  replace (256 ^ Z.of_nat len <=? n) with false by (symmetry; apply Z.leb_gt; lia).
  reflexivity.
Qed.

Lemma u8_in_range (n : Z) (out : list byte) :
  0 <= n < 256 -> Bcs.u8 n out = Ok (out ++ [Bcs.byte_of_Z n]).
Proof. intros Hn. apply (uint_in_range 1 n out). exact Hn. Qed.

Lemma u64_in_range (n : Z) (out : list byte) :
  0 <= n < 2 ^ 64 -> Bcs.u64 n out = Ok (out ++ Bcs.to_bytes_little 8 n).
Proof. intros Hn. apply (uint_in_range 8 n out). exact Hn. Qed.

(** A value below 128 is its own one-byte ULEB128 encoding. *)
Lemma uleb128_one_byte (n : Z) (out : list byte) :
  0 <= n < 128 -> Bcs.uleb128 n out = Ok (out ++ [Bcs.byte_of_Z n]).
Proof.
  intros Hn. unfold Bcs.uleb128, Bcs.MAX_U32.
  replace (2 ^ 32 - 1 <? n) with false by (symmetry; apply Z.ltb_ge; lia).
  unfold Bcs.uleb128_loop.
  replace (128 <=? n) with false by (symmetry; apply Z.leb_gt; lia).
  replace (Z.land n 127) with n.
  - apply u8_in_range. lia.
  - symmetry. change 127 with (Z.ones 7). rewrite Z.land_ones by lia.
    apply Z.mod_small. change (2 ^ 7) with 128. lia.
Qed.

(** ** [mapM] *)

Lemma mapM_lookup {A B} (f : A -> result B) (xs : list A) (ys : list B) :
  mapM f xs = Ok ys ->
  List.length ys = List.length xs /\
  forall (i : nat) (x : A), xs !! i = Some x -> exists y, ys !! i = Some y /\ f x = Ok y.
Proof.
  revert ys. induction xs as [|x xs IH]; intros ys Hm; cbn in Hm.
  - inversion Hm; subst. split; [reflexivity|]. intros i x Hx. destruct i; discriminate.
  - destruct (f x) as [y|e] eqn:Ef; cbn in Hm; [|discriminate].
    destruct (mapM f xs) as [ys'|e] eqn:Em; cbn in Hm; [|discriminate].
    inversion Hm; subst. destruct (IH ys' eq_refl) as [Hlen Hall].
    split; [cbn; congruence|].
    intros [|i] x' Hx; cbn in Hx.
    + inversion Hx; subst. exists y. split; [reflexivity|exact Ef].
    + apply Hall in Hx. exact Hx.
Qed.

(** ** The transaction builder *)

Section BuilderProperties.

Context {env : Externals} {txs : AptosTransactions}.
Import TransactionBuilder.

(** A transaction the builder returns is the record assembled from its
    arguments, the parsed sender, the built entry function and the fee
    payer placeholder. *)
Lemma build_simple_transaction_sync_ok
    now sender_arg data chain price abi with_fee_payer nonce delta max_gas expiry txn :
  build_simple_transaction_sync now sender_arg data chain price abi with_fee_payer
    nonce delta max_gas expiry = Ok txn ->
  exists sender_address ef fee_payer,
    _build_entry_function data abi = Ok ef /\
    txn = {| raw_transaction :=
               {| sender := sender_address;
                  sequence_number := DEADBEEF_SEQUENCE_NUMBER;
                  payload :=
                    {| inner_payload :=
                         {| executable := {| entry_function := ef |};
                            extra_config :=
                              {| multisig_address := None;
                                 replay_protection_nonce := Some nonce |} |} |};
                  max_gas_amount := default 100000 max_gas;
                  gas_unit_price := price;
                  expiration_timestamps_secs :=
                    generate_expire_timestamp now (default 0 delta) (default 20 expiry);
                  chain_id := chain |};
             fee_payer_address := fee_payer |}.
Proof.
  unfold build_simple_transaction_sync. intros Hb.
  destruct (match sender_arg with inl s => AccountAddress_from_str s | inr a => Ok a end)
    as [sender_address|e]; cbn [mbind result_bind] in Hb; [|discriminate].
  destruct (_build_entry_function data abi) as [ef|e];
    cbn [mbind result_bind] in Hb; [|discriminate].
  destruct with_fee_payer.
  - destruct (AccountAddress_from_str "0x0") as [a|e];
      cbn [mbind result_bind] in Hb; [|discriminate].
    inversion Hb; subst. eauto.
  - cbn [mbind result_bind] in Hb. inversion Hb; subst. eauto.
Qed.

Lemma payload_bytes (ef : EntryFunction) (nonce : Z) (out : list byte) :
  0 <= nonce < 2 ^ 64 ->
  TransactionPayloadOrderless_serialize EntryFunction_bcs
    {| inner_payload :=
         {| executable := {| entry_function := ef |};
            extra_config := {| multisig_address := None;
                               replay_protection_nonce := Some nonce |} |} |} out
  = (ef_bytes ← EntryFunction_bcs ef;
     Ok (out ++ [x04; x00; x01] ++ ef_bytes ++ [x00; x00; x01]
             ++ Bcs.to_bytes_little 8 nonce)).
Proof.
  intros Hn.
  unfold TransactionPayloadOrderless_serialize, TransactionInnerPayloadV1_serialize,
    TransactionExecutableEntryFunction_serialize, TransactionExtraConfigV1_serialize,
    EntryFunction_serialize, Bcs.seq, Bcs.write.
  unfold _PAYLOAD_VARIANT_ORDERLESS, _INNER_PAYLOAD_VARIANT_V1,
    _EXECUTABLE_VARIANT_ENTRY_FUNCTION, _EXTRA_CONFIG_VARIANT_V1.
  cbn [inner_payload executable extra_config entry_function multisig_address
       replay_protection_nonce].
  rewrite !uleb128_one_byte by lia. cbn [mbind result_bind].
  rewrite !uleb128_one_byte by lia. cbn [mbind result_bind].
  rewrite !uleb128_one_byte by lia. cbn [mbind result_bind].
  destruct (EntryFunction_bcs ef) as [bs|e]; cbn [mbind result_bind]; [|reflexivity].
  rewrite !uleb128_one_byte by lia. cbn [mbind result_bind].
  rewrite !u8_in_range by lia. cbn [mbind result_bind].
  rewrite !u8_in_range by lia. cbn [mbind result_bind].
  rewrite u64_in_range by exact Hn.
  f_equal. rewrite <- !app_assoc. reflexivity.
Qed.

(** C1. Every transaction [build_simple_transaction_sync] returns for a
    64-bit nonce carries the sentinel sequence number 0xDEADBEEF, and
    serializing its payload appends to the serializer exactly: the
    orderless variant tag 4, the inner payload version 0, the
    entry-function executable tag 1, the entry function's own encoding,
    then the extra-config version 0, the absent-multisig byte 0, the
    present-nonce byte 1, and the nonce as eight little-endian bytes
    (which read back as the nonce). *)
Theorem builder_emits_orderless_envelope
    now sender_arg data chain price abi with_fee_payer nonce delta max_gas expiry
    txn (out : list byte) :
  0 <= nonce < 2 ^ 64 ->
  build_simple_transaction_sync now sender_arg data chain price abi with_fee_payer
    nonce delta max_gas expiry = Ok txn ->
  let raw := raw_transaction txn in
  let ef := entry_function (executable (inner_payload (payload raw))) in
  sequence_number raw = 0xDEADBEEF /\
  TransactionPayloadOrderless_serialize EntryFunction_bcs (payload raw) out
  = (ef_bytes ← EntryFunction_bcs ef;
     Ok (out ++ [x04; x00; x01] ++ ef_bytes ++ [x00; x00; x01]
             ++ Bcs.to_bytes_little 8 nonce)) /\
  Bcs.from_bytes_little (Bcs.to_bytes_little 8 nonce) = nonce.
Proof.
  intros Hn Hb.
  destruct (build_simple_transaction_sync_ok _ _ _ _ _ _ _ _ _ _ _ _ Hb)
    as (sender_address & ef & fee_payer & _ & ->).
  cbn [raw_transaction sequence_number payload inner_payload executable entry_function].
  split; [reflexivity|]. split.
  - apply payload_bytes. exact Hn.
  - rewrite from_to_bytes_little by lia. apply Z.mod_small.
    change (256 ^ Z.of_nat 8) with (2 ^ 64). exact Hn.
Qed.

End BuilderProperties.

(** C1 at the two-argument transfer: the builder succeeds and the payload
    has the stated bytes. *)
Lemma builder_emits_orderless_envelope_witness :
  exists txn,
    TransactionBuilder.build_simple_transaction_sync Scenario.noon (inl "0x1") Scenario.transfer 208 100 Scenario.transfer_abi true
      Scenario.nonce None None None
    = Ok txn /\
    let raw := TransactionBuilder.raw_transaction txn in
    let ef := TransactionBuilder.entry_function (TransactionBuilder.executable
                (TransactionBuilder.inner_payload (TransactionBuilder.payload raw))) in
    TransactionBuilder.sequence_number raw = 0xDEADBEEF /\
    TransactionBuilder.TransactionPayloadOrderless_serialize EntryFunction_bcs
      (TransactionBuilder.payload raw) []
    = (ef_bytes ← EntryFunction_bcs ef;
       Ok ([] ++ [x04; x00; x01] ++ ef_bytes ++ [x00; x00; x01]
              ++ Bcs.to_bytes_little 8 Scenario.nonce)) /\
    Bcs.from_bytes_little (Bcs.to_bytes_little 8 Scenario.nonce) = Scenario.nonce.
Proof.
  eexists. split; [reflexivity|].
  apply (builder_emits_orderless_envelope Scenario.noon (inl "0x1")
    Scenario.transfer 208 100 Scenario.transfer_abi true Scenario.nonce None None None).
  - vm_compute. split; [discriminate|reflexivity].
  - reflexivity.
Defined.

(** ** Argument encoding *)

Lemma is_ok_false {A} (r : result A) (e : exn) : r = Raise e -> is_ok r = false.
Proof. intros ->. reflexivity. Qed.

Lemma combine_lookup {A B} (xs : list A) (ys : list B) (i : nat) (x : A) (y : B) :
  xs !! i = Some x -> ys !! i = Some y -> List.combine xs ys !! i = Some (x, y).
Proof.
  revert ys i. induction xs as [|x' xs IH]; intros [|y' ys] [|i] Hx Hy;
    cbn in *; try discriminate.
  - congruence.
  - apply IH; assumption.
Qed.

Section ArgumentProperties.

Context {env : Externals} {txs : AptosTransactions}.
Import TransactionBuilder.

(** *** The signer test *)

(** [param.replace("&", "")] leaves the characters other than [&]. *)
Lemma list_of_replace_amp (s : string) :
  list_ascii_of_string (PyStr.replace "&" "" s)
  = List.filter (fun c => negb (Ascii.eqb c "&")) (list_ascii_of_string s).
Proof.
  induction s as [|c s IH]; [reflexivity|].
  cbn [PyStr.replace list_ascii_of_string List.filter].
  destruct (Ascii.eqb c "&"); cbn [negb].
  - change (String.append "" (PyStr.replace "&" "" s)) with (PyStr.replace "&" "" s).
    exact IH.
  - cbn [list_ascii_of_string]. rewrite IH. reflexivity.
Qed.

Lemma list_of_lstrip (s : string) :
  list_ascii_of_string (PyStr.lstrip s) = Spec.drop_blanks (list_ascii_of_string s).
Proof.
  induction s as [|c s IH]; [reflexivity|].
  cbn [PyStr.lstrip list_ascii_of_string Spec.drop_blanks].
  destruct (PyStr.isspace c); [exact IH|reflexivity].
Qed.

Lemma drop_blanks_app (a b : list ascii) :
  Spec.drop_blanks (a ++ b)
  = match Spec.drop_blanks a with
    | [] => Spec.drop_blanks b
    | d => d ++ b
    end.
Proof.
  induction a as [|c a IH]; [reflexivity|].
  cbn [app Spec.drop_blanks]. destruct (PyStr.isspace c); [exact IH|reflexivity].
Qed.

Lemma list_of_rstrip (s : string) :
  list_ascii_of_string (PyStr.rstrip s)
  = List.rev (Spec.drop_blanks (List.rev (list_ascii_of_string s))).
Proof.
  induction s as [|c s IH]; [reflexivity|].
  cbn [PyStr.rstrip list_ascii_of_string List.rev]. rewrite drop_blanks_app.
  destruct (PyStr.rstrip s) as [|d r]; cbn [list_ascii_of_string] in IH.
  - destruct (Spec.drop_blanks (List.rev (list_ascii_of_string s))) as [|x D].
    + cbn [Spec.drop_blanks]. destruct (PyStr.isspace c); reflexivity.
    + exfalso. cbn [List.rev] in IH. destruct (List.rev D); discriminate IH.
  - destruct (Spec.drop_blanks (List.rev (list_ascii_of_string s))) as [|x D].
    + discriminate IH.
    + rewrite rev_app_distr. cbn [List.rev app list_ascii_of_string].
      cbn [List.rev] in IH. rewrite <- IH. reflexivity.
Qed.

(** The type compared with ["signer"] has the characters of the spec's
    type name. *)
Lemma normalize_type_name (param : string) :
  list_ascii_of_string (normalize param) = Spec.type_name param.
Proof.
  unfold normalize, PyStr.strip, Spec.type_name.
  rewrite list_of_rstrip, list_of_lstrip, list_of_replace_amp. reflexivity.
Qed.

(** The loop's test [normalized != "signer"] fails exactly on the
    parameters of signer type. *)
Lemma normalize_signer (param : string) :
  String.eqb (normalize param) "signer" = Spec.signer_type param.
Proof.
  unfold Spec.signer_type.
  rewrite <- normalize_type_name, string_of_list_ascii_of_string. reflexivity.
Qed.

Lemma _find_first_non_signer_arg_from_shift (i : nat) (params : list string) :
  _find_first_non_signer_arg_from i params
  = (i + _find_first_non_signer_arg_from 0 params)%nat.
Proof.
  revert i. induction params as [|param rest IH]; intros i; cbn.
  - lia.
  - destruct (String.eqb (normalize param) "signer").
    + rewrite (IH (S i)), (IH 1%nat). lia.
    + lia.
Qed.

(** The slice [abi.params[first_non_signer:]] is the parameter list
    without its leading signers. *)
Lemma entry_params_drop_leading_signers (params : list string) :
  List.skipn (_find_first_non_signer_arg params) params = Spec.drop_leading_signers params.
Proof.
  unfold _find_first_non_signer_arg.
  induction params as [|param rest IH]; cbn; [reflexivity|].
  rewrite normalize_signer. destruct (Spec.signer_type param).
  - rewrite _find_first_non_signer_arg_from_shift. cbn. exact IH.
  - reflexivity.
Qed.

Lemma _encode_function_arguments_mismatch (args : list Any) (param_types : list string) :
  List.length args <> List.length param_types ->
  _encode_function_arguments args param_types
  = Raise (ValueError (ArgumentCountMismatch (List.length param_types) (List.length args))).
Proof.
  intros Hne. unfold _encode_function_arguments.
  destruct (Nat.eqb_spec (List.length args) (List.length param_types)) as [Heq|_];
    [contradiction|reflexivity].
Qed.

Lemma _encode_function_arguments_match (args : list Any) (param_types : list string) :
  List.length args = List.length param_types ->
  _encode_function_arguments args param_types
  = mapM (fun '(arg, param_type) => encode_argument arg param_type)
         (List.combine args param_types).
Proof.
  intros Heq. unfold _encode_function_arguments.
  rewrite Heq, Nat.eqb_refl. reflexivity.
Qed.

(** What [_build_entry_function] does once the function id, its address
    and the type arguments are accepted: it encodes the arguments
    against the filtered parameters and puts the result in the entry
    function. *)
Lemma _build_entry_function_accepted (data : InputEntryFunctionData) (abi : MoveFunction)
    a b c addr tags :
  PyStr.split_colons (function data) = [a; b; c] ->
  AccountAddress_from_str a = Ok addr ->
  _parse_type_arguments (default [] (type_arguments data)) = Ok tags ->
  _build_entry_function data abi
  = match _encode_function_arguments (function_arguments data)
            (Spec.drop_leading_signers (mf_params abi)) with
    | Ok encoded =>
        Ok {| ef_module := {| module_address := addr; module_name := b |};
              ef_function := c; ef_ty_args := tags; ef_args := encoded |}
    | Raise e => Raise e
    end.
Proof.
  intros Hparts Haddr Htags. unfold _build_entry_function.
  rewrite Hparts, Haddr. cbn [mbind result_bind]. rewrite Htags. cbn [mbind result_bind].
  rewrite entry_params_drop_leading_signers.
  destruct (_encode_function_arguments _ _); reflexivity.
Qed.

(** An entry function that is built holds the arguments as encoded
    against the filtered parameters. *)
Lemma _build_entry_function_ok (data : InputEntryFunctionData) (abi : MoveFunction)
    entry_function :
  _build_entry_function data abi = Ok entry_function ->
  _encode_function_arguments (function_arguments data)
    (Spec.drop_leading_signers (mf_params abi))
  = Ok (ef_args entry_function).
Proof.
  unfold _build_entry_function.
  destruct (PyStr.split_colons (function data)) as [|a [|b [|c [|d parts]]]];
    try discriminate.
  destruct (AccountAddress_from_str a); cbn [mbind result_bind]; [|discriminate].
  destruct (_parse_type_arguments _); cbn [mbind result_bind]; [|discriminate].
  rewrite entry_params_drop_leading_signers.
  destruct (_encode_function_arguments _ _) as [encoded|e]; cbn [mbind result_bind];
    [|discriminate].
  intros [= <-]. reflexivity.
Qed.

(** The arguments of a list that is encoded are encoded one by one, in
    their order. *)
Lemma _encode_function_arguments_ok (args : list Any) (param_types : list string)
    encoded :
  _encode_function_arguments args param_types = Ok encoded ->
  List.length args = List.length param_types /\
  List.length encoded = List.length args /\
  forall (i : nat) arg param_type,
    args !! i = Some arg -> param_types !! i = Some param_type ->
    exists bs, encoded !! i = Some bs /\ encode_argument arg param_type = Ok bs.
Proof.
  intros Henc.
  destruct (Nat.eq_dec (List.length args) (List.length param_types)) as [Heq|Hne].
  2:{ rewrite (_encode_function_arguments_mismatch _ _ Hne) in Henc. discriminate. }
  split; [exact Heq|].
  rewrite (_encode_function_arguments_match _ _ Heq) in Henc.
  destruct (mapM_lookup _ _ _ Henc) as [Hlen Hall]. split.
  - rewrite Hlen, length_combine. lia.
  - intros i arg param_type Harg Hparam.
    destruct (Hall i (arg, param_type) (combine_lookup _ _ _ _ _ Harg Hparam))
      as (bs & Hbs & Hf).
    exists bs. split; assumption.
Qed.

(** C7. The parameters the arguments are matched against are the
    declared ones without the leading parameters of signer type. When
    the number of arguments differs from their number, the entry
    function is not built and [build_simple_transaction_sync] returns no
    envelope; what is raised, once the function id of three parts, its
    address, the type arguments and the sender are accepted, is the
    count-mismatch error. When the numbers agree, an entry function that
    is built, alone or in an envelope, holds as many encoded arguments
    as were passed, the i-th of them being the i-th argument encoded
    against the i-th filtered parameter type; it is built exactly when
    each argument can be encoded against its type, and an argument that
    cannot be encoded leaves no entry function and no envelope. *)
Theorem argument_count_checked_then_positional
    (data : InputEntryFunctionData) (abi : MoveFunction) :
  let args := function_arguments data in
  let filtered := Spec.drop_leading_signers (mf_params abi) in
  let accepted a b c addr tags :=
    PyStr.split_colons (function data) = [a; b; c] /\
    AccountAddress_from_str a = Ok addr /\
    _parse_type_arguments (default [] (type_arguments data)) = Ok tags in
  let positional (encoded : list (list byte)) :=
    List.length encoded = List.length args /\
    forall (i : nat) arg param_type,
      args !! i = Some arg -> filtered !! i = Some param_type ->
      exists bs, encoded !! i = Some bs /\ encode_argument arg param_type = Ok bs in
  (List.length args <> List.length filtered ->
     is_ok (_build_entry_function data abi) = false /\
     (forall now sender_arg chain price with_fee_payer nonce delta max_gas expiry,
        is_ok (build_simple_transaction_sync now sender_arg data chain price abi
                 with_fee_payer nonce delta max_gas expiry) = false) /\
     (forall a b c addr tags,
        accepted a b c addr tags ->
        _build_entry_function data abi
        = Raise (ValueError (ArgumentCountMismatch (List.length filtered)
                                                   (List.length args))) /\
        forall now sender chain price with_fee_payer nonce delta max_gas expiry,
          build_simple_transaction_sync now (inr sender) data chain price abi
            with_fee_payer nonce delta max_gas expiry
          = Raise (ValueError (ArgumentCountMismatch (List.length filtered)
                                                     (List.length args))))) /\
  (List.length args = List.length filtered ->
     (forall entry_function,
        _build_entry_function data abi = Ok entry_function ->
        positional (ef_args entry_function)) /\
     (forall now sender_arg chain price with_fee_payer nonce delta max_gas expiry txn,
        build_simple_transaction_sync now sender_arg data chain price abi
          with_fee_payer nonce delta max_gas expiry = Ok txn ->
        positional (ef_args (entry_function (executable (inner_payload
                      (payload (raw_transaction txn))))))) /\
     (forall (i : nat) arg param_type e,
        args !! i = Some arg -> filtered !! i = Some param_type ->
        encode_argument arg param_type = Raise e ->
        is_ok (_build_entry_function data abi) = false /\
        forall now sender_arg chain price with_fee_payer nonce delta max_gas expiry,
          is_ok (build_simple_transaction_sync now sender_arg data chain price abi
                   with_fee_payer nonce delta max_gas expiry) = false) /\
     (forall a b c addr tags encoded,
        accepted a b c addr tags ->
        Forall2 (fun '(arg, param_type) bs => encode_argument arg param_type = Ok bs)
                (List.combine args filtered) encoded ->
        _build_entry_function data abi
        = Ok {| ef_module := {| module_address := addr; module_name := b |};
                ef_function := c; ef_ty_args := tags; ef_args := encoded |})).
Proof.
  intros args filtered accepted positional.
  assert (Hbuilder : forall now sender_arg chain price with_fee_payer nonce delta max_gas
                       expiry,
            is_ok (_build_entry_function data abi) = false ->
            is_ok (build_simple_transaction_sync now sender_arg data chain price abi
                     with_fee_payer nonce delta max_gas expiry) = false).
  { intros now sender_arg chain price with_fee_payer nonce delta max_gas expiry Hef.
    unfold build_simple_transaction_sync.
    destruct (match sender_arg with inl s => AccountAddress_from_str s | inr a => Ok a end);
      cbn [mbind result_bind]; [|reflexivity].
    destruct (_build_entry_function data abi); [discriminate Hef|reflexivity]. }
  assert (Hpositional : forall entry_function,
            _build_entry_function data abi = Ok entry_function ->
            positional (ef_args entry_function)).
  { intros ef Hef. apply _build_entry_function_ok in Hef.
    destruct (_encode_function_arguments_ok _ _ _ Hef) as (_ & Hlen & Hall).
    split; [exact Hlen|exact Hall]. }
  split.
  - intros Hne.
    assert (Hef : is_ok (_build_entry_function data abi) = false).
    { destruct (_build_entry_function data abi) as [ef|e] eqn:Hbuilt; [|reflexivity].
      apply _build_entry_function_ok in Hbuilt.
      destruct (_encode_function_arguments_ok _ _ _ Hbuilt) as (Heq & _).
      contradiction. }
    split; [exact Hef|]. split.
    + intros. apply Hbuilder, Hef.
    + intros a b c addr tags (Hparts & Haddr & Htags).
      assert (Hraise : _build_entry_function data abi
                       = Raise (ValueError (ArgumentCountMismatch (List.length filtered)
                                                                  (List.length args)))).
      { rewrite (_build_entry_function_accepted data abi a b c addr tags Hparts Haddr Htags).
        fold args. fold filtered.
        rewrite (_encode_function_arguments_mismatch _ _ Hne). reflexivity. }
      split; [exact Hraise|].
      intros. unfold build_simple_transaction_sync. cbn [mbind result_bind].
      rewrite Hraise. reflexivity.
  - intros Heq. split; [exact Hpositional|]. split; [|split].
    + intros now sender_arg chain price with_fee_payer nonce delta max_gas expiry txn Hb.
      destruct (build_simple_transaction_sync_ok _ _ _ _ _ _ _ _ _ _ _ _ Hb)
        as (sa & ef & fp & Hef & ->).
      exact (Hpositional ef Hef).
    + intros i arg param_type e Harg Hparam Hraise.
      assert (Hef : is_ok (_build_entry_function data abi) = false).
      { destruct (_build_entry_function data abi) as [ef|e'] eqn:Hbuilt; [|reflexivity].
        destruct (Hpositional ef eq_refl) as [_ Hall].
        destruct (Hall i arg param_type Harg Hparam) as (bs & _ & Hok).
        rewrite Hraise in Hok. discriminate Hok. }
      split; [exact Hef|]. intros. apply Hbuilder, Hef.
    + intros a b c addr tags encoded (Hparts & Haddr & Htags) Hall.
      rewrite (_build_entry_function_accepted data abi a b c addr tags Hparts Haddr Htags).
      fold args. fold filtered.
      rewrite (_encode_function_arguments_match _ _ Heq).
      assert (Hmap : mapM (fun '(arg, param_type) => encode_argument arg param_type)
                          (List.combine args filtered) = Ok encoded).
      { clear -Hall. induction Hall as [|[arg param_type] bs pairs encoded Hone Hrest IH];
          [reflexivity|].
        cbn [mapM]. rewrite Hone. cbn [mbind result_bind]. rewrite IH. reflexivity. }
      rewrite Hmap. reflexivity.
Qed.

End ArgumentProperties.

(** C7 at the transfer, whose declared parameters are [&signer], [u64]
    and [u64]: with one of the two arguments missing the count-mismatch
    error is raised for two parameters and no envelope is built; with
    both, the envelope holds the two arguments encoded as [u64]. *)
Lemma argument_count_checked_then_positional_witness :
  (TransactionBuilder._build_entry_function Scenario.transfer_short Scenario.transfer_abi
   = Raise (ValueError (ArgumentCountMismatch 2 1))
   /\ is_ok (TransactionBuilder.build_simple_transaction_sync Scenario.noon (inl "0x1")
               Scenario.transfer_short 208 100 Scenario.transfer_abi true Scenario.nonce
               None None None) = false) /\
  match TransactionBuilder.build_simple_transaction_sync Scenario.noon (inl "0x1")
          Scenario.transfer 208 100 Scenario.transfer_abi true Scenario.nonce
          None None None with
  | Ok txn =>
      TransactionBuilder.ef_args
        (TransactionBuilder.entry_function (TransactionBuilder.executable
           (TransactionBuilder.inner_payload (TransactionBuilder.payload
              (TransactionBuilder.raw_transaction txn)))))
      = [[x05; x00; x00; x00; x00; x00; x00; x00]; [x07; x00; x00; x00; x00; x00; x00; x00]]
  | Raise _ => False
  end.
Proof.
  split.
  - destruct (argument_count_checked_then_positional
                Scenario.transfer_short Scenario.transfer_abi) as (Hmis & _).
    destruct (Hmis ltac:(vm_compute; discriminate)) as (_ & Hnone & Hraise).
    split; [|apply Hnone].
    edestruct (Hraise "0x1" "mod" "fn") as [Hef _]; [|exact Hef].
    repeat split; vm_compute; reflexivity.
  - destruct (argument_count_checked_then_positional
                Scenario.transfer Scenario.transfer_abi) as (_ & Hmatch).
    destruct (Hmatch ltac:(reflexivity)) as (_ & Henvelope & _).
    assert (Hrun : is_ok (TransactionBuilder.build_simple_transaction_sync Scenario.noon
                            (inl "0x1") Scenario.transfer 208 100 Scenario.transfer_abi
                            true Scenario.nonce None None None) = true)
      by (vm_compute; reflexivity).
    destruct (TransactionBuilder.build_simple_transaction_sync Scenario.noon (inl "0x1")
                Scenario.transfer 208 100 Scenario.transfer_abi true Scenario.nonce
                None None None) as [txn|e] eqn:Hbuild; [|discriminate Hrun].
    destruct (Henvelope _ _ _ _ _ _ _ _ _ _ Hbuild) as [Hlen Hall].
    destruct (Hall 0%nat (Sample.PyInt 5) "u64" eq_refl eq_refl) as (b0 & H0 & E0).
    destruct (Hall 1%nat (Sample.PyInt 7) "u64" eq_refl eq_refl) as (b1 & H1 & E1).
    vm_compute in E0, E1. injection E0 as <-. injection E1 as <-.
    destruct (TransactionBuilder.ef_args _) as [|x [|y [|z rest]]];
      try discriminate Hlen.
    cbn in H0, H1. congruence.
Defined.

(** ** The build step and the send flow *)

Section BaseProperties.

Context {env : Externals} {txs : AptosTransactions}.
Import Env TransactionBuilder Base.

Lemma keeps_draws_bind {A B} (m : M A) (f : A -> M B) :
  keeps_draws m -> (forall a, keeps_draws (f a)) -> keeps_draws (bind m f).
Proof.
  intros Hm Hf w r w' Hrun. unfold bind in Hrun.
  destruct (m w) as [[a|e] w1] eqn:Em.
  - destruct (Hm _ _ _ Em) as [H1 H2]. destruct (Hf a _ _ _ Hrun) as [H3 H4].
    split; congruence.
  - inversion Hrun; subst. exact (Hm _ _ _ Em).
Qed.

Lemma keeps_draws_try {A} (m : M A) (h : exn -> M A) :
  keeps_draws m -> (forall e, keeps_draws (h e)) -> keeps_draws (try_except m h).
Proof.
  intros Hm Hh w r w' Hrun. unfold try_except in Hrun.
  destruct (m w) as [[a|e] w1] eqn:Em.
  - inversion Hrun; subst. exact (Hm _ _ _ Em).
  - destruct (Hm _ _ _ Em) as [H1 H2]. destruct (Hh e _ _ _ Hrun) as [H3 H4].
    split; congruence.
Qed.

Lemma keeps_draws_ret {A} (a : A) : keeps_draws (ret a).
Proof. intros w r w' Hrun. inversion Hrun; subst. split; reflexivity. Qed.

Lemma keeps_draws_raise {A} (e : exn) : keeps_draws (@raise _ A e).
Proof. intros w r w' Hrun. inversion Hrun; subst. split; reflexivity. Qed.

Lemma keeps_draws_lift {A} (x : result A) : keeps_draws (lift x).
Proof. intros w r w' Hrun. inversion Hrun; subst. split; reflexivity. Qed.

Lemma keeps_draws_time : keeps_draws time.
Proof. intros w r w' Hrun. inversion Hrun; subst. split; reflexivity. Qed.

Lemma keeps_draws_sleep (s : Q) : keeps_draws (sleep s).
Proof. intros w r w' Hrun. inversion Hrun; subst. split; reflexivity. Qed.

Lemma keeps_draws_log l site e : keeps_draws (log l site e).
Proof. intros w r w' Hrun. inversion Hrun; subst. split; reflexivity. Qed.

Lemma keeps_draws_send req : keeps_draws (send req).
Proof.
  intros w r w' Hrun. unfold send in Hrun.
  destruct (reply_tape w _); inversion Hrun; subst; split; reflexivity.
Qed.

Lemma keeps_draws_get_manager : keeps_draws get_manager.
Proof. intros w r w' Hrun. inversion Hrun; subst. split; reflexivity. Qed.

Lemma keeps_draws_set_manager g : keeps_draws (set_manager g).
Proof. intros w r w' Hrun. inversion Hrun; subst. split; reflexivity. Qed.

Ltac keeps :=
  repeat first
    [ apply keeps_draws_ret | apply keeps_draws_raise | apply keeps_draws_lift
    | apply keeps_draws_time | apply keeps_draws_sleep | apply keeps_draws_log
    | apply keeps_draws_send | apply keeps_draws_get_manager | apply keeps_draws_set_manager
    | apply keeps_draws_bind | apply keeps_draws_try
    | match goal with |- forall _, keeps_draws _ => intro end
    | progress cbv beta
    | match goal with |- keeps_draws (if ?b then _ else _) => destruct b end
    | match goal with |- keeps_draws (match ?x with _ => _ end) => destruct x end ].

Lemma keeps_draws_fetch_and_set url opts :
  keeps_draws (GasPriceManager.fetch_and_set_gas_price url opts).
Proof.
  unfold GasPriceManager.fetch_and_set_gas_price,
    GasPriceManager.fetch_gas_price_estimation.
  keeps.
Qed.

Lemma keeps_draws_fetch_estimation self : keeps_draws (_fetch_gas_price_estimation self).
Proof. unfold _fetch_gas_price_estimation. keeps. Qed.

(** The nonce generator reads the next two values of the tape and
    touches nothing else. *)
Lemma nonce_draw (w : World) :
  exists w',
    Utils.generate_random_replay_protection_nonce w
    = (Ok (if (next_hi w =? 0) || (next_lo w =? 0) then None
           else Some (Z.lor (Z.shiftl (next_hi w) 32) (next_lo w))), w') /\
    randbits_drawn w' = S (S (randbits_drawn w)) /\
    randbits_tape w' = randbits_tape w /\
    clock_read w' = clock_read w /\ requests w' = requests w /\
    sleeps w' = sleeps w /\ logged w' = logged w /\ manager w' = manager w /\
    reply_tape w' = reply_tape w /\ clock_tape w' = clock_tape w.
Proof.
  unfold Utils.generate_random_replay_protection_nonce, bind, randbits32, next_hi, next_lo.
  cbn. destruct (_ || _); eexists; (split; [reflexivity|]); cbn; repeat split; reflexivity.
Qed.

Lemma or_eq_false_both (a b : Z) :
  (a =? 0) || (b =? 0) = false <-> a <> 0 /\ b <> 0.
Proof. rewrite orb_false_iff, !Z.eqb_neq. reflexivity. Qed.

(** What a successful [build_tx] tells about its envelope. *)
Lemma build_tx_ok self data sender_address mg gp w txn w' :
  build_tx self data sender_address mg gp w = (Ok txn, w') ->
  next_hi w <> 0 /\ next_lo w <> 0 /\
  randbits_drawn w' = S (S (randbits_drawn w)) /\
  replay_protection_nonce (extra_config (inner_payload (payload (raw_transaction txn))))
  = Some (Z.lor (Z.shiftl (next_hi w) 32) (next_lo w)) /\
  sequence_number (raw_transaction txn) = DEADBEEF_SEQUENCE_NUMBER /\
  max_gas_amount (raw_transaction txn) = or_default mg DEFAULT_MAX_GAS_AMOUNT /\
  (forall p, gp = Some p -> gas_unit_price (raw_transaction txn) = p).
Proof.
  unfold build_tx. intros Hrun. unfold bind at 1 in Hrun.
  destruct (nonce_draw w) as (w1 & Hdraw & Hdrawn & Htape & _). rewrite Hdraw in Hrun.
  destruct ((next_hi w =? 0) || (next_lo w =? 0)) eqn:Ez; [discriminate Hrun|].
  apply or_eq_false_both in Ez. destruct Ez as [Hhi Hlo].
  destruct (_get_abi self (function data)) as [abi|]; [|discriminate Hrun].
  destruct (_chain_id self) as [chain|]; [|discriminate Hrun].
  match type of Hrun with bind ?m _ _ = _ => set (price := m) in Hrun end.
  assert (Hkeep : keeps_draws price).
  { subst price. destruct gp as [p|]; [apply keeps_draws_ret|].
    destruct (_gas_price_manager self) as [[url opts]|].
    - apply keeps_draws_bind; [apply keeps_draws_bind; [apply keeps_draws_get_manager|]|].
      + intros g. apply keeps_draws_ret.
      + intros [p|]; [apply keeps_draws_ret|apply keeps_draws_fetch_and_set].
    - apply keeps_draws_fetch_estimation. }
  unfold bind at 1 in Hrun.
  destruct (price w1) as [[p|e] w2] eqn:Ep; [|discriminate Hrun].
  destruct (Hkeep _ _ _ Ep) as [Hd2 _].
  unfold bind, time, lift in Hrun.
  match type of Hrun with (?b, ?w3) = _ => destruct b as [t|e] eqn:Eb end;
    [|discriminate Hrun].
  inversion Hrun; subst t w'. clear Hrun.
  destruct (build_simple_transaction_sync_ok _ _ _ _ _ _ _ _ _ _ _ _ Eb)
    as (sa & ef & fp & _ & ->).
  cbn. repeat split; try assumption; try congruence.
  intros q Hq. subst price. rewrite Hq in Ep. inversion Ep. reflexivity.
Qed.

(** The two halves can be read back from the nonce. *)
Lemma nonce_halves (hi lo : Z) :
  0 <= hi -> 0 <= lo < 2 ^ 32 ->
  Z.shiftr (Z.lor (Z.shiftl hi 32) lo) 32 = hi /\
  Z.land (Z.lor (Z.shiftl hi 32) lo) (2 ^ 32 - 1) = lo.
Proof.
  intros Hhi Hlo. split.
  - rewrite Z.shiftr_lor, Z.shiftr_shiftl_l, Z.sub_diag, Z.shiftl_0_r by lia.
    rewrite (Z.shiftr_div_pow2 lo) by lia. rewrite Z.div_small by lia.
    apply Z.lor_0_r.
  - change (2 ^ 32 - 1) with (Z.ones 32). rewrite Z.land_lor_distr_l.
    rewrite !Z.land_ones by lia. rewrite Z.shiftl_mul_pow2 by lia.
    rewrite Z.mod_mul by lia. rewrite Z.mod_small by lia. reflexivity.
Qed.

Lemma next_hi_range (w : World) : 0 <= next_hi w < 2 ^ 32.
Proof. apply Z.mod_pos_bound. lia. Qed.

Lemma next_lo_range (w : World) : 0 <= next_lo w < 2 ^ 32.
Proof. apply Z.mod_pos_bound. lia. Qed.

(** C3 (amended). The build step draws the two 32-bit halves of the
    replay nonce exactly once. When either half is zero the build fails at
    once with the internal error, having drawn nothing more, sent no
    request and read no clock: there is no redraw. A build that succeeds
    carries the nonce made of the two drawn halves, both nonzero. *)
Theorem degenerate_nonce_fails_build_without_redraw
    self data sender_address max_gas price (w : World) :
  (next_hi w = 0 \/ next_lo w = 0 ->
   exists w',
     build_tx self data sender_address max_gas price w
     = (Raise (ValueError UnableToGenerateNonce), w') /\
     randbits_drawn w' = S (S (randbits_drawn w)) /\
     requests w' = requests w /\ clock_read w' = clock_read w) /\
  (forall txn w',
     build_tx self data sender_address max_gas price w = (Ok txn, w') ->
     let nonce := Z.lor (Z.shiftl (next_hi w) 32) (next_lo w) in
     replay_protection_nonce (extra_config (inner_payload (payload (raw_transaction txn))))
     = Some nonce /\
     Z.shiftr nonce 32 = next_hi w /\ Z.land nonce (2 ^ 32 - 1) = next_lo w /\
     next_hi w <> 0 /\ next_lo w <> 0 /\
     randbits_drawn w' = S (S (randbits_drawn w))).
Proof.
  split.
  - intros Hz. unfold build_tx, bind.
    destruct (nonce_draw w) as (w1 & Hdraw & Hdrawn & _ & Hclock & Hreq & _).
    rewrite Hdraw.
    replace ((next_hi w =? 0) || (next_lo w =? 0)) with true.
    + exists w1. repeat split; assumption.
    + symmetry. apply orb_true_iff. rewrite !Z.eqb_eq. exact Hz.
  - intros txn w' Hrun. apply build_tx_ok in Hrun.
    destruct Hrun as (Hhi & Hlo & Hdrawn & Hnonce & _).
    destruct (nonce_halves (next_hi w) (next_lo w)) as [Hs Hl];
      [apply next_hi_range|apply next_lo_range|].
    cbv zeta. repeat split; assumption.
Qed.

(** C4 (amended). Called without a maximum-gas ceiling, the transaction
    builder emits an envelope with max gas amount 100,000; the pipeline's
    build step, called without one, passes its own default to the builder
    and the envelope has max gas amount 200,000. *)
Theorem default_gas_ceiling_of_builder_and_pipeline :
  (forall now sender_arg data chain price abi with_fee_payer nonce delta expiry txn,
     build_simple_transaction_sync now sender_arg data chain price abi with_fee_payer
       nonce delta None expiry = Ok txn ->
     max_gas_amount (raw_transaction txn) = 100000) /\
  (forall self data sender_address price w txn w',
     build_tx self data sender_address None price w = (Ok txn, w') ->
     max_gas_amount (raw_transaction txn) = 200000).
Proof.
  split.
  - intros * Hb. apply build_simple_transaction_sync_ok in Hb.
    destruct Hb as (sa & ef & fp & _ & ->). reflexivity.
  - intros * Hrun. apply build_tx_ok in Hrun.
    destruct Hrun as (_ & _ & _ & _ & _ & Hgas & _). exact Hgas.
Qed.

Lemma rebuilt_max_gas_nonzero (s : Z) : (Spec.rebuilt_max_gas s =? 0) = false.
Proof. apply Z.eqb_neq. unfold Spec.rebuilt_max_gas. lia. Qed.

(** C2. When simulation is not skipped and the simulation result carries
    values that read as the integers [s] and [p], the send flow rebuilds
    the envelope with max gas amount [min(max(2 * s, 200000), 2000000)]
    and gas unit price [max(p, 1)]: the flow continues as the second
    build with exactly these two arguments, and every envelope it returns
    carries them. *)
Theorem simulated_gas_rebuild
    self payload signer (w : World) t0 w1 sim w2 v_gas v_price s p :
  _skip_simulate self = false ->
  build_tx self payload (account_address signer) None None w = (Ok t0, w1) ->
  _simulate_transaction self t0 w1 = (Ok sim, w2) ->
  Dict.get_attr sim "max_gas_amount" = Ok (Some v_gas) -> json_int v_gas = Ok s ->
  Dict.get_attr sim "gas_unit_price" = Ok (Some v_price) -> json_int v_price = Ok p ->
  _send_tx_transaction self payload signer w
  = build_tx self payload (account_address signer)
      (Some (Spec.rebuilt_max_gas s)) (Some (Spec.rebuilt_gas_price p)) w2 /\
  forall txn w3,
    _send_tx_transaction self payload signer w = (Ok txn, w3) ->
    max_gas_amount (raw_transaction txn) = Z.min (Z.max (2 * s) 200000) 2000000 /\
    gas_unit_price (raw_transaction txn) = Z.max p 1.
Proof.
  intros Hskip Hbuild Hsim Hg Hs Hp Hpi.
  assert (Heq : _send_tx_transaction self payload signer w
                = build_tx self payload (account_address signer)
                    (Some (Spec.rebuilt_max_gas s)) (Some (Spec.rebuilt_gas_price p)) w2).
  { unfold _send_tx_transaction. unfold bind at 1. rewrite Hbuild, Hskip. cbn [negb].
    unfold bind at 1. rewrite Hsim.
    unfold bind at 1. unfold lift at 1. rewrite Hg.
    unfold bind at 1. unfold lift at 1. rewrite Hp.
    assert (Hn1 : is_none (Some v_gas) = false)
      by (destruct v_gas; try reflexivity; discriminate Hs).
    assert (Hn2 : is_none (Some v_price) = false)
      by (destruct v_price; try reflexivity; discriminate Hpi).
    rewrite Hn1, Hn2. cbn [orb].
    change (default JNull (Some v_gas)) with v_gas.
    change (default JNull (Some v_price)) with v_price.
    unfold bind at 1. unfold lift at 1. rewrite Hs.
    unfold bind at 1. unfold lift at 1. rewrite Hpi.
    unfold DEFAULT_MAX_GAS_AMOUNT, MAX_GAS_UNITS_LIMIT, Spec.rebuilt_max_gas,
      Spec.rebuilt_gas_price.
    rewrite (Z.mul_comm s 2). reflexivity. }
  split; [exact Heq|].
  intros txn w3 Hrun. rewrite Heq in Hrun. apply build_tx_ok in Hrun.
  destruct Hrun as (_ & _ & _ & _ & _ & Hgas & Hprice).
  split.
  - rewrite Hgas. unfold or_default.
    rewrite (rebuilt_max_gas_nonzero s). reflexivity.
  - apply Hprice. reflexivity.
Qed.

End BaseProperties.

(** C2 at a simulation that reports 60000 gas units at price 5: the
    rebuilt envelope has max gas amount 200000 and gas unit price 5. *)
Lemma simulated_gas_rebuild_witness :
  match fst (Base._send_tx_transaction Scenario.sdk Scenario.transfer Scenario.alice
               (Scenario.world Scenario.bits_nonzero Scenario.node_replies 1)) with
  | Ok txn =>
      TransactionBuilder.max_gas_amount (TransactionBuilder.raw_transaction txn) = 200000 /\
      TransactionBuilder.gas_unit_price (TransactionBuilder.raw_transaction txn) = 5
  | Raise _ => False
  end.
Proof.
  assert (Hok : is_ok (fst (Base._send_tx_transaction Scenario.sdk Scenario.transfer
                              Scenario.alice
                              (Scenario.world Scenario.bits_nonzero Scenario.node_replies 1)))
                = true) by (vm_compute; reflexivity).
  destruct (Base._send_tx_transaction Scenario.sdk Scenario.transfer Scenario.alice
              (Scenario.world Scenario.bits_nonzero Scenario.node_replies 1))
    as [[txn|e] w3] eqn:Hrun; [|discriminate Hok].
  cbn [fst].
  pose proof (fun t0 w1 w2 H2 H3 =>
    proj2 (simulated_gas_rebuild Scenario.sdk Scenario.transfer Scenario.alice
             (Scenario.world Scenario.bits_nonzero Scenario.node_replies 1)
             t0 w1 (JDict [("max_gas_amount", JStr "60000"); ("gas_unit_price", JStr "5")])
             w2 (JStr "60000") (JStr "5") 60000 5 eq_refl H2 H3 eq_refl eq_refl eq_refl eq_refl)
          txn w3 Hrun) as Hall.
  eapply Hall.
  - reflexivity.
  - reflexivity.
Defined.

(** C3: the first high half drawn is zero and the two values after it
    are not; the build fails with the internal error after exactly two
    draws. *)
Lemma degenerate_nonce_is_not_redrawn :
  let run :=
    Base.build_tx Scenario.sdk Scenario.transfer (Sample.address Scenario.alice) None None
      (Scenario.world Scenario.bits_zero_first Scenario.node_replies 1) in
  fst run = Raise (ValueError UnableToGenerateNonce) /\
  Env.randbits_drawn (snd run) = 2%nat /\
  Scenario.bits_zero_first 2 mod 2 ^ 32 <> 0 /\
  Scenario.bits_zero_first 3 mod 2 ^ 32 <> 0.
Proof.
  cbv zeta. split; [reflexivity|]. split; [reflexivity|]. split; vm_compute; discriminate.
Qed.

(** C3 (amended) at both kinds of draw. *)
Lemma degenerate_nonce_fails_build_without_redraw_witness :
  (exists w',
     Base.build_tx Scenario.sdk Scenario.transfer (Sample.address Scenario.alice) None None
       (Scenario.world Scenario.bits_zero_first Scenario.node_replies 1)
     = (Raise (ValueError UnableToGenerateNonce), w') /\
     Env.randbits_drawn w' = 2%nat /\ Env.requests w' = [] /\ Env.clock_read w' = 0%nat) /\
  match fst (Base.build_tx Scenario.sdk Scenario.transfer (Sample.address Scenario.alice)
               None None (Scenario.world Scenario.bits_nonzero Scenario.node_replies 1)) with
  | Ok txn =>
      TransactionBuilder.replay_protection_nonce
        (TransactionBuilder.extra_config (TransactionBuilder.inner_payload
           (TransactionBuilder.payload (TransactionBuilder.raw_transaction txn))))
      = Some (Z.lor (Z.shiftl 6 32) 7)
  | Raise _ => False
  end.
Proof.
  split.
  - destruct (degenerate_nonce_fails_build_without_redraw Scenario.sdk Scenario.transfer
      (Sample.address Scenario.alice) None None
      (Scenario.world Scenario.bits_zero_first Scenario.node_replies 1)) as [Hfail _].
    apply Hfail. left. reflexivity.
  - destruct (degenerate_nonce_fails_build_without_redraw Scenario.sdk Scenario.transfer
      (Sample.address Scenario.alice) None None
      (Scenario.world Scenario.bits_nonzero Scenario.node_replies 1)) as [_ Hok].
    assert (Hrun : is_ok (fst (Base.build_tx Scenario.sdk Scenario.transfer
                                 (Sample.address Scenario.alice) None None
                                 (Scenario.world Scenario.bits_nonzero
                                    Scenario.node_replies 1))) = true)
      by (vm_compute; reflexivity).
    destruct (Base.build_tx Scenario.sdk Scenario.transfer (Sample.address Scenario.alice)
                None None (Scenario.world Scenario.bits_nonzero Scenario.node_replies 1))
      as [[txn|e] w'] eqn:Hbuild; [|discriminate Hrun].
    destruct (Hok txn w' eq_refl) as (Hnonce & _). exact Hnonce.
Defined.

(** C4: the builder called without a ceiling. *)
Lemma builder_default_ceiling_is_100000 :
  exists txn,
    TransactionBuilder.build_simple_transaction_sync Scenario.noon (inl "0x1")
      Scenario.transfer 208 100 Scenario.transfer_abi true Scenario.nonce None None None
    = Ok txn /\
    TransactionBuilder.max_gas_amount (TransactionBuilder.raw_transaction txn) = 100000 /\
    TransactionBuilder.max_gas_amount (TransactionBuilder.raw_transaction txn) <> 200000.
Proof.
  eexists. split; [reflexivity|]. split; [reflexivity|]. cbn. discriminate.
Qed.

(** C4 (amended) at the transfer. *)
Lemma default_gas_ceiling_of_builder_and_pipeline_witness :
  match TransactionBuilder.build_simple_transaction_sync Scenario.noon (inl "0x1")
          Scenario.transfer 208 100 Scenario.transfer_abi true Scenario.nonce
          None None None with
  | Ok txn =>
      TransactionBuilder.max_gas_amount (TransactionBuilder.raw_transaction txn) = 100000
  | Raise _ => False
  end /\
  match fst (Base.build_tx Scenario.sdk Scenario.transfer (Sample.address Scenario.alice)
               None None (Scenario.world Scenario.bits_nonzero Scenario.node_replies 1)) with
  | Ok txn =>
      TransactionBuilder.max_gas_amount (TransactionBuilder.raw_transaction txn) = 200000
  | Raise _ => False
  end.
Proof.
  destruct default_gas_ceiling_of_builder_and_pipeline as [Hbuilder Hpipeline].
  split.
  - assert (Hrun : is_ok (TransactionBuilder.build_simple_transaction_sync Scenario.noon
                            (inl "0x1") Scenario.transfer 208 100 Scenario.transfer_abi true
                            Scenario.nonce None None None) = true)
      by (vm_compute; reflexivity).
    destruct (TransactionBuilder.build_simple_transaction_sync Scenario.noon (inl "0x1")
                Scenario.transfer 208 100 Scenario.transfer_abi true Scenario.nonce
                None None None) as [txn|e] eqn:Hbuild; [|discriminate Hrun].
    exact (Hbuilder _ _ _ _ _ _ _ _ _ _ _ Hbuild).
  - assert (Hrun : is_ok (fst (Base.build_tx Scenario.sdk Scenario.transfer
                                 (Sample.address Scenario.alice) None None
                                 (Scenario.world Scenario.bits_nonzero
                                    Scenario.node_replies 1))) = true)
      by (vm_compute; reflexivity).
    destruct (Base.build_tx Scenario.sdk Scenario.transfer (Sample.address Scenario.alice)
                None None (Scenario.world Scenario.bits_nonzero Scenario.node_replies 1))
      as [[txn|e] w'] eqn:Hbuild; [|discriminate Hrun].
    exact (Hpipeline _ _ _ _ _ _ _ Hbuild).
Defined.

(** ** Polling *)

Section PollProperties.
Context {env : Externals} {txs : AptosTransactions}.
Import Env TransactionBuilder Base.

(** A response without terminal status leaves the poll loop pending. *)
Lemma classify_no_terminal_status (r : Response) :
  Spec.no_terminal_status r = true -> classify r = Ok Pending.
Proof.
  unfold Spec.no_terminal_status, classify. intros Hn.
  destruct (is_success r); [|reflexivity]. cbn [negb orb] in Hn.
  destruct (response_json r) as [[| | | | | |items]|e]; try discriminate Hn.
  cbn [mbind result_bind Dict.get_attr].
  destruct (eq_str (Dict.get "type" items) "pending_transaction"); [reflexivity|].
  apply andb_true_iff in Hn. destruct Hn as [Ht Hf].
  apply negb_true_iff in Ht, Hf. rewrite Ht, Hf. reflexivity.
Qed.

(** An HTTP failure has no terminal status, whatever its body. *)
Lemma http_failure_no_terminal_status (r : Response) :
  is_success r = false -> Spec.no_terminal_status r = true.
Proof. unfold Spec.no_terminal_status. intros ->. reflexivity. Qed.

(** The loop proper: [k] rounds that find the bound not yet exceeded,
    then the round that does. *)
Lemma poll_loop_times_out request tx_hash start (timeout interval : Q) (k : nat) :
  forall (rounds : nat) (w : World),
    (k < rounds)%nat ->
    (forall i, (i <= k)%nat ->
       exists r, reply_tape w (List.length (requests w) + i)%nat = Replied r /\
                 Spec.no_terminal_status r = true) ->
    (forall i, (i < k)%nat ->
       elapsed_exceeds (clock_tape w (clock_read w + i)%nat) start timeout = false) ->
    elapsed_exceeds (clock_tape w (clock_read w + k)%nat) start timeout = true ->
    exists w',
      poll_loop rounds request tx_hash start timeout interval w
      = (Raise (TimeoutError (DidNotCompleteWithin tx_hash timeout)), w') /\
      requests w' = requests w ++ List.repeat request (S k) /\
      sleeps w' = sleeps w ++ List.repeat interval k /\
      clock_read w' = (clock_read w + S k)%nat /\
      logged w' = logged w /\ manager w' = manager w.
Proof.
  induction k as [|k IH]; intros rounds w Hrounds Hreplies Hearly Hlate;
    (destruct rounds as [|n]; [lia|]);
    destruct (Hreplies 0%nat ltac:(lia)) as (r & Hr & Hnt);
    rewrite Nat.add_0_r in Hr;
    apply classify_no_terminal_status in Hnt;
    cbn [poll_loop]; unfold bind at 1; unfold send; rewrite Hr;
    unfold bind at 1; unfold lift at 1; rewrite Hnt;
    unfold bind at 1; unfold time at 1; cbn [clock_tape clock_read].
  - rewrite Nat.add_0_r in Hlate. rewrite Hlate.
    eexists. split; [reflexivity|]. cbn.
    rewrite app_nil_r. repeat split; try reflexivity. lia.
  - pose proof (Hearly 0%nat ltac:(lia)) as H0. rewrite Nat.add_0_r in H0. rewrite H0.
    unfold bind at 1. unfold sleep at 1.
    match goal with |- exists w', poll_loop _ _ _ _ _ _ ?w1 = _ /\ _ => set (w1' := w1) end.
    destruct (IH n w1') as (w' & Hrun & Hreq & Hsl & Hclk & Hlog & Hman).
    + lia.
    + intros i Hi. subst w1'. cbn [reply_tape requests].
      rewrite length_app. cbn [List.length].
      destruct (Hreplies (S i) ltac:(lia)) as (r' & Hr' & Hnt').
      exists r'. split; [|exact Hnt'].
      rewrite <- Hr'. f_equal. lia.
    + intros i Hi. subst w1'. cbn [clock_tape clock_read].
      rewrite <- (Hearly (S i) ltac:(lia)). f_equal. f_equal. lia.
    + subst w1'. cbn [clock_tape clock_read].
      rewrite <- Hlate. f_equal. f_equal. lia.
    + exists w'. split; [exact Hrun|]. subst w1'. cbn in Hreq, Hsl, Hclk, Hlog, Hman.
      repeat split.
      * rewrite Hreq, <- app_assoc. reflexivity.
      * rewrite Hsl, <- app_assoc. reflexivity.
      * rewrite Hclk. lia.
      * exact Hlog.
      * exact Hman.
Qed.

(** [k] rounds that find no terminal status and the bound not yet
    exceeded leave the loop where it started, [k] requests, sleeps and
    readings of the clock later. *)
Lemma poll_loop_pending_rounds request tx_hash start (timeout interval : Q) (k : nat) :
  forall (rounds : nat) (w : World),
    (forall i, (i < k)%nat ->
       exists r, reply_tape w (List.length (requests w) + i)%nat = Replied r /\
                 Spec.no_terminal_status r = true) ->
    (forall i, (i < k)%nat ->
       elapsed_exceeds (clock_tape w (clock_read w + i)%nat) start timeout = false) ->
    exists wk,
      poll_loop (k + rounds) request tx_hash start timeout interval w
      = poll_loop rounds request tx_hash start timeout interval wk /\
      requests wk = requests w ++ List.repeat request k /\
      sleeps wk = sleeps w ++ List.repeat interval k /\
      clock_read wk = (clock_read w + k)%nat /\
      reply_tape wk = reply_tape w /\ clock_tape wk = clock_tape w /\
      logged wk = logged w /\ manager wk = manager w /\
      randbits_drawn wk = randbits_drawn w.
Proof.
  induction k as [|k IH]; intros rounds w Hreplies Hearly.
  - exists w. cbn. rewrite !app_nil_r, Nat.add_0_r. repeat split.
  - destruct (Hreplies 0%nat ltac:(lia)) as (r & Hr & Hnt).
    rewrite Nat.add_0_r in Hr. apply classify_no_terminal_status in Hnt.
    pose proof (Hearly 0%nat ltac:(lia)) as H0. rewrite Nat.add_0_r in H0.
    cbn [Nat.add poll_loop]. unfold bind at 1. unfold send. rewrite Hr.
    unfold bind at 1. unfold lift at 1. rewrite Hnt.
    unfold bind at 1. unfold time at 1. cbn [clock_tape clock_read]. rewrite H0.
    unfold bind at 1. unfold sleep at 1.
    match goal with
    | |- exists wk, poll_loop _ _ _ _ _ _ ?w1 = _ /\ _ => set (w1' := w1)
    end.
    destruct (IH rounds w1') as (wk & Hrun & Hreq & Hsl & Hclk & Hrt & Hct & Hlog & Hman & Hd).
    + intros i Hi. subst w1'. cbn [reply_tape requests].
      rewrite length_app. cbn [List.length].
      destruct (Hreplies (S i) ltac:(lia)) as (r' & Hr' & Hnt').
      exists r'. split; [|exact Hnt']. rewrite <- Hr'. f_equal. lia.
    + intros i Hi. subst w1'. cbn [clock_tape clock_read].
      rewrite <- (Hearly (S i) ltac:(lia)). f_equal. f_equal. lia.
    + exists wk. split; [exact Hrun|]. subst w1'.
      cbn in Hreq, Hsl, Hclk, Hrt, Hct, Hlog, Hman, Hd.
      repeat split; try assumption.
      * rewrite Hreq, <- app_assoc. reflexivity.
      * rewrite Hsl, <- app_assoc. reflexivity.
      * rewrite Hclk. lia.
Qed.

(** What the loop does with a 2xx response whose body is not a JSON
    object: the exception of reading it. *)
Lemma classify_unreadable (r : Response) :
  is_success r = true ->
  (forall items, response_json r <> Ok (JDict items)) ->
  classify r = Raise match response_json r with
                     | Raise e => e
                     | Ok _ => LibraryError "AttributeError"
                     end.
Proof.
  intros Hok Hnot. unfold classify. rewrite Hok.
  destruct (response_json r) as [[| | | | | |items]|e]; try reflexivity.
  exfalso. exact (Hnot items eq_refl).
Qed.

(** C10 (amended). While polling, an HTTP failure is never raised as
    an error: like a JSON object whose ["success"] is neither [true] nor
    [false] it leaves the loop going. After [k] such responses within
    the bound, one more of them, with the clock then past the bound,
    ends the poll with the timeout error naming the hash and the bound,
    nothing else having been raised before, also when every response was
    an HTTP failure. The one other kind of response without terminal
    status is a 2xx response whose body is not a JSON object: it ends
    the poll at once with the exception of reading it, before the clock
    is looked at. *)
Theorem poll_without_terminal_status_times_out
    (rounds : nat) self tx_hash (timeout_secs poll_interval_secs : option Q)
    (w : World) (k : nat) (last : Response) :
  let bound := default (30 : Q) timeout_secs in
  let start_time := clock_tape w (clock_read w) in
  (k < rounds)%nat ->
  (forall i, (i < k)%nat ->
     exists r, reply_tape w (List.length (requests w) + i)%nat = Replied r /\
               Spec.no_terminal_status r = true) ->
  (forall i, (i < k)%nat ->
     elapsed_exceeds (clock_tape w (S (clock_read w) + i)%nat) start_time bound = false) ->
  reply_tape w (List.length (requests w) + k)%nat = Replied last ->
  (is_success last = false -> Spec.no_terminal_status last = true) /\
  (Spec.terminal_status last = None ->
   Spec.no_terminal_status last = true \/
   is_success last = true /\ forall items, response_json last <> Ok (JDict items)) /\
  (Spec.no_terminal_status last = true ->
   elapsed_exceeds (clock_tape w (S (clock_read w) + k)%nat) start_time bound = true ->
   exists w',
     _wait_for_transaction rounds self tx_hash timeout_secs poll_interval_secs w
     = (Raise (TimeoutError (DidNotCompleteWithin tx_hash bound)), w') /\
     List.length (requests w') = (List.length (requests w) + S k)%nat /\
     List.length (sleeps w') = (List.length (sleeps w) + k)%nat /\
     logged w' = logged w) /\
  (is_success last = true ->
   (forall items, response_json last <> Ok (JDict items)) ->
   Spec.terminal_status last = None /\
   exists w',
     _wait_for_transaction rounds self tx_hash timeout_secs poll_interval_secs w
     = (Raise match response_json last with
              | Raise e => e
              | Ok _ => LibraryError "AttributeError"
              end, w') /\
     List.length (requests w') = (List.length (requests w) + S k)%nat /\
     List.length (sleeps w') = (List.length (sleeps w) + k)%nat /\
     clock_read w' = (S (clock_read w) + k)%nat).
Proof.
  intros bound start_time Hrounds Hreplies Hearly Hlast.
  split; [apply http_failure_no_terminal_status|]. split.
  { unfold Spec.terminal_status, Spec.no_terminal_status. intros Hnone.
    destruct (is_success last); [|left; reflexivity]. cbn [negb orb].
    destruct (response_json last) as [[| | | | | |items]|e];
      try (right; split; [reflexivity|discriminate]).
    left. unfold is_bool.
    destruct (Dict.get "success" items) as [[| |b| | | |]|]; try reflexivity.
    discriminate Hnone. }
  split.
  - intros Hnone Hlate.
    unfold _wait_for_transaction. unfold bind at 1. unfold time at 1.
    fold bound. fold start_time.
    match goal with
    | |- exists w', poll_loop _ ?req _ _ _ ?int ?w0 = _ /\ _ =>
        destruct (poll_loop_times_out req tx_hash start_time bound int k rounds w0)
          as (w' & Hrun & Hreq & Hsl & _ & Hlog & _)
    end; try assumption.
    { intros i Hi. destruct (decide (i = k)) as [->|Hne].
      - exists last. split; assumption.
      - apply Hreplies. lia. }
    exists w'. split; [exact Hrun|].
    rewrite Hreq, Hsl, Hlog, !length_app, !repeat_length. cbn. repeat split.
  - intros Hok Hnot. split.
    { unfold Spec.terminal_status.
      destruct (response_json last) as [[| | | | | |items]|e]; try reflexivity.
      exfalso. exact (Hnot items eq_refl). }
    unfold _wait_for_transaction. unfold bind at 1. unfold time at 1.
    fold bound. fold start_time.
    replace rounds with (k + S (rounds - S k))%nat by lia.
    match goal with
    | |- exists w', poll_loop _ ?req _ _ _ ?int ?w0 = _ /\ _ =>
        destruct (poll_loop_pending_rounds req tx_hash start_time bound int k
                    (S (rounds - S k)) w0)
          as (wk & Hrun & Hreq & Hsl & Hclk & Hrt & _);
          [assumption|assumption|]; set (request := req) in *
    end.
    cbn [requests sleeps clock_read reply_tape] in Hreq, Hsl, Hclk, Hrt.
    assert (Hnext : reply_tape wk (List.length (requests wk)) = Replied last).
    { rewrite Hrt, Hreq, length_app, repeat_length. exact Hlast. }
    eexists. split.
    { refine (eq_trans Hrun _). cbn [poll_loop].
      unfold bind at 1. unfold send. rewrite Hnext.
      unfold bind at 1, lift at 1. rewrite (classify_unreadable last Hok Hnot).
      reflexivity. }
    cbn [requests sleeps clock_read].
    rewrite Hreq, Hsl, Hclk, !length_app, !repeat_length. cbn. repeat split; lia.
Qed.

End PollProperties.

(** C10 as it was worded fails at a gateway that answers every poll with
    status 200 and a page that is not JSON: no response contains a
    terminal status, and the poll ends at its first response with the
    decoding error, not with the timeout error; the clock, which would
    have exceeded the bound at its next reading, is not looked at. *)
Lemma unreadable_reply_ends_poll_without_timeout :
  let w := Scenario.world Scenario.bits_nonzero Scenario.always_html 40 in
  let run := Base._wait_for_transaction 5 Scenario.sdk "0xabc" None None w in
  (forall n, exists r, Scenario.always_html n = Env.Replied r /\
                       Spec.terminal_status r = None) /\
  fst run = Raise (LibraryError "JSONDecodeError") /\
  fst run <> Raise (TimeoutError (DidNotCompleteWithin "0xabc" 30)) /\
  List.length (Env.requests (snd run)) = 1%nat /\
  Env.sleeps (snd run) = [] /\
  Env.clock_read (snd run) = 1%nat /\
  elapsed_exceeds (Env.clock_tape w 1) (Env.clock_tape w 0) 30 = true.
Proof.
  cbv zeta. split.
  - intros n. eexists. split; reflexivity.
  - split; [reflexivity|]. split; [discriminate|]. split; [reflexivity|].
    split; [reflexivity|]. split; [reflexivity|]. vm_compute. reflexivity.
Qed.

(** C10 (amended) at a node that answers every poll with status 503, on
    a clock that advances 20 seconds between readings: the second round
    times out; and at the gateway above, whose first answer ends the
    poll. *)
Lemma poll_without_terminal_status_times_out_witness :
  (exists w',
     Base._wait_for_transaction 5 Scenario.sdk "0xabc" None None
       (Scenario.world Scenario.bits_nonzero Scenario.always_503 20)
     = (Raise (TimeoutError (DidNotCompleteWithin "0xabc" 30)), w') /\
     List.length (Env.requests w') = 2%nat /\
     List.length (Env.sleeps w') = 1%nat /\
     Env.logged w' = []) /\
  (exists w',
     Base._wait_for_transaction 5 Scenario.sdk "0xabc" None None
       (Scenario.world Scenario.bits_nonzero Scenario.always_html 20)
     = (Raise (LibraryError "JSONDecodeError"), w') /\
     List.length (Env.requests w') = 1%nat /\
     List.length (Env.sleeps w') = 0%nat /\
     Env.clock_read w' = 1%nat).
Proof.
  split.
  - destruct (poll_without_terminal_status_times_out 5 Scenario.sdk "0xabc" None None
                (Scenario.world Scenario.bits_nonzero Scenario.always_503 20) 1
                {| Env.status_code := 503; Env.text := "unavailable";
                   Env.response_json := Raise (LibraryError "JSONDecodeError") |})
      as (_ & _ & Htimeout & _).
    + lia.
    + intros i Hi. eexists. split; reflexivity.
    + intros i Hi. destruct i; [reflexivity|lia].
    + reflexivity.
    + apply Htimeout; reflexivity.
  - destruct (poll_without_terminal_status_times_out 5 Scenario.sdk "0xabc" None None
                (Scenario.world Scenario.bits_nonzero Scenario.always_html 20) 0
                {| Env.status_code := 200; Env.text := "<html></html>";
                   Env.response_json := Raise (LibraryError "JSONDecodeError") |})
      as (_ & _ & _ & Hunreadable).
    + lia.
    + intros i Hi. lia.
    + intros i Hi. lia.
    + reflexivity.
    + destruct Hunreadable as (_ & Hrun); [reflexivity|discriminate|]. exact Hrun.
Defined.

(* ===================================================================== *)
(** * Further properties of the modelled code *)
(* ===================================================================== *)

(** ** The gas price manager *)

Section GasProperties.

Context {env : Externals}.
Import Env GasPriceManager.

(** The estimate request touches neither the manager nor the log. *)
Lemma fetch_gas_price_estimation_frame url opts (w : World) r w1 :
  fetch_gas_price_estimation url opts w = (r, w1) ->
  manager w1 = manager w /\ logged w1 = logged w /\
  List.length (requests w1) = S (List.length (requests w)).
Proof.
  unfold fetch_gas_price_estimation, bind, send, lift, raise. intros Hrun.
  destruct (reply_tape w (List.length (requests w))) as [e|response];
    [inversion Hrun; subst; cbn; rewrite length_app; cbn; repeat split; lia|].
  destruct (negb (is_success response));
    [inversion Hrun; subst; cbn; rewrite length_app; cbn; repeat split; lia|].
  destruct (response_json response) as [data|e];
    [|inversion Hrun; subst; cbn; rewrite length_app; cbn; repeat split; lia].
  destruct (Dict.get_attr data "gas_estimate") as [field|e];
    inversion Hrun; subst; cbn; rewrite length_app; cbn; repeat split; lia.
Qed.

(** A fetch that raises leaves the manager as it was and logs the
    error. *)
Lemma fetch_and_set_gas_price_raise url opts (w : World) e w1 :
  fetch_and_set_gas_price url opts w = (Raise e, w1) ->
  manager w1 = manager w /\
  logged w1 = logged w ++ [(ERROR, "Failed to fetch gas price", e)].
Proof.
  unfold fetch_and_set_gas_price, try_except, bind at 1. intros Hrun.
  destruct (fetch_gas_price_estimation url opts w) as [[g|e0] wa] eqn:Ef;
    destruct (fetch_gas_price_estimation_frame _ _ _ _ _ Ef) as (Hman & Hlog & _).
  - destruct (g =? 0).
    + cbn in Hrun. inversion Hrun; subst. cbn. rewrite Hman, Hlog. split; reflexivity.
    + cbn in Hrun. discriminate Hrun.
  - cbn in Hrun. inversion Hrun; subst. cbn. rewrite Hman, Hlog. split; reflexivity.
Qed.

(** A fetch that returns has stored the nonzero price it returns and
    touched no other field of the manager. *)
Lemma fetch_and_set_gas_price_ok url opts (w : World) p w1 :
  fetch_and_set_gas_price url opts w = (Ok p, w1) ->
  p <> 0 /\
  gas_price (manager w1) = Some p /\
  _refresh_task (manager w1) = _refresh_task (manager w) /\
  _is_initialized (manager w1) = _is_initialized (manager w) /\
  logged w1 = logged w.
Proof.
  unfold fetch_and_set_gas_price, try_except, bind at 1. intros Hrun.
  destruct (fetch_gas_price_estimation url opts w) as [[g|e0] wa] eqn:Ef;
    destruct (fetch_gas_price_estimation_frame _ _ _ _ _ Ef) as (Hman & Hlog & _).
  - destruct (g =? 0) eqn:Eg.
    + cbn in Hrun. discriminate Hrun.
    + cbn in Hrun. inversion Hrun; subst. cbn. rewrite Hman, Hlog.
      apply Z.eqb_neq in Eg. repeat split. exact Eg.
  - cbn in Hrun. discriminate Hrun.
Qed.

(** X1. [initialize] returns normally in every world. When the manager is
    not initialized and the initial fetch raises, [initialize] logs the
    error and leaves the manager as it was: not initialized, no gas price
    stored by this call, no refresh loop started. A later [initialize]
    whose fetch returns a price makes the manager active: initialized,
    the price cached, the refresh loop started. *)
Theorem initialize_swallows_fetch_failure url opts (w : World) :
  (exists w', initialize url opts w = (Ok tt, w')) /\
  (forall e w1,
     _is_initialized (manager w) = false ->
     fetch_and_set_gas_price url opts w = (Raise e, w1) ->
     let w' := snd (log ERROR "Failed to initialize gas price manager" e w1) in
     initialize url opts w = (Ok tt, w') /\
     manager w' = manager w /\
     _is_initialized (manager w') = false /\
     forall p w2,
       fetch_and_set_gas_price url opts w' = (Ok p, w2) ->
       exists w3,
         initialize url opts w' = (Ok tt, w3) /\
         _is_initialized (manager w3) = true /\
         _refresh_task (manager w3) = true /\
         gas_price (manager w3) = Some p).
Proof.
  split.
  - unfold initialize, bind at 1, get_manager at 1.
    destruct (_is_initialized (manager w)); [eexists; reflexivity|].
    unfold try_except, bind at 1.
    destruct (fetch_and_set_gas_price url opts w) as [[p|e] w1];
      eexists; reflexivity.
  - intros e w1 Hinit Hfetch w'.
    destruct (fetch_and_set_gas_price_raise _ _ _ _ _ Hfetch) as [Hman _].
    assert (Hman' : manager w' = manager w) by (subst w'; cbn; exact Hman).
    split.
    { unfold initialize, bind at 1, get_manager at 1. rewrite Hinit.
      unfold try_except, bind at 1. rewrite Hfetch. reflexivity. }
    split; [exact Hman'|]. split; [rewrite Hman'; exact Hinit|].
    intros p w2 Hlater.
    destruct (fetch_and_set_gas_price_ok _ _ _ _ _ Hlater) as (_ & Hprice & _).
    eexists. split.
    { unfold initialize, bind at 1, get_manager at 1. rewrite Hman', Hinit.
      unfold try_except, bind at 1. rewrite Hlater. reflexivity. }
    cbn. repeat split. exact Hprice.
Qed.

(** An initialized manager is left alone: [initialize] sends nothing and
    changes nothing. *)
Lemma initialize_is_idempotent url opts (w : World) :
  _is_initialized (manager w) = true ->
  initialize url opts w = (Ok tt, w).
Proof.
  intros Hinit. unfold initialize, bind, get_manager. rewrite Hinit. reflexivity.
Qed.

(** X2. After an [initialize] whose fetch returned a price, the manager
    caches that price, and a second [initialize] sends no request and
    changes nothing. *)
Theorem initialize_twice url opts (w : World) p w1 :
  _is_initialized (manager w) = false ->
  fetch_and_set_gas_price url opts w = (Ok p, w1) ->
  exists w2,
    initialize url opts w = (Ok tt, w2) /\
    initialize url opts w2 = (Ok tt, w2) /\
    gas_price (manager w2) = Some p /\
    requests w2 = requests w1.
Proof.
  intros Hinit Hfetch.
  destruct (fetch_and_set_gas_price_ok _ _ _ _ _ Hfetch) as (_ & Hprice & _).
  eexists. split.
  { unfold initialize, bind at 1, get_manager at 1. rewrite Hinit.
    unfold try_except, bind at 1. rewrite Hfetch. reflexivity. }
  split; [apply initialize_is_idempotent; reflexivity|].
  cbn. split; [exact Hprice|reflexivity].
Qed.

(** X3. When the node answers but the scaled estimate is zero, the
    fetch raises "no gas estimate" and the price cached before stays. *)
Theorem zero_estimate_keeps_cached_price url opts (w : World) wa :
  fetch_gas_price_estimation url opts w = (Ok 0, wa) ->
  exists w1,
    fetch_and_set_gas_price url opts w = (Raise (ValueError NoGasEstimate), w1) /\
    gas_price (manager w1) = gas_price (manager w).
Proof.
  intros Hest.
  destruct (fetch_gas_price_estimation_frame _ _ _ _ _ Hest) as (Hman & _).
  eexists. split.
  { unfold fetch_and_set_gas_price, try_except, bind at 1. rewrite Hest. reflexivity. }
  cbn. rewrite Hman. reflexivity.
Qed.

(** X4. [destroy] forgets the cached price whatever the manager held
    and sends nothing, and a manager destroyed can be initialized
    again. *)
Theorem destroy_then_initialize url opts (w : World) :
  exists w1,
    destroy w = (Ok tt, w1) /\
    get_gas_price w1 = (Ok None, w1) /\
    _is_initialized (manager w1) = false /\ _refresh_task (manager w1) = false /\
    requests w1 = requests w /\
    forall p w2,
      fetch_and_set_gas_price url opts w1 = (Ok p, w2) ->
      exists w3, initialize url opts w1 = (Ok tt, w3) /\
                 _is_initialized (manager w3) = true /\
                 gas_price (manager w3) = Some p.
Proof.
  eexists. split; [reflexivity|]. cbn. repeat split.
  intros p w2 Hfetch.
  destruct (fetch_and_set_gas_price_ok _ _ _ _ _ Hfetch) as (_ & Hprice & _).
  eexists. split.
  { unfold initialize, bind at 1, get_manager at 1. cbn [manager _is_initialized].
    unfold try_except, bind at 1. rewrite Hfetch. reflexivity. }
  cbn. split; [reflexivity|exact Hprice].
Qed.

End GasProperties.

(** At a node that is unreachable for the first request: [initialize]
    returns, the manager stays idle, and the next [initialize] caches the
    doubled estimate. *)
Lemma initialize_swallows_fetch_failure_witness :
  let w := Scenario.world Scenario.bits_nonzero Scenario.flaky_node 1 in
  let w' := snd (GasPriceManager.initialize "http://node" GasPriceManager.default_options w) in
  fst (GasPriceManager.initialize "http://node" GasPriceManager.default_options w) = Ok tt /\
  Env.manager w' = Scenario.idle_manager /\
  exists w3,
    GasPriceManager.initialize "http://node" GasPriceManager.default_options w' = (Ok tt, w3) /\
    Env._is_initialized (Env.manager w3) = true /\
    GasPriceManager.gas_price (Env.manager w3) = Some 200.
Proof.
  intros w w'.
  destruct (initialize_swallows_fetch_failure "http://node" GasPriceManager.default_options w)
    as [_ Hfail].
  destruct (Hfail (LibraryError "ConnectError")
              (snd (GasPriceManager.fetch_and_set_gas_price "http://node"
                      GasPriceManager.default_options w)) eq_refl eq_refl)
    as (Hinit & Hman & _ & Hlater).
  split; [reflexivity|]. split; [reflexivity|].
  destruct (Hlater 200 (snd (GasPriceManager.fetch_and_set_gas_price "http://node"
                               GasPriceManager.default_options w')) eq_refl)
    as (w3 & Hagain & Hflag & _ & Hprice).
  exists w3. repeat split; assumption.
Defined.

(** The node estimates 100; the manager caches the doubled estimate and
    the second [initialize] leaves the world as it is. *)
Lemma initialize_twice_witness :
  let w := Scenario.world Scenario.bits_nonzero Scenario.node_replies 1 in
  exists w2,
    GasPriceManager.initialize "http://node" GasPriceManager.default_options w = (Ok tt, w2) /\
    GasPriceManager.initialize "http://node" GasPriceManager.default_options w2 = (Ok tt, w2) /\
    GasPriceManager.gas_price (Env.manager w2) = Some 200 /\
    List.length (Env.requests w2) = 1%nat.
Proof.
  intros w.
  destruct (initialize_twice "http://node" GasPriceManager.default_options w 200
              (snd (GasPriceManager.fetch_and_set_gas_price "http://node"
                      GasPriceManager.default_options w)) eq_refl eq_refl)
    as (w2 & Hfirst & Hsecond & Hprice & Hreq).
  exists w2. repeat split; try assumption. rewrite Hreq. reflexivity.
Defined.

(** A price of 200 is cached from the first estimate; the second
    estimate is zero and the cached price is still 200. *)
Lemma zero_estimate_keeps_cached_price_witness :
  let w0 := Scenario.world Scenario.bits_nonzero Scenario.drained_node 1 in
  let w := snd (GasPriceManager.fetch_and_set_gas_price "http://node"
                  GasPriceManager.default_options w0) in
  exists w1,
    GasPriceManager.fetch_and_set_gas_price "http://node" GasPriceManager.default_options w
    = (Raise (ValueError NoGasEstimate), w1) /\
    GasPriceManager.gas_price (Env.manager w1) = Some 200.
Proof.
  intros w0 w.
  destruct (zero_estimate_keeps_cached_price "http://node" GasPriceManager.default_options w
              (snd (GasPriceManager.fetch_gas_price_estimation "http://node"
                      GasPriceManager.default_options w)) eq_refl)
    as (w1 & Hfetch & Hprice).
  exists w1. split; [exact Hfetch|]. rewrite Hprice. reflexivity.
Defined.

(** ** The fee-payer submitter *)

Section FeePayProperties.

Context {env : Externals} {txs : AptosTransactions}.
Import Env Constants TransactionBuilder FeePay Trace.

Ltac nothing_sent :=
  exists []; split; [unfold added; rewrite app_nil_r; reflexivity|];
  split; [cbn; lia|constructor].

Ltac one_sent :=
  eexists [_]; split; [reflexivity|]; split; [cbn; lia|];
  constructor; [|constructor]; cbn; repeat split.

(** The legacy relay sends at most one request: a POST to the
    configured URL followed by [/transactions], with no authorization
    header. *)
Lemma _submit_via_legacy_fee_payer_request config transaction auth (w : World) r w' :
  _submit_via_legacy_fee_payer config transaction auth w = (r, w') ->
  exists rs, added w w' rs /\ (List.length rs <= 1)%nat /\
    Forall (fun req =>
      req_method req = "POST" /\
      req_url req = String.append (fmt (gas_station_url config)) "/transactions" /\
      req_headers req = [("Content-Type", "application/json")]) rs.
Proof.
  unfold _submit_via_legacy_fee_payer, bind at 1, lift at 1. intros Hrun.
  destruct (Bcs.output (AccountAuthenticator_serialize auth)) as [sig|e];
    [|inversion Hrun; subst; nothing_sent].
  unfold bind at 1, lift at 1 in Hrun.
  destruct (Bcs.output (RawTransaction_serialize (raw_transaction transaction))) as [raw|e];
    [|inversion Hrun; subst; nothing_sent].
  unfold bind at 1, send at 1 in Hrun.
  destruct (reply_tape w _) as [e|response]; [inversion Hrun; subst; one_sent|].
  destruct (negb (is_success response)); [inversion Hrun; subst; one_sent|].
  unfold bind, lift, ret in Hrun.
  destruct (response_json response) as [data|e]; [|inversion Hrun; subst; one_sent].
  repeat match type of Hrun with
         | context [match Dict.get_attr ?d ?k with _ => _ end] =>
             destruct (Dict.get_attr d k)
         end;
    inversion Hrun; subst; one_sent.
Qed.

(** X5. Without an API key the configured relay URL decides. With one,
    whatever the network, the only request submission can send is a POST
    to that URL followed by [/transactions]. Without one, submission
    raises "Either gas_station_api_key or gas_station_url must be
    provided" and sends nothing, on every network and chain id: the
    legacy relay has no built-in address to fall back to. *)
Theorem legacy_relay_needs_configured_url config transaction auth (w : World) :
  truthy (gas_station_api_key config) = false ->
  (forall url, gas_station_url config = Some url -> url <> "" ->
     forall r w',
       submit_fee_paid_transaction config transaction auth w = (r, w') ->
       exists rs, added w w' rs /\ (List.length rs <= 1)%nat /\
         Forall (fun req =>
           req_method req = "POST" /\
           req_url req = String.append url "/transactions") rs) /\
  (truthy (gas_station_url config) = false ->
     submit_fee_paid_transaction config transaction auth w
     = (Raise (ValueError EitherKeyOrUrlMustBeProvided), w)).
Proof.
  intros Hkey. split.
  - intros url Hurl Hne r w' Hrun.
    assert (Htruthy : truthy (gas_station_url config) = true).
    { rewrite Hurl. unfold truthy, GasPriceManager.truthy.
      destruct (String.eqb_spec url ""); [contradiction|reflexivity]. }
    unfold submit_fee_paid_transaction in Hrun. rewrite Hkey, Htruthy in Hrun.
    destruct (_submit_via_legacy_fee_payer_request _ _ _ _ _ _ Hrun)
      as (rs & Hadded & Hlen & Hall).
    exists rs. split; [exact Hadded|]. split; [exact Hlen|].
    eapply List.Forall_impl; [|exact Hall].
    intros req (Hm & Hu & _). rewrite Hurl in Hu. split; assumption.
  - intros Hurl. unfold submit_fee_paid_transaction. rewrite Hkey, Hurl. reflexivity.
Qed.

(** X6. The base URL of the bearer-token relay: on testnet the
    hardcoded testnet URL, otherwise on chain id 208 the hardcoded URL of
    that chain, in both cases whatever relay URL is configured; on other
    networks the configured URL, and an error when there is none. *)
Theorem bearer_relay_base_url config :
  (network config = TESTNET ->
     _get_default_gas_station_url config = Ok "https://api.testnet.aptoslabs.com/gs/v1") /\
  (network config <> TESTNET -> Constants.chain_id config = Some 208 ->
     _get_default_gas_station_url config = Ok "https://api.netna.aptoslabs.com/gs/v1") /\
  (network config <> TESTNET -> Constants.chain_id config <> Some 208 ->
     forall url, gas_station_url config = Some url -> url <> "" ->
     _get_default_gas_station_url config = Ok url) /\
  (network config <> TESTNET -> Constants.chain_id config <> Some 208 ->
     truthy (gas_station_url config) = false ->
     _get_default_gas_station_url config = Raise (ValueError GasStationUrlMustBeProvided)).
Proof.
  unfold _get_default_gas_station_url.
  split; [|split; [|split]].
  - intros ->. reflexivity.
  - intros Hn Hc. destruct (network config); try congruence; cbn;
      rewrite bool_decide_eq_true_2 by exact Hc; reflexivity.
  - intros Hn Hc url Hurl Hne.
    destruct (network config); try congruence; cbn;
      rewrite bool_decide_eq_false_2 by exact Hc; rewrite Hurl;
      destruct (String.eqb_spec url ""); try contradiction; reflexivity.
  - intros Hn Hc Hurl.
    unfold truthy, GasPriceManager.truthy in Hurl.
    destruct (network config); try congruence; cbn;
      rewrite bool_decide_eq_false_2 by exact Hc;
      (destruct (gas_station_url config) as [url|]; [|reflexivity]);
      (destruct (String.eqb url ""); [reflexivity|discriminate Hurl]).
Qed.

(** X7. With an API key the bearer-token relay is used even when a relay
    URL is configured: submission sends at most one request, a POST to
    the sign-and-submit endpoint under the base URL, with the key as
    bearer token. *)
Theorem api_key_selects_bearer_relay config transaction auth (w : World) key r w' :
  gas_station_api_key config = Some key -> key <> "" ->
  submit_fee_paid_transaction config transaction auth w = (r, w') ->
  exists rs, added w w' rs /\ (List.length rs <= 1)%nat /\
    Forall (fun req =>
      req_method req = "POST" /\
      (exists base, _get_default_gas_station_url config = Ok base /\
                    req_url req = String.append base "/api/transaction/signAndSubmit") /\
      List.In ("Authorization", String.append "Bearer " key) (req_headers req)) rs.
Proof.
  intros Hkey Hne Hrun.
  unfold submit_fee_paid_transaction in Hrun. rewrite Hkey in Hrun.
  unfold truthy, GasPriceManager.truthy in Hrun.
  destruct (String.eqb_spec key "") as [|_]; [contradiction|]. cbn [negb] in Hrun.
  unfold _submit_via_gas_station_api, bind at 1, lift at 1 in Hrun.
  destruct (_get_default_gas_station_url config) as [base|e];
    [|inversion Hrun; subst; nothing_sent].
  unfold bind at 1, lift at 1 in Hrun.
  match type of Hrun with
  | context [match Bcs.output ?s with _ => _ end] =>
      destruct (Bcs.output s) as [raw|e]; [|inversion Hrun; subst; nothing_sent]
  end.
  unfold bind at 1, lift at 1 in Hrun.
  destruct (Bcs.output (AccountAuthenticator_serialize auth)) as [sig|e];
    [|inversion Hrun; subst; nothing_sent].
  unfold bind at 1, send at 1 in Hrun.
  assert (Hhdr : List.In ("Authorization", String.append "Bearer " key)
            [("Content-Type", "application/json");
             ("Authorization", String.append "Bearer " (fmt (gas_station_api_key config)))]).
  { rewrite Hkey. right. left. reflexivity. }
  destruct (reply_tape w _) as [e|response];
    [inversion Hrun; subst; one_sent; [eexists; split; reflexivity|exact Hhdr]|].
  destruct (negb (is_success response));
    [inversion Hrun; subst; one_sent; [eexists; split; reflexivity|exact Hhdr]|].
  unfold bind, lift, ret, raise in Hrun.
  destruct (response_json response) as [data|e];
    [|inversion Hrun; subst; one_sent; [eexists; split; reflexivity|exact Hhdr]].
  destruct (Dict.get_attr data "hash");
    [|inversion Hrun; subst; one_sent; [eexists; split; reflexivity|exact Hhdr]].
  destruct (Dict.get_attr data "transactionHash");
    [|inversion Hrun; subst; one_sent; [eexists; split; reflexivity|exact Hhdr]].
  match type of Hrun with
  | context [match ?x with JStr _ => _ | _ => _ end] => destruct x
  end; inversion Hrun; subst; one_sent;
    solve [eexists; split; reflexivity|exact Hhdr].
Qed.

(** X8. When the relay answers the request with a status outside 2xx,
    submission raises with the status code and the body as text, and the
    body is not decoded: "Gas station API error" from the bearer-token
    relay, "Fee payer error" from the legacy relay. *)
Theorem relay_rejection_is_raised config transaction auth (w : World) response r w' :
  next_reply w = Replied response ->
  is_success response = false ->
  submit_fee_paid_transaction config transaction auth w = (r, w') ->
  requests w' <> requests w ->
  r = Raise (ValueError
        (if truthy (gas_station_api_key config)
         then GasStationApiError (status_code response) (text response)
         else FeePayerError (status_code response) (text response))).
Proof.
  unfold next_reply. intros Hreply Hfail Hrun Hsent.
  unfold submit_fee_paid_transaction in Hrun.
  destruct (truthy (gas_station_api_key config)).
  - unfold _submit_via_gas_station_api, bind at 1, lift at 1 in Hrun.
    destruct (_get_default_gas_station_url config) as [base|e];
      [|inversion Hrun; subst; contradiction].
    unfold bind at 1, lift at 1 in Hrun.
    match type of Hrun with
    | context [match Bcs.output ?s with _ => _ end] =>
        destruct (Bcs.output s) as [raw|e]; [|inversion Hrun; subst; contradiction]
    end.
    unfold bind at 1, lift at 1 in Hrun.
    destruct (Bcs.output (AccountAuthenticator_serialize auth)) as [sig|e];
      [|inversion Hrun; subst; contradiction].
    unfold bind at 1, send at 1 in Hrun. rewrite Hreply, Hfail in Hrun.
    inversion Hrun; subst. reflexivity.
  - destruct (truthy (gas_station_url config));
      [|inversion Hrun; subst; contradiction].
    unfold _submit_via_legacy_fee_payer, bind at 1, lift at 1 in Hrun.
    destruct (Bcs.output (AccountAuthenticator_serialize auth)) as [sig|e];
      [|inversion Hrun; subst; contradiction].
    unfold bind at 1, lift at 1 in Hrun.
    destruct (Bcs.output (RawTransaction_serialize (raw_transaction transaction)))
      as [raw|e]; [|inversion Hrun; subst; contradiction].
    unfold bind at 1, send at 1 in Hrun. rewrite Hreply, Hfail in Hrun.
    inversion Hrun; subst. reflexivity.
Qed.

End FeePayProperties.

(** On testnet with neither key nor relay URL, submission fails before
    any request. *)
Lemma legacy_relay_needs_configured_url_witness :
  let w := Scenario.world Scenario.bits_nonzero Scenario.accepted 1 in
  FeePay.submit_fee_paid_transaction Scenario.testnet_bare Scenario.envelope
    Scenario.envelope_signature w
  = (Raise (ValueError EitherKeyOrUrlMustBeProvided), w).
Proof.
  intros w.
  exact (proj2 (legacy_relay_needs_configured_url Scenario.testnet_bare Scenario.envelope
                  Scenario.envelope_signature w eq_refl) eq_refl).
Defined.

(** On testnet the configured relay URL [http://my-relay] is not the
    base URL of the bearer-token relay. *)
Lemma bearer_relay_base_url_witness :
  FeePay._get_default_gas_station_url Scenario.testnet_with_key
  = Ok "https://api.testnet.aptoslabs.com/gs/v1".
Proof.
  exact (proj1 (bearer_relay_base_url Scenario.testnet_with_key) eq_refl).
Defined.

(** With the key ["key"] one request goes out, and it carries the key. *)
Lemma api_key_selects_bearer_relay_witness :
  let w := Scenario.world Scenario.bits_nonzero Scenario.accepted 1 in
  let run := FeePay.submit_fee_paid_transaction Scenario.testnet_with_key
               Scenario.envelope Scenario.envelope_signature w in
  exists rs, Trace.added w (snd run) rs /\ (List.length rs <= 1)%nat /\
    Forall (fun req =>
      Env.req_method req = "POST" /\
      (exists base, FeePay._get_default_gas_station_url Scenario.testnet_with_key = Ok base /\
         Env.req_url req = String.append base "/api/transaction/signAndSubmit") /\
      List.In ("Authorization", String.append "Bearer " "key") (Env.req_headers req)) rs.
Proof.
  intros w run.
  apply (@api_key_selects_bearer_relay Sample.externals Sample.transactions
           Scenario.testnet_with_key Scenario.envelope
           Scenario.envelope_signature w "key" (fst run) (snd run) eq_refl).
  - discriminate.
  - reflexivity.
Defined.

(** A relay that answers 503 to the legacy submitter. *)
Lemma relay_rejection_is_raised_witness :
  let w := Scenario.world Scenario.bits_nonzero Scenario.always_503 1 in
  let run := FeePay.submit_fee_paid_transaction Scenario.custom_with_relay
               Scenario.envelope Scenario.envelope_signature w in
  fst run = Raise (ValueError (FeePayerError 503 "unavailable")).
Proof.
  intros w run.
  apply (@relay_rejection_is_raised Sample.externals Sample.transactions
           Scenario.custom_with_relay Scenario.envelope Scenario.envelope_signature w
           {| Env.status_code := 503; Env.text := "unavailable";
              Env.response_json := Raise (LibraryError "JSONDecodeError") |}
           (fst run) (snd run)).
  - reflexivity.
  - reflexivity.
  - reflexivity.
  - discriminate.
Defined.

(** ** The subscription multiplexer *)

Section WsProperties.

Context {env : Externals}.
Import Ws.

(** X9. A message with a ["success"] member is discarded without
    reaching a listener only when it also has a string ["topic"]. Without
    one it raises "missing topic field", in the parser and in the
    receive loop's body. *)
Theorem success_message_discarded_only_with_topic data raw items :
  json_loads data = Some raw ->
  revive raw = Ok (JDict items) ->
  Dict.mem "success" items = true ->
  (forall topic, Dict.get "topic" items = Some (JStr topic) ->
     _parse_message data = Ok None /\
     forall self, on_message (Text data) self = Ok self) /\
  ((forall topic, Dict.get "topic" items <> Some (JStr topic)) ->
     _parse_message data = Raise (ValueError (MissingTopicField data)) /\
     forall self, on_message (Text data) self
                  = Raise (ValueError (MissingTopicField data))).
Proof.
  intros Hloads Hrevive Hsuccess. split.
  - intros topic Htopic.
    assert (Hparse : _parse_message data = Ok None).
    { unfold _parse_message. rewrite Hloads, Hrevive. cbn.
      rewrite Htopic, Hsuccess. reflexivity. }
    split; [exact Hparse|]. intros self. unfold on_message. rewrite Hparse. reflexivity.
  - intros Hnone.
    assert (Hparse : _parse_message data = Raise (ValueError (MissingTopicField data))).
    { unfold _parse_message. rewrite Hloads, Hrevive. cbn.
      destruct (Dict.get "topic" items) as [[| | | |topic| |]|] eqn:Htopic;
        try reflexivity.
      exfalso. exact (Hnone topic eq_refl). }
    split; [exact Hparse|]. intros self. unfold on_message. rewrite Hparse. reflexivity.
Qed.

(** *** The subscription table *)

Lemma messages_create_task t (self : DecibelWsSubscription) :
  messages (create_task t self)
  = messages self ++ match t with SendTask m => [m] | _ => [] end.
Proof.
  unfold messages, create_task. cbn. rewrite omap_app. cbn.
  destruct t; reflexivity.
Qed.

Lemma opens_create_task t (self : DecibelWsSubscription) :
  opens (create_task t self)
  = (opens self + match t with OpenTask => 1 | _ => 0 end)%nat.
Proof.
  unfold opens, create_task. cbn. rewrite List.filter_app, length_app. cbn.
  destruct t; reflexivity.
Qed.

(** What [subscribe] leaves. *)
Lemma subscribe_fields topic body (self : DecibelWsSubscription) :
  fst (subscribe topic body self) = next_listener self /\
  _ws (snd (subscribe topic body self)) = _ws self /\
  _subscriptions (snd (subscribe topic body self))
  = <[topic := {[next_listener self]} ∪ default ∅ (_subscriptions self !! topic)]>
      (_subscriptions self) /\
  next_listener (snd (subscribe topic body self)) = S (next_listener self) /\
  _close_timer_task (snd (subscribe topic body self)) = false /\
  messages (snd (subscribe topic body self))
  = messages self
    ++ (if bool_decide (default ∅ (_subscriptions self !! topic) = ∅) && _ws self
        then [Subscribe topic] else []) /\
  opens (snd (subscribe topic body self)) = (opens self + if _ws self then 0 else 1)%nat.
Proof.
  unfold subscribe. cbn.
  destruct (bool_decide (default ∅ (_subscriptions self !! topic) = ∅));
    destruct (_ws self); destruct (_close_timer_task self); cbn;
    unfold messages, opens; cbn;
    rewrite ?omap_app, ?List.filter_app, ?length_app; cbn;
    rewrite ?app_nil_r, ?Nat.add_0_r; repeat split.
Qed.

(** What [_unsubscribe_topic] leaves when the topic is in the table. *)
Lemma _unsubscribe_topic_fields topic (self : DecibelWsSubscription) listeners :
  _subscriptions self !! topic = Some listeners ->
  _ws (_unsubscribe_topic topic self) = _ws self /\
  _subscriptions (_unsubscribe_topic topic self) = delete topic (_subscriptions self) /\
  next_listener (_unsubscribe_topic topic self) = next_listener self /\
  messages (_unsubscribe_topic topic self)
  = messages self ++ (if _ws self then [Unsubscribe topic] else []) /\
  _close_timer_task (_unsubscribe_topic topic self)
  = (if bool_decide (delete topic (_subscriptions self) = ∅) then true
     else _close_timer_task self) /\
  opens (_unsubscribe_topic topic self) = opens self.
Proof.
  intros Hsubs. unfold _unsubscribe_topic. rewrite Hsubs. cbn.
  destruct (_ws self) eqn:Hws; cbn;
    destruct (bool_decide (delete topic (_subscriptions self) = ∅)); cbn;
    unfold messages, opens; cbn;
    rewrite ?omap_app, ?List.filter_app, ?length_app; cbn;
    rewrite ?app_nil_r, ?Nat.add_0_r; repeat split; exact Hws.
Qed.

(** [unsubscribe] for a topic that is not in the table, and for a
    listener that is not among the listeners of its topic. *)
Lemma unsubscribe_absent topic listener (self : DecibelWsSubscription) :
  _subscriptions self !! topic = None ->
  unsubscribe topic listener self = self.
Proof.
  intros Hsubs. unfold unsubscribe, _unsubscribe_listener. rewrite Hsubs. reflexivity.
Qed.

Lemma unsubscribe_other topic listener (self : DecibelWsSubscription) ls :
  _subscriptions self !! topic = Some ls -> listener ∉ ls -> ls <> ∅ ->
  unsubscribe topic listener self = self.
Proof.
  intros Hsubs Hnotin Hne. unfold unsubscribe, _unsubscribe_listener.
  rewrite Hsubs. cbn zeta.
  assert (Hsame : ls ∖ {[listener]} = ls) by (clear Hsubs; set_solver).
  rewrite Hsame, bool_decide_eq_false_2 by exact Hne.
  rewrite insert_id by exact Hsubs. destruct self; reflexivity.
Qed.

(** X11. Unsubscribing a second time changes nothing, in every state of
    the multiplexer and for every listener, subscribed or not. *)
Theorem unsubscribe_twice_is_unsubscribe_once topic listener
    (self : DecibelWsSubscription) :
  unsubscribe topic listener (unsubscribe topic listener self)
  = unsubscribe topic listener self.
Proof.
  destruct (_subscriptions self !! topic) as [ls|] eqn:Hsubs.
  2:{ rewrite (unsubscribe_absent _ _ self Hsubs).
      apply unsubscribe_absent, Hsubs. }
  destruct (bool_decide (ls ∖ {[listener]} = ∅)) eqn:Hlast.
  - set (s1 := with_subscriptions (<[topic := ls ∖ {[listener]}]> (_subscriptions self))
                 self).
    assert (Hfirst : unsubscribe topic listener self = _unsubscribe_topic topic s1).
    { unfold unsubscribe, _unsubscribe_listener. rewrite Hsubs. cbn zeta.
      rewrite Hlast. reflexivity. }
    assert (Hs1 : _subscriptions s1 !! topic = Some (ls ∖ {[listener]})).
    { subst s1. cbn. apply lookup_insert_eq. }
    destruct (_unsubscribe_topic_fields topic s1 _ Hs1) as (_ & Htable & _).
    rewrite Hfirst. apply unsubscribe_absent. rewrite Htable. apply lookup_delete_eq.
  - set (s1 := with_subscriptions (<[topic := ls ∖ {[listener]}]> (_subscriptions self))
                 self).
    assert (Hfirst : unsubscribe topic listener self = s1).
    { unfold unsubscribe, _unsubscribe_listener. rewrite Hsubs. cbn zeta.
      rewrite Hlast. reflexivity. }
    rewrite Hfirst. apply (unsubscribe_other _ _ _ (ls ∖ {[listener]})).
    + subst s1. cbn. apply lookup_insert_eq.
    + set_solver.
    + apply bool_decide_eq_false in Hlast. exact Hlast.
Qed.

(** X12. When the last listener of a topic unsubscribes, the topic
    leaves the table. The unsubscribe message is handed to the socket
    only if the multiplexer holds one at that moment; without a socket
    nothing is sent. The delayed close is armed when the table is then
    empty. *)
Theorem last_unsubscribe_drops_the_topic topic listener
    (self : DecibelWsSubscription) listeners :
  _subscriptions self !! topic = Some listeners ->
  listeners ∖ {[listener]} = ∅ ->
  _subscriptions (unsubscribe topic listener self) = delete topic (_subscriptions self) /\
  messages (unsubscribe topic listener self)
  = messages self ++ (if _ws self then [Unsubscribe topic] else []) /\
  _close_timer_task (unsubscribe topic listener self)
  = (if bool_decide (delete topic (_subscriptions self) = ∅) then true
     else _close_timer_task self).
Proof.
  intros Hsubs Hlast. unfold unsubscribe, _unsubscribe_listener.
  rewrite Hsubs. cbn zeta. rewrite bool_decide_eq_true_2 by exact Hlast.
  set (s1 := with_subscriptions _ self).
  assert (Hs1 : _subscriptions s1 !! topic = Some (listeners ∖ {[listener]})).
  { subst s1. cbn. apply lookup_insert_eq. }
  destruct (_unsubscribe_topic_fields topic s1 _ Hs1) as (_ & Htable & _ & Hmsg & Htimer & _).
  rewrite Htable, Hmsg, Htimer. subst s1. cbn [with_subscriptions _subscriptions].
  rewrite delete_insert_eq. repeat split.
Qed.

(** The table [unsubscribe] leaves. *)
Lemma unsubscribe_table topic listener (self : DecibelWsSubscription) :
  next_listener (unsubscribe topic listener self) = next_listener self /\
  _subscriptions (unsubscribe topic listener self)
  = match _subscriptions self !! topic with
    | None => _subscriptions self
    | Some ls =>
        if bool_decide (ls ∖ {[listener]} = ∅) then delete topic (_subscriptions self)
        else <[topic := ls ∖ {[listener]}]> (_subscriptions self)
    end.
Proof.
  unfold unsubscribe, _unsubscribe_listener.
  destruct (_subscriptions self !! topic) as [ls|] eqn:Hsubs; [|split; reflexivity].
  cbn zeta. destruct (bool_decide (ls ∖ {[listener]} = ∅)) eqn:Hlast.
  - set (s1 := with_subscriptions _ self).
    assert (Hs1 : _subscriptions s1 !! topic = Some (ls ∖ {[listener]})).
    { subst s1. cbn. apply lookup_insert_eq. }
    destruct (_unsubscribe_topic_fields topic s1 _ Hs1) as (_ & Htable & Hnext & _).
    rewrite Htable, Hnext. subst s1. cbn. rewrite delete_insert_eq. split; reflexivity.
  - split; reflexivity.
Qed.

(** X13. Subscribing and then calling the returned [unsubscribe] gives
    back the subscription table as it was, whether the topic was new or
    already had listeners. *)
Theorem subscribe_then_unsubscribe_restores_table topic body
    (self : DecibelWsSubscription) :
  no_empty_topic self -> listeners_known self ->
  _subscriptions (unsubscribe topic (fst (subscribe topic body self))
                    (snd (subscribe topic body self)))
  = _subscriptions self.
Proof.
  intros Hnonempty Hknown.
  destruct (subscribe_fields topic body self) as (Hl & _ & Htable & _).
  destruct (unsubscribe_table topic (fst (subscribe topic body self))
              (snd (subscribe topic body self))) as (_ & Hafter).
  rewrite Hafter, Htable, Hl, lookup_insert_eq. clear Hafter Htable Hl.
  destruct (_subscriptions self !! topic) as [ls|] eqn:Hsubs;
    unfold default; cbn [from_option id].
  - assert (Hfresh : next_listener self ∉ ls).
    { intros Hin. specialize (Hknown topic ls _ Hsubs Hin). lia. }
    assert (Hback : ({[next_listener self]} ∪ ls) ∖ {[next_listener self]} = ls)
      by (clear -Hfresh; set_solver).
    rewrite Hback, bool_decide_eq_false_2 by exact (Hnonempty topic ls Hsubs).
    rewrite insert_insert_eq. apply insert_id. exact Hsubs.
  - assert (Hback : ({[next_listener self]} ∪ ∅) ∖ {[next_listener self]}
                    = (∅ : gset nat)) by set_solver.
    rewrite Hback, bool_decide_eq_true_2 by reflexivity.
    rewrite delete_insert_eq. apply delete_id. exact Hsubs.
Qed.

(** *** Callbacks that call back *)

Ltac fields :=
  cbn [_ws _subscriptions _reconnect_attempts _running _close_timer_task listener_body
       next_listener tasks delivered listener_errors andb negb
       create_task set_close_timer with_subscriptions log_delivered log_listener_error].

(** The two logs are not read by what a callback calls. *)
Lemma perform_log_delivered entry c (self : DecibelWsSubscription) :
  perform (log_delivered entry self) c = log_delivered entry (perform self c).
Proof.
  destruct c as [topic body|topic l|topic]; unfold perform.
  - unfold subscribe. cbv zeta. cbn [snd]. fields.
    destruct (bool_decide (default ∅ (_subscriptions self !! topic) = ∅)), (_ws self),
      (_close_timer_task self); reflexivity.
  - unfold unsubscribe, _unsubscribe_listener. fields.
    destruct (_subscriptions self !! topic) as [ls|]; [|reflexivity].
    cbv zeta. destruct (bool_decide (ls ∖ {[l]} = ∅)); [|reflexivity].
    unfold _unsubscribe_topic. fields. rewrite lookup_insert_eq. cbv zeta. fields.
    destruct (_ws self); fields;
      destruct (bool_decide (delete topic (<[topic:=ls ∖ {[l]}]> (_subscriptions self)) = ∅));
      reflexivity.
  - unfold reset. fields. destruct (_subscriptions self !! topic); [|reflexivity].
    destruct (_ws self); reflexivity.
Qed.


Lemma foldl_perform_log_delivered entry calls (self : DecibelWsSubscription) :
  foldl perform (log_delivered entry self) calls
  = log_delivered entry (foldl perform self calls).
Proof.
  revert self. induction calls as [|c calls IH]; intros self; cbn; [reflexivity|].
  rewrite perform_log_delivered. apply IH.
Qed.


(** What a callback calls keeps the socket, the logs and the closures
    created before; closures are only added. *)
Lemma perform_fields c (self : DecibelWsSubscription) :
  _ws (perform self c) = _ws self /\
  delivered (perform self c) = delivered self /\
  listener_errors (perform self c) = listener_errors self /\
  (next_listener self <= next_listener (perform self c))%nat /\
  (forall l, (l < next_listener self)%nat ->
     listener_body (perform self c) !! l = listener_body self !! l).
Proof.
  destruct c as [topic body|topic l|topic]; unfold perform.
  - unfold subscribe. cbv zeta. cbn [snd]. fields.
    destruct (bool_decide (default ∅ (_subscriptions self !! topic) = ∅)), (_ws self),
      (_close_timer_task self); fields; cbn [andb negb]; fields;
      repeat split;
      first [reflexivity | lia | (intros l0 Hl0; apply lookup_insert_ne; lia)].
  - unfold unsubscribe, _unsubscribe_listener.
    destruct (_subscriptions self !! topic) as [ls|]; [|repeat split; lia].
    cbv zeta. destruct (bool_decide (ls ∖ {[l]} = ∅)); [|fields; repeat split; lia].
    unfold _unsubscribe_topic. fields. rewrite lookup_insert_eq. cbv zeta. fields.
    destruct (_ws self) eqn:Hws; fields;
      destruct (bool_decide (delete topic (<[topic:=ls ∖ {[l]}]> (_subscriptions self)) = ∅));
      fields; repeat split; try lia; exact Hws.
  - unfold reset. destruct (_subscriptions self !! topic); [|repeat split; lia].
    destruct (_ws self) eqn:Hws; fields; repeat split; try lia; exact Hws.
Qed.

Lemma foldl_perform_fields calls (self : DecibelWsSubscription) :
  _ws (foldl perform self calls) = _ws self /\
  delivered (foldl perform self calls) = delivered self /\
  listener_errors (foldl perform self calls) = listener_errors self /\
  (next_listener self <= next_listener (foldl perform self calls))%nat /\
  (forall l, (l < next_listener self)%nat ->
     listener_body (foldl perform self calls) !! l = listener_body self !! l).
Proof.
  revert self. induction calls as [|c calls IH]; intros self; cbn.
  - repeat split. lia.
  - destruct (perform_fields c self) as (P1 & P2 & P3 & P4 & P5).
    destruct (IH (perform self c)) as (H1 & H2 & H3 & H4 & H5).
    rewrite H1, H2, H3, P1, P2, P3. repeat split; [lia|].
    intros l Hl. rewrite H5 by lia. apply P5, Hl.
Qed.

(** One call of a listener: the calls it makes, the delivery logged
    and, if it raises, the exception logged. *)
Lemma call_listener_eq topic data (self : DecibelWsSubscription) (l : nat) :
  call_listener topic data self l
  = match raised_by self topic data l with
    | Some entry =>
        log_listener_error entry
          (log_delivered (l, topic, data) (foldl perform self (calls_by self data l)))
    | None => log_delivered (l, topic, data) (foldl perform self (calls_by self data l))
    end.
Proof.
  unfold call_listener, calls_by, raised_by. fields.
  destruct (listener_body self !! l) as [body|]; [|reflexivity].
  destruct (body data) as [calls [u|e]]; cbn [fst snd];
    rewrite foldl_perform_log_delivered; reflexivity.
Qed.

Lemma call_listener_fields topic data (self : DecibelWsSubscription) (l : nat) :
  let self' := call_listener topic data self l in
  let done := foldl perform self (calls_by self data l) in
  _ws self' = _ws done /\
  _subscriptions self' = _subscriptions done /\
  _close_timer_task self' = _close_timer_task done /\
  listener_body self' = listener_body done /\
  next_listener self' = next_listener done /\
  tasks self' = tasks done /\
  delivered self' = delivered self ++ [(l, topic, data)] /\
  listener_errors self'
  = listener_errors self ++ option_list (raised_by self topic data l).
Proof.
  cbv zeta. rewrite call_listener_eq.
  destruct (foldl_perform_fields (calls_by self data l) self) as (_ & Hd & He & _).
  destruct (raised_by self topic data l); fields; rewrite Hd, He;
    cbn [option_list]; rewrite ?app_nil_r; repeat split.
Qed.




(** *** The invariants of the table *)

(** What a callback calls keeps both invariants of the table. *)
Lemma perform_keeps_table_invariants (self : DecibelWsSubscription) (c : call) :
  no_empty_topic self /\ listeners_known self ->
  no_empty_topic (perform self c) /\ listeners_known (perform self c).
Proof.
  intros [Hnonempty Hknown]. destruct c as [topic body|topic l|topic]; cbn [perform].
  - destruct (subscribe_fields topic body self) as (_ & _ & Htable & Hnext & _).
    unfold no_empty_topic, listeners_known.
    rewrite Htable, Hnext. split.
    + intros t ls Hls. destruct (decide (t = topic)) as [->|Hne].
      * rewrite lookup_insert_eq in Hls. injection Hls as <-. set_solver.
      * rewrite lookup_insert_ne in Hls by congruence. exact (Hnonempty t ls Hls).
    + intros t ls l Hls Hin. destruct (decide (t = topic)) as [->|Hne].
      * rewrite lookup_insert_eq in Hls. injection Hls as <-.
        apply elem_of_union in Hin as [Hin|Hin].
        -- apply elem_of_singleton in Hin. lia.
        -- destruct (_subscriptions self !! topic) as [ls0|] eqn:Hsubs; cbn in Hin.
           ++ specialize (Hknown topic ls0 l Hsubs Hin). lia.
           ++ set_solver.
      * rewrite lookup_insert_ne in Hls by congruence.
        specialize (Hknown t ls l Hls Hin). lia.
  - destruct (unsubscribe_table topic l self) as (Hnext & Htable).
    unfold no_empty_topic, listeners_known.
    rewrite Htable, Hnext. clear Htable Hnext.
    destruct (_subscriptions self !! topic) as [ls0|] eqn:Hsubs;
      [|split; assumption].
    destruct (bool_decide (ls0 ∖ {[l]} = ∅)) eqn:Hlast.
    + split.
      * intros t ls Hls. apply lookup_delete_Some in Hls as [_ Hls].
        exact (Hnonempty t ls Hls).
      * intros t ls l' Hls Hin. apply lookup_delete_Some in Hls as [_ Hls].
        exact (Hknown t ls l' Hls Hin).
    + apply bool_decide_eq_false in Hlast. split.
      * intros t ls Hls. destruct (decide (t = topic)) as [->|Hne].
        -- rewrite lookup_insert_eq in Hls. injection Hls as <-. exact Hlast.
        -- rewrite lookup_insert_ne in Hls by congruence. exact (Hnonempty t ls Hls).
      * intros t ls l' Hls Hin. destruct (decide (t = topic)) as [->|Hne].
        -- rewrite lookup_insert_eq in Hls. injection Hls as <-.
           apply (Hknown topic ls0 l' Hsubs). set_solver.
        -- rewrite lookup_insert_ne in Hls by congruence.
           exact (Hknown t ls l' Hls Hin).
  - unfold reset.
    destruct (_subscriptions self !! topic); [|split; assumption].
    destruct (_ws self); split; assumption.
Qed.

Lemma foldl_perform_keeps_table_invariants calls (self : DecibelWsSubscription) :
  no_empty_topic self /\ listeners_known self ->
  no_empty_topic (foldl perform self calls) /\ listeners_known (foldl perform self calls).
Proof.
  revert self. induction calls as [|c calls IH]; intros self Hself; cbn;
    [exact Hself|].
  apply IH, perform_keeps_table_invariants, Hself.
Qed.

(** A listener called keeps them, whatever its callback does. *)
Lemma call_listener_keeps_table_invariants topic data (self : DecibelWsSubscription)
    (l : nat) :
  no_empty_topic self /\ listeners_known self ->
  no_empty_topic (call_listener topic data self l) /\
  listeners_known (call_listener topic data self l).
Proof.
  intros Hself.
  destruct (call_listener_fields topic data self l) as (_ & F2 & _ & _ & F5 & _).
  cbv zeta in F2, F5.
  destruct (foldl_perform_keeps_table_invariants (calls_by self data l) self Hself)
    as [Hnonempty Hknown].
  unfold no_empty_topic, listeners_known. rewrite F2, F5. split; assumption.
Qed.

(** The receive loop's body keeps them. *)
Lemma on_message_keeps_table_invariants message (self self' : DecibelWsSubscription) :
  on_message message self = Ok self' ->
  no_empty_topic self /\ listeners_known self ->
  no_empty_topic self' /\ listeners_known self'.
Proof.
  unfold on_message. destruct message as [data|bs]; [|discriminate].
  destruct (_parse_message data) as [[[topic payload]|]|e]; cbn [mbind result_bind];
    [| |discriminate].
  - destruct (_subscriptions self !! topic) as [ls|].
    + intros [= <-]. generalize (elements ls). intros listeners. revert self.
      induction listeners as [|l listeners IH]; intros self Hself; cbn; [exact Hself|].
      apply IH, call_listener_keeps_table_invariants, Hself.
    + intros [= <-] Hself. exact Hself.
  - intros [= <-] Hself. exact Hself.
Qed.

(** Each event keeps both invariants of the table. *)
Lemma after_keeps_table_invariants (self : DecibelWsSubscription) (ev : event) :
  no_empty_topic self /\ listeners_known self ->
  no_empty_topic (after self ev) /\ listeners_known (after self ev).
Proof.
  intros Hself. destruct ev as [topic body|topic l|topic|message|held].
  - exact (perform_keeps_table_invariants self (CallSubscribe topic body) Hself).
  - exact (perform_keeps_table_invariants self (CallUnsubscribe topic l) Hself).
  - exact (perform_keeps_table_invariants self (CallReset topic) Hself).
  - cbn [after]. destruct (on_message message self) as [self'|e] eqn:Hmsg;
      [|exact Hself].
    exact (on_message_keeps_table_invariants _ _ _ Hmsg Hself).
  - exact Hself.
Qed.

Lemma foldl_after_keeps_table_invariants (events : list event)
    (self : DecibelWsSubscription) :
  no_empty_topic self /\ listeners_known self ->
  no_empty_topic (foldl after self events) /\ listeners_known (foldl after self events).
Proof.
  revert self. induction events as [|ev events IH]; intros self Hself; cbn;
    [exact Hself|].
  apply IH, after_keeps_table_invariants, Hself.
Qed.

Lemma __init___table_invariants : no_empty_topic __init__ /\ listeners_known __init__.
Proof.
  split.
  - intros t ls Hls. cbn in Hls. rewrite lookup_empty in Hls. discriminate.
  - intros t ls l Hls. cbn in Hls. rewrite lookup_empty in Hls. discriminate.
Qed.

(** X14. Whatever its users do and whatever arrives, from [__init__]
    on, every topic in the subscription table has at least one listener
    and every listener in it was created by an earlier [subscribe]. *)
Theorem table_has_no_empty_topic (events : list event) :
  no_empty_topic (foldl after __init__ events) /\
  listeners_known (foldl after __init__ events).
Proof.
  apply foldl_after_keeps_table_invariants, __init___table_invariants.
Qed.

(** X15. Two subscriptions to the same topic. With a socket, the
    subscribe message is sent once if the topic had no listener and not
    at all if it had one, and no connection is opened. Without a socket
    no subscribe message is sent and each of the two calls creates an
    [_open()] task of its own. *)
Theorem one_subscribe_message_per_topic topic body1 body2
    (self : DecibelWsSubscription) :
  let s1 := snd (subscribe topic body1 self) in
  let s2 := snd (subscribe topic body2 s1) in
  (_ws self = true ->
     messages s2
     = messages self
       ++ (if bool_decide (default ∅ (_subscriptions self !! topic) = ∅)
           then [Subscribe topic] else []) /\
     opens s2 = opens self) /\
  (_ws self = false ->
     messages s2 = messages self /\ opens s2 = (opens self + 2)%nat).
Proof.
  intros s1 s2.
  destruct (subscribe_fields topic body1 self)
    as (_ & Hws1 & Htable1 & _ & _ & Hmsg1 & Hopen1).
  destruct (subscribe_fields topic body2 s1) as (_ & _ & _ & _ & _ & Hmsg2 & Hopen2).
  fold s1 in Hws1, Htable1, Hmsg1, Hopen1. fold s2 in Hmsg2, Hopen2.
  assert (Hold : bool_decide (default ∅ (_subscriptions s1 !! topic) = ∅) = false).
  { rewrite Htable1, lookup_insert_eq. unfold default at 1. cbn [from_option id].
    apply bool_decide_eq_false.
    clear. set_solver. }
  rewrite Hold in Hmsg2. cbn [andb] in Hmsg2. rewrite app_nil_r in Hmsg2.
  rewrite Hmsg2, Hmsg1, Hopen2, Hopen1, Hws1.
  split; intros Hws; rewrite Hws.
  - rewrite andb_true_r. split; [reflexivity|lia].
  - rewrite andb_false_r, app_nil_r. split; [reflexivity|lia].
Qed.

(** Listeners whose callbacks do not call the multiplexer leave the
    table and the closures as they are. *)
Lemma on_message_quiet message (self self' : DecibelWsSubscription) :
  (forall l body data, listener_body self !! l = Some body -> fst (body data) = []) ->
  on_message message self = Ok self' ->
  _subscriptions self' = _subscriptions self /\ listener_body self' = listener_body self.
Proof.
  intros Hquiet. unfold on_message. destruct message as [data|bs]; [|discriminate].
  destruct (_parse_message data) as [[[topic payload]|]|e]; cbn [mbind result_bind];
    [| |discriminate].
  - destruct (_subscriptions self !! topic) as [ls|].
    + intros [= <-]. generalize (elements ls). intros listeners. revert self Hquiet.
      induction listeners as [|l listeners IH]; intros self Hquiet; cbn;
        [split; reflexivity|].
      destruct (call_listener_fields topic (JDict payload) self l)
        as (_ & F2 & _ & F4 & _). cbv zeta in F2, F4.
      assert (Hnone : calls_by self (JDict payload) l = []).
      { unfold calls_by. destruct (listener_body self !! l) as [body|] eqn:Hbody;
          [exact (Hquiet l body _ Hbody)|reflexivity]. }
      rewrite Hnone in F2, F4. cbn [foldl] in F2, F4.
      destruct (IH (call_listener topic (JDict payload) self l)) as [H2 H4].
      { intros l0 body data0. rewrite F4. apply Hquiet. }
      rewrite H2, H4. split; assumption.
    + intros [= <-]. split; reflexivity.
  - intros [= <-]. split; reflexivity.
Qed.

Lemma receive_frames_quiet messages0 (self s1 : DecibelWsSubscription) error :
  (forall l body data, listener_body self !! l = Some body -> fst (body data) = []) ->
  receive_frames messages0 self = (s1, error) ->
  _subscriptions s1 = _subscriptions self.
Proof.
  revert self. induction messages0 as [|m rest IH]; intros self Hquiet; cbn.
  - intros [= <- _]. reflexivity.
  - destruct (on_message m self) as [self'|e] eqn:Hmsg.
    + destruct (on_message_quiet _ _ _ Hquiet Hmsg) as [Htable Hbody].
      intros Hrest. rewrite <- Htable. apply (IH self'); [|exact Hrest].
      intros l body data. rewrite Hbody. apply Hquiet.
    + intros [= <- _]. reflexivity.
Qed.

Lemma receive_frames_app before rest (self s1 : DecibelWsSubscription) :
  receive_frames before self = (s1, None) ->
  receive_frames (before ++ rest) self = receive_frames rest s1.
Proof.
  revert self. induction before as [|m before IH]; intros self; cbn.
  - intros [= <-]. reflexivity.
  - destruct (on_message m self) as [self'|e]; [apply IH|discriminate].
Qed.

(** X16. The first frame whose handling raises ends the receive loop:
    the exception is reported, the socket is dropped and the multiplexer
    marked not running, and no later frame reaches a listener. The
    subscriptions are those the frames handled before have left, which
    are the ones the loop started with when no callback calls the
    multiplexer, and a reconnect follows exactly when there are any. *)
Theorem receive_loop_ends_at_first_unhandled_frame before bad rest
    (self s1 : DecibelWsSubscription) e :
  _ws self = true ->
  receive_frames before self = (s1, None) ->
  on_message bad s1 = Raise e ->
  let ending := _receive_loop (before ++ bad :: rest) self in
  reported ending = Some e /\
  _ws (left_state ending) = false /\
  _running (left_state ending) = false /\
  delivered (left_state ending) = delivered s1 /\
  _subscriptions (left_state ending) = _subscriptions s1 /\
  reconnects ending = negb (bool_decide (_subscriptions s1 = ∅)) /\
  ((forall l body data, listener_body self !! l = Some body -> fst (body data) = []) ->
     _subscriptions (left_state ending) = _subscriptions self /\
     reconnects ending = negb (bool_decide (_subscriptions self = ∅))).
Proof.
  intros Hws Hbefore Hbad. unfold _receive_loop. rewrite Hws. cbn [negb].
  rewrite (receive_frames_app _ _ _ _ Hbefore). cbn [receive_frames].
  rewrite Hbad. cbn.
  repeat split; rewrite (receive_frames_quiet _ _ _ _ H Hbefore); reflexivity.
Qed.

End WsProperties.

(** The acknowledgement [{"topic": "prices:0xM", "success": true}] is
    discarded; [{"success": true}] raises. *)
Lemma success_message_discarded_only_with_topic_witness :
  Ws._parse_message Sample.ack_with_topic = Ok None /\
  Ws._parse_message Sample.ack_without_topic
  = Raise (ValueError (MissingTopicField Sample.ack_without_topic)).
Proof.
  split.
  - destruct (@success_message_discarded_only_with_topic Sample.externals
                Sample.ack_with_topic
                (JDict [("topic", JStr "prices:0xM"); ("success", JBool true)])
                [("topic", JStr "prices:0xM"); ("success", JBool true)])
      as [Hwith _]; [vm_compute; reflexivity..|].
    exact (proj1 (Hwith "prices:0xM" eq_refl)).
  - destruct (@success_message_discarded_only_with_topic Sample.externals
                Sample.ack_without_topic
                (JDict [("success", JBool true)]) [("success", JBool true)])
      as [_ Hwithout]; [vm_compute; reflexivity..|].
    apply Hwithout. intros topic. discriminate.
Defined.


(** Without a socket the last unsubscribe sends nothing. *)
Lemma last_unsubscribe_drops_the_topic_witness :
  Ws._subscriptions (Ws.unsubscribe "prices:0xM" 0 Scenario.waiting) = ∅ /\
  Ws.messages (Ws.unsubscribe "prices:0xM" 0 Scenario.waiting) = [] /\
  Ws._close_timer_task (Ws.unsubscribe "prices:0xM" 0 Scenario.waiting) = true.
Proof.
  destruct (last_unsubscribe_drops_the_topic "prices:0xM" 0 Scenario.waiting {[0%nat]})
    as (Htable & Hmessages & Htimer).
  - vm_compute. reflexivity.
  - vm_compute. reflexivity.
  - rewrite Htable, Hmessages, Htimer. repeat split; vm_compute; reflexivity.
Defined.

(** A third listener comes and goes. *)
Lemma subscribe_then_unsubscribe_restores_table_witness :
  Ws._subscriptions
    (Ws.unsubscribe "prices:0xM"
       (fst (Ws.subscribe "prices:0xM" Scenario.accepting Scenario.watching))
       (snd (Ws.subscribe "prices:0xM" Scenario.accepting Scenario.watching)))
  = Ws._subscriptions Scenario.watching.
Proof.
  apply subscribe_then_unsubscribe_restores_table.
  - apply (foldl_after_keeps_table_invariants _ _ __init___table_invariants).
  - apply (foldl_after_keeps_table_invariants _ _ __init___table_invariants).
Defined.

(** A price update, then [{"success": true}], then another price
    update: the loop ends at the second frame and the third is never
    delivered. *)
Lemma receive_loop_ends_at_first_unhandled_frame_witness :
  let ending := Ws._receive_loop
                  [Ws.Text Sample.price_update; Ws.Text Sample.ack_without_topic;
                   Ws.Text Sample.price_update] Scenario.watching_alone in
  Ws.reported ending = Some (ValueError (MissingTopicField Sample.ack_without_topic)) /\
  Ws._ws (Ws.left_state ending) = false /\
  List.length (Ws.delivered (Ws.left_state ending)) = 1%nat /\
  Ws.reconnects ending = true.
Proof.
  intros ending.
  destruct (@receive_loop_ends_at_first_unhandled_frame Sample.externals
              [Ws.Text Sample.price_update] (Ws.Text Sample.ack_without_topic)
              [Ws.Text Sample.price_update] Scenario.watching_alone
              (fst (Ws.receive_frames [Ws.Text Sample.price_update] Scenario.watching_alone))
              (ValueError (MissingTopicField Sample.ack_without_topic)))
    as (Hreported & Hws & _ & Hdelivered & _ & Hreconnects & _).
  - reflexivity.
  - vm_compute. reflexivity.
  - vm_compute. reflexivity.
  - cbn [app] in Hreported, Hws, Hdelivered, Hreconnects.
    fold ending in Hreported, Hws, Hdelivered, Hreconnects.
    rewrite Hreported, Hws, Hdelivered, Hreconnects.
    repeat split; vm_compute; reflexivity.
Defined.

(** ** The pipeline: what it asks the node *)

Section PipelineProperties.

Context {env : Externals} {txs : AptosTransactions}.
Import Env Constants TransactionBuilder FeePay Base Trace.

Lemma added_nil (w : World) : added w w [].
Proof. unfold added. rewrite app_nil_r. reflexivity. Qed.

Lemma added_same (w w' : World) : requests w' = requests w -> added w w' [].
Proof. unfold added. intros ->. rewrite app_nil_r. reflexivity. Qed.

Lemma added_trans (w w1 w2 : World) rs1 rs2 :
  added w w1 rs1 -> added w1 w2 rs2 -> added w w2 (rs1 ++ rs2).
Proof. unfold added. intros H1 H2. rewrite H2, H1, app_assoc. reflexivity. Qed.

(** The request [send] appends, whatever comes back. *)
Lemma send_added req (w : World) r w' :
  send req w = (r, w') ->
  added w w' [req] /\ manager w' = manager w /\ clock_read w' = clock_read w /\
  randbits_drawn w' = randbits_drawn w /\ sleeps w' = sleeps w /\
  r = match next_reply w with NetworkError e => Raise e | Replied response => Ok response end.
Proof.
  unfold send, next_reply, added. intros Hrun.
  destruct (reply_tape w (List.length (requests w)));
    inversion Hrun; subst; cbn; repeat split.
Qed.

(** The SDK's own estimate request. *)
Lemma _fetch_gas_price_estimation_request self (w : World) r w' :
  _fetch_gas_price_estimation self w = (r, w') ->
  added w w' [{| req_method := "GET";
                 req_url := String.append (fullnode_url (_config self)) "/estimate_gas_price";
                 req_headers := _build_node_headers self;
                 req_params := []; req_body := NoBody |}].
Proof.
  unfold _fetch_gas_price_estimation, bind at 1. intros Hrun.
  match type of Hrun with
  | context [send ?req w] => destruct (send req w) as [[response|e] w1] eqn:Hsend;
      destruct (send_added _ _ _ _ Hsend) as (Hadd & _)
  end.
  - destruct (negb (is_success response)).
    + inversion Hrun; subst. exact Hadd.
    + unfold bind, lift in Hrun.
      destruct (response_json response) as [data|e];
        [|inversion Hrun; subst; exact Hadd].
      destruct (Dict.get_attr data "gas_estimate");
        inversion Hrun; subst; exact Hadd.
  - inversion Hrun; subst. exact Hadd.
Qed.

(** The manager's estimate request. *)
Lemma fetch_and_set_gas_price_request url opts (w : World) r w' :
  GasPriceManager.fetch_and_set_gas_price url opts w = (r, w') ->
  added w w' [{| req_method := "GET";
                 req_url := String.append url "/estimate_gas_price";
                 req_headers :=
                   GasPriceManager._build_auth_headers (GasPriceManager.node_api_key opts);
                 req_params := []; req_body := NoBody |}].
Proof.
  unfold GasPriceManager.fetch_and_set_gas_price, try_except, bind at 1. intros Hrun.
  assert (Hest : forall r1 w1,
    GasPriceManager.fetch_gas_price_estimation url opts w = (r1, w1) ->
    added w w1 [{| req_method := "GET";
                   req_url := String.append url "/estimate_gas_price";
                   req_headers :=
                     GasPriceManager._build_auth_headers (GasPriceManager.node_api_key opts);
                   req_params := []; req_body := NoBody |}]).
  { unfold GasPriceManager.fetch_gas_price_estimation, bind at 1. intros r1 w1 Hfetch.
    match type of Hfetch with
    | context [send ?req w] => destruct (send req w) as [[response|e] w0] eqn:Hsend;
        destruct (send_added _ _ _ _ Hsend) as (Hadd & _)
    end.
    - destruct (negb (is_success response)).
      + inversion Hfetch; subst. exact Hadd.
      + unfold bind, lift in Hfetch.
        destruct (response_json response) as [data|e];
          [|inversion Hfetch; subst; exact Hadd].
        destruct (Dict.get_attr data "gas_estimate");
          inversion Hfetch; subst; exact Hadd.
    - inversion Hfetch; subst. exact Hadd. }
  destruct (GasPriceManager.fetch_gas_price_estimation url opts w) as [[g|e] w1] eqn:Hfetch;
    specialize (Hest _ _ eq_refl).
  - destruct (g =? 0); cbn in Hrun; inversion Hrun; subst; exact Hest.
  - cbn in Hrun. inversion Hrun; subst. exact Hest.
Qed.

(** What [build_tx] sends, and the price it uses. *)
Lemma build_tx_requests self data sender_address mg gp (w : World) r w' :
  build_tx self data sender_address mg gp w = (r, w') ->
  exists rs,
    added w w' rs /\ (List.length rs <= 1)%nat /\
    Forall (is_estimate self) rs /\
    (gp <> None -> rs = []) /\
    (forall p, _gas_price_manager self <> None ->
               GasPriceManager.gas_price (manager w) = Some p ->
       rs = [] /\
       forall txn, gp = None -> r = Ok txn -> gas_unit_price (raw_transaction txn) = p).
Proof.
  unfold build_tx. intros Hrun. unfold bind at 1 in Hrun.
  destruct (nonce_draw w) as (w1 & Hdraw & _ & _ & _ & Hreq1 & _ & _ & Hman1 & _).
  rewrite Hdraw in Hrun.
  assert (Hnone : forall P : list Request -> Prop, requests w' = requests w -> P [] ->
            exists rs, added w w' rs /\ P rs).
  { intros P Hsame HP. exists []. split; [apply added_same; exact Hsame|exact HP]. }
  destruct ((next_hi w =? 0) || (next_lo w =? 0)).
  { inversion Hrun; subst. apply Hnone; [exact Hreq1|].
    split; [cbn; lia|]. split; [constructor|]. split; [reflexivity|].
    intros p _ _. split; [reflexivity|discriminate]. }
  destruct (_get_abi self (function data)) as [abi|].
  2:{ inversion Hrun; subst. apply Hnone; [exact Hreq1|].
      split; [cbn; lia|]. split; [constructor|]. split; [reflexivity|].
      intros p _ _. split; [reflexivity|discriminate]. }
  destruct (_chain_id self) as [chain|].
  2:{ inversion Hrun; subst. apply Hnone; [exact Hreq1|].
      split; [cbn; lia|]. split; [constructor|]. split; [reflexivity|].
      intros p _ _. split; [reflexivity|discriminate]. }
  unfold bind at 1 in Hrun.
  (* the tail after the price is known sends nothing *)
  assert (Htail : forall price w2,
    (now <- time ;;
     lift (build_simple_transaction_sync now (inr sender_address) data chain price abi
             (negb (_no_fee_payer self)) (Z.lor (Z.shiftl (next_hi w) 32) (next_lo w))
             (Some (_time_delta_ms self))
             (Some (or_default mg DEFAULT_MAX_GAS_AMOUNT)) None)) w2 = (r, w') ->
    requests w' = requests w2 /\
    forall txn, r = Ok txn -> gas_unit_price (raw_transaction txn) = price).
  { intros price w2 Ht. unfold bind, time, lift in Ht. inversion Ht; subst.
    split; [reflexivity|]. intros txn Hb.
    destruct (build_simple_transaction_sync_ok _ _ _ _ _ _ _ _ _ _ _ _ Hb)
      as (sa & ef & fp & _ & ->). reflexivity. }
  destruct gp as [p|].
  - (* a price was passed *)
    unfold ret at 1 in Hrun. destruct (Htail _ _ Hrun) as [Hsame Hprice].
    apply Hnone; [congruence|].
    split; [cbn; lia|]. split; [constructor|]. split; [reflexivity|].
    intros q _ _. split; [reflexivity|discriminate].
  - destruct (_gas_price_manager self) as [[url opts]|] eqn:Hmgr.
    + unfold bind at 1, GasPriceManager.get_gas_price, bind at 1, get_manager, ret at 1
        in Hrun.
      rewrite Hman1 in Hrun.
      destruct (GasPriceManager.gas_price (manager w)) as [p|] eqn:Hcached.
      * unfold ret at 1 in Hrun. destruct (Htail _ _ Hrun) as [Hsame Hprice].
        apply Hnone; [congruence|].
        split; [cbn; lia|]. split; [constructor|]. split; [congruence|].
        intros q _ [= <-]. split; [reflexivity|]. intros txn _. exact (Hprice txn).
      * destruct (GasPriceManager.fetch_and_set_gas_price url opts w1)
          as [[p|e] w2] eqn:Hfetch;
          pose proof (fetch_and_set_gas_price_request _ _ _ _ _ Hfetch) as Hadd.
        -- destruct (Htail _ _ Hrun) as [Hsame _].
           eexists. split.
           { unfold added in *. rewrite Hsame, Hadd, Hreq1. reflexivity. }
           split; [cbn; lia|]. split.
           { constructor; [|constructor]. unfold is_estimate, estimate_url.
             rewrite Hmgr. repeat split. }
           split; [congruence|]. intros q _ Hq. discriminate Hq.
        -- inversion Hrun; subst. eexists. split.
           { unfold added in *. rewrite Hadd, Hreq1. reflexivity. }
           split; [cbn; lia|]. split.
           { constructor; [|constructor]. unfold is_estimate, estimate_url.
             rewrite Hmgr. repeat split. }
           split; [congruence|]. intros q _ Hq. discriminate Hq.
    + destruct (_fetch_gas_price_estimation self w1) as [[p|e] w2] eqn:Hfetch;
        pose proof (_fetch_gas_price_estimation_request _ _ _ _ Hfetch) as Hadd.
      * destruct (Htail _ _ Hrun) as [Hsame _].
        eexists. split.
        { unfold added in *. rewrite Hsame, Hadd, Hreq1. reflexivity. }
        split; [cbn; lia|]. split.
        { constructor; [|constructor]. unfold is_estimate, estimate_url.
          rewrite Hmgr. repeat split. }
        split; [congruence|]. intros q Hq. contradiction.
      * inversion Hrun; subst. eexists. split.
        { unfold added in *. rewrite Hadd, Hreq1. reflexivity. }
        split; [cbn; lia|]. split.
        { constructor; [|constructor]. unfold is_estimate, estimate_url.
          rewrite Hmgr. repeat split. }
        split; [congruence|]. intros q Hq. contradiction.
Qed.


(** X17. [build_tx] sends at most one request, a GET for the gas price
    estimate. It sends none when a gas unit price is passed, and none
    when the SDK has a gas price manager holding a price; that cached
    price is then the envelope's gas unit price. *)
Theorem build_tx_asks_for_price_only_when_needed
    self data sender_address mg gp (w : World) r w' :
  build_tx self data sender_address mg gp w = (r, w') ->
  exists rs,
    added w w' rs /\ (List.length rs <= 1)%nat /\
    Forall (is_estimate self) rs /\
    (gp <> None -> rs = []) /\
    (forall p, _gas_price_manager self <> None ->
               GasPriceManager.gas_price (manager w) = Some p ->
       rs = [] /\
       forall txn, gp = None -> r = Ok txn -> gas_unit_price (raw_transaction txn) = p).
Proof. apply build_tx_requests. Qed.

(** X18. With a nonce drawn, [build_tx] for a function without ABI
    entry, or on an SDK without chain id, raises "Cannot build
    transaction" naming the function; it has sent nothing and read no
    clock, and the two random draws are spent. *)
Theorem build_tx_without_abi_sends_nothing
    self data sender_address mg gp (w : World) :
  next_hi w <> 0 -> next_lo w <> 0 ->
  _get_abi self (function data) = None \/ _chain_id self = None ->
  exists w',
    build_tx self data sender_address mg gp w
    = (Raise (ValueError (CannotBuildTransaction (function data))), w') /\
    requests w' = requests w /\ clock_read w' = clock_read w /\
    randbits_drawn w' = S (S (randbits_drawn w)).
Proof.
  intros Hhi Hlo Hmissing. unfold build_tx, bind at 1.
  destruct (nonce_draw w) as (w1 & Hdraw & Hdrawn & _ & Hclock & Hreq & _).
  rewrite Hdraw.
  replace ((next_hi w =? 0) || (next_lo w =? 0)) with false
    by (symmetry; apply or_eq_false_both; split; assumption).
  exists w1. split; [|repeat split; assumption].
  destruct Hmissing as [Habi|Hchain].
  - rewrite Habi. reflexivity.
  - rewrite Hchain. destruct (_get_abi self (function data)); reflexivity.
Qed.

(** The builder keeps the sender it is given as an address. *)
Lemma build_tx_sender self data sender_address mg gp (w : World) txn w' :
  build_tx self data sender_address mg gp w = (Ok txn, w') ->
  sender (raw_transaction txn) = sender_address /\
  exists ef,
    payload (raw_transaction txn)
    = {| inner_payload :=
           {| executable := {| entry_function := ef |};
              extra_config :=
                {| multisig_address := None;
                   replay_protection_nonce :=
                     Some (Z.lor (Z.shiftl (next_hi w) 32) (next_lo w)) |} |} |}.
Proof.
  unfold build_tx. intros Hrun. unfold bind at 1 in Hrun.
  destruct (nonce_draw w) as (w1 & Hdraw & _). rewrite Hdraw in Hrun.
  destruct ((next_hi w =? 0) || (next_lo w =? 0)); [discriminate Hrun|].
  destruct (_get_abi self (function data)) as [abi|]; [|discriminate Hrun].
  destruct (_chain_id self) as [chain|]; [|discriminate Hrun].
  unfold bind at 1 in Hrun.
  match type of Hrun with
  | context [match ?m w1 with _ => _ end] => destruct (m w1) as [[p|e] w2]
  end; [|discriminate Hrun].
  unfold bind, time, lift in Hrun.
  match type of Hrun with (?b, ?w3) = _ => destruct b as [t|e] eqn:Eb end;
    [|discriminate Hrun].
  inversion Hrun; subst t w'. clear Hrun.
  unfold build_simple_transaction_sync in Eb. cbn [mbind result_bind] in Eb.
  destruct (_build_entry_function data abi) as [ef|e];
    cbn [mbind result_bind] in Eb; [|discriminate].
  destruct (negb (_no_fee_payer self)).
  - destruct (AccountAddress_from_str "0x0") as [a|e];
      cbn [mbind result_bind] in Eb; [|discriminate].
    inversion Eb; subst. cbn. split; [reflexivity|eexists; reflexivity].
  - cbn [mbind result_bind] in Eb. inversion Eb; subst. cbn.
    split; [reflexivity|eexists; reflexivity].
Qed.

(** What [_simulate_transaction] sends. *)
Lemma _simulate_transaction_request self transaction (w : World) r w' :
  _simulate_transaction self transaction w = (r, w') ->
  randbits_drawn w' = randbits_drawn w /\
  exists rs, added w w' rs /\ (List.length rs <= 1)%nat /\
    Forall (fun req =>
      is_simulation self req /\
      req_params req = [("estimate_max_gas_amount", "true");
                        ("estimate_gas_unit_price", "true")] /\
      exists bcs_bytes,
        _serialize_for_simulation self transaction = Ok bcs_bytes /\
        req_body req = Content bcs_bytes) rs.
Proof.
  unfold _simulate_transaction, bind at 1, lift at 1. intros Hrun.
  destruct (_serialize_for_simulation self transaction) as [bcs_bytes|e].
  2:{ inversion Hrun; subst. split; [reflexivity|].
      exists []. split; [apply added_nil|]. split; [cbn; lia|constructor]. }
  unfold bind at 1 in Hrun.
  match type of Hrun with
  | context [send ?req w] => destruct (send req w) as [[response|e] w1] eqn:Hsend;
      destruct (send_added _ _ _ _ Hsend) as (Hadd & _ & _ & Hdrawn & _)
  end.
  - assert (Hw : w' = w1).
    { destruct (negb (is_success response)); [inversion Hrun; reflexivity|].
      unfold bind, lift, ret, raise in Hrun.
      destruct (response_json response) as [[| | | | |[|first rest]|]|e];
        inversion Hrun; reflexivity. }
    subst w'. split; [exact Hdrawn|].
    eexists. split; [exact Hadd|]. split; [cbn; lia|].
    constructor; [|constructor]. unfold is_simulation. cbn.
    repeat split. eexists. split; reflexivity.
  - inversion Hrun; subst. split; [exact Hdrawn|].
    eexists. split; [exact Hadd|]. split; [cbn; lia|].
    constructor; [|constructor]. unfold is_simulation. cbn.
    repeat split. eexists. split; reflexivity.
Qed.

(** X19. The simulation request of a send carries the envelope signed
    with 64 zero bytes under the public key of the SDK's own account,
    also when another account is the signer and the envelope's sender. *)
Theorem simulation_is_serialized_for_the_sdk_account
    self payload signer (w : World) t0 w1 r w2 :
  build_tx self payload (account_address signer) None None w = (Ok t0, w1) ->
  _simulate_transaction self t0 w1 = (r, w2) ->
  sender (raw_transaction t0) = account_address signer /\
  exists rs, added w1 w2 rs /\
    Forall (fun req =>
      is_simulation self req /\
      exists bcs_bytes,
        SignedTransaction_bytes (raw_transaction t0) (_account self)
          (List.repeat x00 64) (fee_payer_address t0) = Ok bcs_bytes /\
        req_body req = Content bcs_bytes) rs.
Proof.
  intros Hbuild Hsim.
  split; [exact (proj1 (build_tx_sender _ _ _ _ _ _ _ _ Hbuild))|].
  destruct (_simulate_transaction_request _ _ _ _ _ Hsim) as (_ & rs & Hadd & _ & Hall).
  exists rs. split; [exact Hadd|].
  eapply List.Forall_impl; [|exact Hall].
  intros req (Hsimreq & _ & bcs_bytes & Hbytes & Hbody).
  split; [exact Hsimreq|]. exists bcs_bytes. split; [exact Hbytes|exact Hbody].
Qed.

(** X20. A send whose simulation raises, or returns a result lacking
    [max_gas_amount] or [gas_unit_price] (missing or null), raises that
    error, respectively "Transaction simulation returned no results". By
    then it has sent nothing but the gas estimate request and the
    simulation request: nothing is signed, submitted or polled, and no
    second nonce is drawn. *)
Theorem failed_simulation_stops_the_send
    (rounds : nat) self payload account_override (w : World) t0 w1 r w2 :
  let signer := default (_account self) account_override in
  _skip_simulate self = false ->
  build_tx self payload (account_address signer) None None w = (Ok t0, w1) ->
  _simulate_transaction self t0 w1 = (r, w2) ->
  match r with
  | Raise _ => True
  | Ok sim =>
      exists g p, Dict.get_attr sim "max_gas_amount" = Ok g /\
                  Dict.get_attr sim "gas_unit_price" = Ok p /\
                  is_none g || is_none p = true
  end ->
  _send_tx rounds self payload account_override w
  = (Raise match r with
           | Raise e => e
           | Ok _ => ValueError SimulationReturnedNoResults
           end, w2) /\
  randbits_drawn w2 = S (S (randbits_drawn w)) /\
  exists rs, added w w2 rs /\ (List.length rs <= 2)%nat /\
    Forall (fun req => is_estimate self req \/ is_simulation self req) rs.
Proof.
  intros signer Hskip Hbuild Hsim Hbad.
  split; [|split].
  - unfold _send_tx. fold signer. unfold bind at 1, _send_tx_transaction, bind at 1.
    rewrite Hbuild, Hskip. cbn [negb]. unfold bind at 1. rewrite Hsim.
    destruct r as [sim|e]; [|reflexivity].
    destruct Hbad as (g & p & Hg & Hp & Hnone).
    unfold bind at 1, lift at 1. rewrite Hg.
    unfold bind at 1, lift at 1. rewrite Hp. rewrite Hnone. reflexivity.
  - destruct (build_tx_ok _ _ _ _ _ _ _ _ Hbuild) as (_ & _ & Hdrawn & _).
    destruct (_simulate_transaction_request _ _ _ _ _ Hsim) as (Hsame & _).
    congruence.
  - destruct (build_tx_requests _ _ _ _ _ _ _ _ Hbuild)
      as (rs1 & Hadd1 & Hlen1 & Hall1 & _).
    destruct (_simulate_transaction_request _ _ _ _ _ Hsim)
      as (_ & rs2 & Hadd2 & Hlen2 & Hall2).
    exists (rs1 ++ rs2). split; [exact (added_trans _ _ _ _ _ Hadd1 Hadd2)|].
    split; [rewrite length_app; lia|].
    apply Forall_app. split.
    + eapply List.Forall_impl; [|exact Hall1]. intros req Hreq. left. exact Hreq.
    + eapply List.Forall_impl; [|exact Hall2]. intros req (Hreq & _). right. exact Hreq.
Qed.


(** X21. Polling returns the first terminal result. After [k] polls
    without terminal status within the bound, a 2xx response that is not
    of type [pending_transaction] ends the poll after [k + 1] requests and
    [k] sleeps: with [success] true the response's object is returned,
    with [success] false "Transaction failed" is raised with the
    [vm_status], or "Unknown error" when there is none. The clock is not
    read in that last round: a terminal result is accepted however late
    it comes. *)
Theorem poll_returns_first_terminal_result
    (rounds : nat) self tx_hash (timeout_secs poll_interval_secs : option Q)
    (w : World) (k : nat) final items :
  let bound := default (30 : Q) timeout_secs in
  let start_time := clock_tape w (clock_read w) in
  (k < rounds)%nat ->
  (forall i, (i < k)%nat ->
     exists r, reply_tape w (List.length (requests w) + i)%nat = Replied r /\
               Spec.no_terminal_status r = true) ->
  (forall i, (i < k)%nat ->
     elapsed_exceeds (clock_tape w (S (clock_read w) + i)%nat) start_time bound = false) ->
  reply_tape w (List.length (requests w) + k)%nat = Replied final ->
  is_success final = true ->
  response_json final = Ok (JDict items) ->
  Dict.get "type" items <> Some (JStr "pending_transaction") ->
  exists w',
    List.length (requests w') = (List.length (requests w) + S k)%nat /\
    List.length (sleeps w') = (List.length (sleeps w) + k)%nat /\
    clock_read w' = (S (clock_read w) + k)%nat /\
    (Dict.get "success" items = Some (JBool true) ->
       _wait_for_transaction rounds self tx_hash timeout_secs poll_interval_secs w
       = (Ok (Some (JDict items)), w')) /\
    (Dict.get "success" items = Some (JBool false) ->
       _wait_for_transaction rounds self tx_hash timeout_secs poll_interval_secs w
       = (Raise (ValueError (TransactionFailed
            (json_str (default (JStr "Unknown error") (Dict.get "vm_status" items))))),
          w')).
Proof.
  intros bound start_time Hrounds Hreplies Hearly Hfinal Hok Hjson Htype.
  unfold _wait_for_transaction. unfold bind at 1. unfold time at 1.
  fold bound. fold start_time.
  replace rounds with (k + S (rounds - S k))%nat by lia.
  match goal with
  | |- exists w', _ /\ _ /\ _ /\ (_ -> poll_loop _ ?req _ _ _ ?int ?w0 = _) /\ _ =>
      destruct (poll_loop_pending_rounds req tx_hash start_time bound int k
                  (S (rounds - S k)) w0)
        as (wk & Hrun & Hreq & Hsl & Hclk & Hrt & Hct & _);
        [assumption|assumption|]; set (request := req) in *
  end.
  cbn [requests sleeps clock_read reply_tape] in Hreq, Hsl, Hclk, Hrt.
  assert (Hnot : eq_str (Dict.get "type" items) "pending_transaction" = false).
  { unfold eq_str. destruct (Dict.get "type" items) as [[| | | |t| |]|]; try reflexivity.
    destruct (String.eqb_spec t "pending_transaction") as [->|]; [|reflexivity].
    exfalso. apply Htype. reflexivity. }
  assert (Hnext : reply_tape wk (List.length (requests wk)) = Replied final).
  { rewrite Hrt, Hreq, length_app, repeat_length. exact Hfinal. }
  eexists. split; [|split; [|split; [|split]]].
  4:{ intros Hsuccess. refine (eq_trans Hrun _). cbn [poll_loop].
      unfold bind at 1. unfold send. rewrite Hnext.
      unfold bind at 1, lift at 1, classify. rewrite Hok, Hjson.
      cbn [mbind result_bind Dict.get_attr]. rewrite Hnot, Hsuccess.
      cbn [is_bool Bool.eqb]. unfold ret. reflexivity. }
  4:{ intros Hfailure. refine (eq_trans Hrun _). cbn [poll_loop].
      unfold bind at 1. unfold send. rewrite Hnext.
      unfold bind at 1, lift at 1, classify. rewrite Hok, Hjson.
      cbn [mbind result_bind Dict.get_attr]. rewrite Hnot, Hfailure.
      cbn [is_bool Bool.eqb]. unfold raise. reflexivity. }
  - cbn [requests]. rewrite Hreq, !length_app, repeat_length. cbn. lia.
  - cbn [sleeps]. rewrite Hsl, length_app, repeat_length. reflexivity.
  - cbn [clock_read]. rewrite Hclk. reflexivity.
Qed.

(** The nonce of two nonzero 32-bit halves fits 64 bits. *)
Lemma nonce_range (hi lo : Z) :
  0 < hi < 2 ^ 32 -> 0 <= lo < 2 ^ 32 ->
  2 ^ 32 <= Z.lor (Z.shiftl hi 32) lo < 2 ^ 64.
Proof.
  intros Hhi Hlo.
  destruct (nonce_halves hi lo) as [Hs _]; [lia|lia|].
  assert (Hnonneg : 0 <= Z.lor (Z.shiftl hi 32) lo).
  { apply Z.lor_nonneg. split; [apply Z.shiftl_nonneg|]; lia. }
  rewrite Z.shiftr_div_pow2 in Hs by lia.
  pose proof (Z.div_mod (Z.lor (Z.shiftl hi 32) lo) (2 ^ 32) ltac:(lia)) as Hdm.
  pose proof (Z.mod_pos_bound (Z.lor (Z.shiftl hi 32) lo) (2 ^ 32) ltac:(lia)) as Hmod.
  rewrite Hs in Hdm. lia.
Qed.

(** X22. For every envelope [build_tx] returns, the replay nonce lies
    in [2^32, 2^64), so that writing it as a [u64] cannot fail:
    serializing the payload appends the orderless tags, the entry
    function's own encoding, the extra-config bytes and the eight
    little-endian bytes of the nonce, and can raise only inside the entry
    function's encoding. *)
Theorem pipeline_envelope_payload_serializes
    self data sender_address mg gp (w : World) txn w' (out : list byte) :
  build_tx self data sender_address mg gp w = (Ok txn, w') ->
  let nonce := Z.lor (Z.shiftl (next_hi w) 32) (next_lo w) in
  let ef := entry_function (executable (inner_payload (payload (raw_transaction txn)))) in
  2 ^ 32 <= nonce < 2 ^ 64 /\
  TransactionPayloadOrderless_serialize EntryFunction_bcs (payload (raw_transaction txn)) out
  = (ef_bytes ← EntryFunction_bcs ef;
     Ok (out ++ [x04; x00; x01] ++ ef_bytes ++ [x00; x00; x01]
             ++ Bcs.to_bytes_little 8 nonce)).
Proof.
  intros Hbuild nonce ef.
  destruct (build_tx_ok _ _ _ _ _ _ _ _ Hbuild) as (Hhi & Hlo & _).
  destruct (build_tx_sender _ _ _ _ _ _ _ _ Hbuild) as (_ & ef0 & Hpayload).
  pose proof (next_hi_range w) as Rhi. pose proof (next_lo_range w) as Rlo.
  assert (Hrange : 2 ^ 32 <= nonce < 2 ^ 64) by (apply nonce_range; lia).
  split; [exact Hrange|].
  subst ef. rewrite Hpayload. cbn [inner_payload executable entry_function].
  apply payload_bytes. fold nonce. lia.
Qed.

End PipelineProperties.

(** With a price of 200 cached by the manager, a build sends nothing
    and the envelope carries 200. *)
Lemma build_tx_asks_for_price_only_when_needed_witness :
  let w0 := Scenario.world Scenario.bits_nonzero Scenario.node_replies 1 in
  let w := snd (GasPriceManager.initialize "http://node" GasPriceManager.default_options w0) in
  let run := Base.build_tx Scenario.sdk_with_manager Scenario.transfer
               (Sample.address Scenario.alice) None None w in
  Env.requests (snd run) = Env.requests w /\
  match fst run with
  | Ok txn => TransactionBuilder.gas_unit_price (TransactionBuilder.raw_transaction txn) = 200
  | Raise _ => False
  end.
Proof.
  intros w0 w run.
  destruct (@build_tx_asks_for_price_only_when_needed Sample.externals Sample.transactions
              Scenario.sdk_with_manager Scenario.transfer (Sample.address Scenario.alice)
              None None w (fst run) (snd run))
    as (rs & Hadded & _ & _ & _ & Hcached).
  { reflexivity. }
  destruct (Hcached 200) as [Hnone Hprice].
  { discriminate. }
  { vm_compute. reflexivity. }
  split.
  - rewrite Hadded, Hnone. apply app_nil_r.
  - assert (Hok : is_ok (fst run) = true) by (vm_compute; reflexivity).
    destruct (fst run) as [txn|e]; [|discriminate Hok].
    apply Hprice; reflexivity.
Defined.

(** A call of a function the ABI does not list. *)
Lemma build_tx_without_abi_sends_nothing_witness :
  let w := Scenario.world Scenario.bits_nonzero Scenario.unreachable 1 in
  exists w',
    Base.build_tx Scenario.sdk Scenario.unlisted (Sample.address Scenario.alice) None None w
    = (Raise (ValueError (CannotBuildTransaction "0x1::mod::gone")), w') /\
    Env.requests w' = [].
Proof.
  intros w.
  destruct (@build_tx_without_abi_sends_nothing Sample.externals Sample.transactions
              Scenario.sdk Scenario.unlisted (Sample.address Scenario.alice) None None w)
    as (w' & Hrun & Hrequests & _).
  - vm_compute. discriminate.
  - vm_compute. discriminate.
  - left. vm_compute. reflexivity.
  - exists w'. split; [exact Hrun|exact Hrequests].
Defined.

(** Bob signs and is the sender; the simulation request carries the
    envelope under the SDK account's key. *)
Lemma simulation_is_serialized_for_the_sdk_account_witness :
  let w := Scenario.world Scenario.bits_nonzero Scenario.node_replies 1 in
  let built := Base.build_tx Scenario.sdk Scenario.transfer (Sample.address Scenario.bob)
                 None None w in
  match fst built with
  | Ok t0 =>
      TransactionBuilder.sender (TransactionBuilder.raw_transaction t0)
      = Sample.address Scenario.bob /\
      exists rs,
        Trace.added (snd built) (snd (Base._simulate_transaction Scenario.sdk t0 (snd built))) rs /\
        Forall (fun req =>
          exists bcs_bytes,
            SignedTransaction_bytes (TransactionBuilder.raw_transaction t0) Scenario.alice
              (List.repeat x00 64) (TransactionBuilder.fee_payer_address t0) = Ok bcs_bytes /\
            Env.req_body req = Env.Content bcs_bytes) rs
  | Raise _ => False
  end.
Proof.
  intros w built.
  assert (Hok : is_ok (fst built) = true) by (vm_compute; reflexivity).
  destruct built as [[t0|e] w1] eqn:Hbuilt; [|discriminate Hok]. cbn [fst snd].
  destruct (@simulation_is_serialized_for_the_sdk_account Sample.externals Sample.transactions
              Scenario.sdk Scenario.transfer Scenario.bob w t0 w1
              (fst (Base._simulate_transaction Scenario.sdk t0 w1))
              (snd (Base._simulate_transaction Scenario.sdk t0 w1)) Hbuilt)
    as (Hsender & rs & Hadded & Hall).
  { destruct (Base._simulate_transaction Scenario.sdk t0 w1); reflexivity. }
  split; [exact Hsender|]. exists rs. split; [exact Hadded|].
  eapply List.Forall_impl; [|exact Hall]. intros req (_ & Hbody). exact Hbody.
Defined.

(** The node answers the estimate and rejects the simulation with 503:
    the send raises after these two requests. *)
Lemma failed_simulation_stops_the_send_witness :
  let w := Scenario.world Scenario.bits_nonzero Scenario.simulation_down 1 in
  let run := Base._send_tx 5 Scenario.sdk Scenario.transfer None w in
  fst run = Raise (ValueError (SimulationFailed 503 "unavailable")) /\
  List.length (Env.requests (snd run)) = 2%nat /\
  Env.randbits_drawn (snd run) = 2%nat.
Proof.
  intros w run.
  pose (built := Base.build_tx Scenario.sdk Scenario.transfer (Sample.address Scenario.alice)
                   None None w).
  pose (t0 := match fst built with Ok t => t | Raise _ => Scenario.envelope end).
  pose (simulated := Base._simulate_transaction Scenario.sdk t0 (snd built)).
  destruct (@failed_simulation_stops_the_send Sample.externals Sample.transactions
              5%nat Scenario.sdk Scenario.transfer None w t0 (snd built)
              (fst simulated) (snd simulated))
    as (Hrun & Hdrawn & _).
  - reflexivity.
  - reflexivity.
  - reflexivity.
  - vm_compute. exact I.
  - fold run in Hrun. rewrite Hrun. cbn [fst snd].
    split; [vm_compute; reflexivity|]. split; [vm_compute; reflexivity|exact Hdrawn].
Defined.

(** Pending at the first poll, committed at the second: the poll
    returns the committed transaction after two requests and one sleep,
    having read the clock twice. *)
Lemma poll_returns_first_terminal_result_witness :
  let w := Scenario.world Scenario.bits_nonzero Scenario.settles_second 1 in
  exists w',
    Base._wait_for_transaction 5 Scenario.sdk "0xabc" None None w
    = (Ok (Some (JDict Scenario.committed)), w') /\
    List.length (Env.requests w') = 2%nat /\
    List.length (Env.sleeps w') = 1%nat /\
    Env.clock_read w' = 2%nat.
Proof.
  intros w.
  destruct (@poll_returns_first_terminal_result Sample.externals Sample.transactions
              5%nat Scenario.sdk "0xabc" None None w 1%nat
              {| Env.status_code := 200; Env.text := "";
                 Env.response_json := Ok (JDict Scenario.committed) |}
              Scenario.committed)
    as (w' & Hrequests & Hsleeps & Hclock & Hsuccess & _).
  - lia.
  - intros i Hi. destruct i; [|lia]. eexists. split; reflexivity.
  - intros i Hi. destruct i; [reflexivity|lia].
  - reflexivity.
  - reflexivity.
  - reflexivity.
  - discriminate.
  - exists w'. split; [apply Hsuccess; reflexivity|].
    split; [exact Hrequests|]. split; [exact Hsleeps|exact Hclock].
Defined.

(** The payload of the envelope built for the transfer. *)
Lemma pipeline_envelope_payload_serializes_witness :
  let w := Scenario.world Scenario.bits_nonzero Scenario.node_replies 1 in
  let nonce := Z.lor (Z.shiftl 6 32) 7 in
  match fst (Base.build_tx Scenario.sdk Scenario.transfer (Sample.address Scenario.alice)
               None None w) with
  | Ok txn =>
      TransactionBuilder.TransactionPayloadOrderless_serialize EntryFunction_bcs
        (TransactionBuilder.payload (TransactionBuilder.raw_transaction txn)) []
      = (ef_bytes ← EntryFunction_bcs
                      (TransactionBuilder.entry_function
                         (TransactionBuilder.executable
                            (TransactionBuilder.inner_payload
                               (TransactionBuilder.payload
                                  (TransactionBuilder.raw_transaction txn)))));
         Ok ([] ++ [x04; x00; x01] ++ ef_bytes ++ [x00; x00; x01]
                ++ Bcs.to_bytes_little 8 nonce))
  | Raise _ => False
  end.
Proof.
  intros w nonce.
  assert (Hok : is_ok (fst (Base.build_tx Scenario.sdk Scenario.transfer
                              (Sample.address Scenario.alice) None None w)) = true)
    by (vm_compute; reflexivity).
  destruct (Base.build_tx Scenario.sdk Scenario.transfer (Sample.address Scenario.alice)
              None None w) as [[txn|e] w'] eqn:Hbuild; [|discriminate Hok].
  cbn [fst].
  exact (proj2 (@pipeline_envelope_payload_serializes Sample.externals Sample.transactions
                  Scenario.sdk Scenario.transfer (Sample.address Scenario.alice)
                  None None w txn w' [] Hbuild)).
Defined.

(** ** Arguments and function ids *)

Section EncodingProperties.

Context {env : Externals}.
Import TransactionBuilder.

(** The branch of [_encode_argument] is chosen by the normalized type
    alone; for a type that is known, the tests compute. *)
Ltac known_type Hnorm :=
  unfold encode_argument;
  match goal with
  | |- context [_encode_argument ?d _ _] => destruct d
  end;
  cbn [_encode_argument]; rewrite Hnorm;
  repeat match goal with
         | |- context [String.eqb ?a ?b] =>
             let v := eval vm_compute in (String.eqb a b) in
             change (String.eqb a b) with v
         | |- context [PyStr.startswith ?a ?b] =>
             let v := eval vm_compute in (PyStr.startswith a b) in
             change (PyStr.startswith a b) with v
         | |- context [PyStr.endswith ?a ?b] =>
             let v := eval vm_compute in (PyStr.endswith a b) in
             change (PyStr.endswith a b) with v
         | |- context [PyStr.contains ?a ?b] =>
             let v := eval vm_compute in (PyStr.contains a b) in
             change (PyStr.contains a b) with v
         end;
  cbv iota; cbn [orb andb].

Lemma length_to_bytes_little (len : nat) (n : Z) :
  List.length (Bcs.to_bytes_little len n) = len.
Proof. revert n. induction len as [|len IH]; intros n; cbn; [reflexivity|]. rewrite IH. reflexivity. Qed.

Lemma uint_out_of_range (len : nat) (n : Z) (out : list byte) :
  n < 0 \/ 256 ^ Z.of_nat len <= n ->
  is_ok (Bcs.uint (256 ^ Z.of_nat len - 1) len n out) = false.
Proof.
  intros Hn. unfold Bcs.uint, Bcs._write_int.
  destruct (256 ^ Z.of_nat len - 1 <? n) eqn:Hmax; [reflexivity|].
  apply Z.ltb_ge in Hmax.
  replace (n <? 0) with true by (symmetry; apply Z.ltb_lt; lia).
  reflexivity.
Qed.

(** An integer parameter is encoded the same at every recursion
    depth. *)
Lemma _encode_argument_integer (depth : nat) (arg : Any) (param_type name : string)
    (width : nat) (n : Z) :
  In (name, width)
     [("u8", 1%nat); ("u16", 2%nat); ("u32", 4%nat); ("u64", 8%nat);
      ("u128", 16%nat); ("u256", 32%nat)] ->
  normalize param_type = name ->
  py_int arg = Ok n ->
  _encode_argument depth arg param_type
  = Bcs.uint (256 ^ Z.of_nat width - 1) width n [].
Proof.
  intros Hin Hnorm Hint. cbn in Hin.
  destruct Hin as [H|[H|[H|[H|[H|[H|[]]]]]]]; injection H as <- <-;
    destruct depth; cbn [_encode_argument]; rewrite Hnorm;
    repeat match goal with
           | |- context [String.eqb ?a ?b] =>
               let v := eval vm_compute in (String.eqb a b) in
               change (String.eqb a b) with v
           end;
    cbv iota; rewrite Hint; reflexivity.
Qed.

(** X23. An argument for a parameter of an unsigned integer type, also
    written as a reference or with surrounding blanks, is encoded as the
    little-endian bytes of [int(arg)] in the width of the type, which
    read back as the value; a value below zero or too large for the
    width raises. *)
Theorem integer_argument_round_trip (arg : Any) (param_type name : string)
    (width : nat) (n : Z) :
  In (name, width)
     [("u8", 1%nat); ("u16", 2%nat); ("u32", 4%nat); ("u64", 8%nat);
      ("u128", 16%nat); ("u256", 32%nat)] ->
  normalize param_type = name ->
  py_int arg = Ok n ->
  (0 <= n < 256 ^ Z.of_nat width ->
     encode_argument arg param_type = Ok (Bcs.to_bytes_little width n) /\
     List.length (Bcs.to_bytes_little width n) = width /\
     Bcs.from_bytes_little (Bcs.to_bytes_little width n) = n) /\
  (n < 0 \/ 256 ^ Z.of_nat width <= n ->
     is_ok (encode_argument arg param_type) = false).
Proof.
  intros Hin Hnorm Hint. unfold encode_argument.
  rewrite (_encode_argument_integer _ _ _ _ _ _ Hin Hnorm Hint). split.
  - intros Hrange. split; [exact (uint_in_range width n [] Hrange)|]. split.
    + apply length_to_bytes_little.
    + rewrite from_to_bytes_little by lia. apply Z.mod_small. exact Hrange.
  - apply uint_out_of_range.
Qed.

Ltac joined H :=
  repeat match type of H with
         | context [String.append ?a ?b] =>
             let v := eval vm_compute in (String.append a b) in
             change (String.append a b) with v in H
         end.

(** Normalizing a parameter type does not make it longer. *)
Lemma length_lstrip (s : string) : (String.length (PyStr.lstrip s) <= String.length s)%nat.
Proof.
  induction s as [|c s IH]; cbn; [lia|]. destruct (PyStr.isspace c); cbn; lia.
Qed.

Lemma length_rstrip (s : string) : (String.length (PyStr.rstrip s) <= String.length s)%nat.
Proof.
  induction s as [|c s IH]; cbn; [lia|].
  destruct (PyStr.rstrip s); [destruct (PyStr.isspace c)|]; cbn in *; lia.
Qed.

Lemma length_replace_empty (c : ascii) (s : string) :
  (String.length (PyStr.replace c "" s) <= String.length s)%nat.
Proof.
  induction s as [|d s IH]; cbn [PyStr.replace String.length]; [lia|].
  destruct (Ascii.eqb d c).
  - change (String.append "" (PyStr.replace c "" s)) with (PyStr.replace c "" s). lia.
  - cbn [String.length]. lia.
Qed.

Lemma length_normalize (param_type : string) :
  (String.length (normalize param_type) <= String.length param_type)%nat.
Proof.
  unfold normalize, PyStr.strip.
  pose proof (length_rstrip (PyStr.lstrip (PyStr.replace "&" "" param_type))).
  pose proof (length_lstrip (PyStr.replace "&" "" param_type)).
  pose proof (length_replace_empty "&" param_type). lia.
Qed.

(** X24. An argument for a parameter of type [0x1::option::Option<T>]
    with [T] an unsigned integer type is encoded as the single byte 0
    when it is [None], and otherwise as the byte 1 followed by the
    little-endian bytes of [int(arg)] in the width of [T]. *)
Theorem optional_integer_argument (arg : Any) (param_type name : string)
    (width : nat) :
  In (name, width)
     [("u8", 1%nat); ("u16", 2%nat); ("u32", 4%nat); ("u64", 8%nat);
      ("u128", 16%nat); ("u256", 32%nat)] ->
  normalize param_type
  = String.append "0x1::option::Option<" (String.append name ">") ->
  (py_is_none arg = true -> encode_argument arg param_type = Ok [x00]) /\
  (forall n, py_is_none arg = false -> py_int arg = Ok n ->
     0 <= n < 256 ^ Z.of_nat width ->
     encode_argument arg param_type = Ok (x01 :: Bcs.to_bytes_little width n)).
Proof.
  intros Hin Hnorm.
  pose proof (length_normalize param_type) as Hlen. rewrite Hnorm in Hlen.
  cbn in Hin. split.
  - intros Hnone.
    destruct Hin as [H|[H|[H|[H|[H|[H|[]]]]]]]; injection H as <- <-;
      joined Hnorm; known_type Hnorm; rewrite Hnone; reflexivity.
  - intros n Hsome Hint Hrange.
    destruct Hin as [H|[H|[H|[H|[H|[H|[]]]]]]]; injection H as <- <-;
      joined Hnorm; joined Hlen;
      unfold encode_argument;
      (destruct (String.length param_type) as [|d];
       [exfalso; cbn [String.length] in Hlen; lia|]);
      cbn [_encode_argument]; rewrite Hnorm;
      repeat match goal with
             | |- context [String.eqb ?a ?b] =>
                 let v := eval vm_compute in (String.eqb a b) in
                 change (String.eqb a b) with v
             | |- context [PyStr.startswith ?a ?b] =>
                 let v := eval vm_compute in (PyStr.startswith a b) in
                 change (PyStr.startswith a b) with v
             | |- context [PyStr.contains ?a ?b] =>
                 let v := eval vm_compute in (PyStr.contains a b) in
                 change (PyStr.contains a b) with v
             end;
      cbv iota; rewrite Hsome; cbv iota;
      match goal with
      | |- context [PyStr.slice ?a ?b ?t] =>
          let v := eval vm_compute in (PyStr.slice a b t) in
          change (PyStr.slice a b t) with v
      end;
      change (Bcs.output (Bcs.u8 1)) with (Ok [x01] : result (list byte));
      cbn [mbind result_bind];
      match goal with
      | |- context [_encode_argument ?dd arg ?t] =>
          rewrite (_encode_argument_integer dd arg t t _ n ltac:(cbn; tauto) eq_refl Hint)
      end;
      rewrite (uint_in_range _ n [] Hrange); reflexivity.
Qed.


(** A loop over arguments that raises at one of them returns nothing. *)
Lemma mapM_raises {A B} (f : A -> result B) (xs : list A) (i : nat) (x : A) :
  xs !! i = Some x -> is_ok (f x) = false -> is_ok (mapM f xs) = false.
Proof.
  revert i. induction xs as [|x' xs IH]; intros [|i] Hx Hf; cbn in Hx; try discriminate.
  - injection Hx as ->. cbn. destruct (f x); [discriminate Hf|reflexivity].
  - specialize (IH i Hx Hf). cbn. destruct (f x'); cbn; [|reflexivity].
    destruct (mapM f xs); [discriminate IH|reflexivity].
Qed.

(** X25. No argument can be encoded for a parameter of type [signer]
    (or [&signer]): encoding raises "Cannot encode argument". Since only
    the leading signer parameters of the ABI are skipped, a function with
    a signer parameter after its first non-signer parameter cannot be
    built, whatever arguments are passed. *)
Theorem signer_parameter_cannot_be_encoded (param_type : string) :
  normalize param_type = "signer" ->
  (forall arg : Any,
     encode_argument arg param_type
     = Raise (ValueError (CannotEncodeArgument (py_type_name arg) "signer"))) /\
  (forall (data : InputEntryFunctionData) (abi : MoveFunction),
     In param_type
        (List.skipn (_find_first_non_signer_arg (mf_params abi)) (mf_params abi)) ->
     is_ok (_build_entry_function data abi) = false /\
     forall now sender_arg chain price with_fee_payer nonce delta max_gas expiry,
       is_ok (build_simple_transaction_sync now sender_arg data chain price abi
                with_fee_payer nonce delta max_gas expiry) = false).
Proof.
  intros Hnorm.
  assert (Hencode : forall arg : Any,
    encode_argument arg param_type
    = Raise (ValueError (CannotEncodeArgument (py_type_name arg) "signer"))).
  { intros arg. known_type Hnorm; reflexivity. }
  split; [exact Hencode|].
  intros data abi Hin.
  set (entry_params :=
         List.skipn (_find_first_non_signer_arg (mf_params abi)) (mf_params abi)) in *.
  assert (Hargs : is_ok (_encode_function_arguments (function_arguments data) entry_params)
                  = false).
  { unfold _encode_function_arguments.
    destruct (Nat.eqb_spec (List.length (function_arguments data))
                (List.length entry_params)) as [Hlen|Hlen]; [|reflexivity].
    cbn [negb].
    apply list_elem_of_In, list_elem_of_lookup in Hin. destruct Hin as [i Hi].
    destruct (lookup_lt_is_Some_2 (function_arguments data) i) as [arg Harg].
    { rewrite Hlen. apply lookup_lt_is_Some. eauto. }
    apply (mapM_raises _ _ i (arg, param_type)).
    - apply combine_lookup; assumption.
    - cbn. rewrite Hencode. reflexivity. }
  assert (Hef : is_ok (_build_entry_function data abi) = false).
  { unfold _build_entry_function.
    destruct (PyStr.split_colons (function data)) as [|a [|b [|c [|d parts]]]];
      try reflexivity.
    destruct (AccountAddress_from_str a); cbn [mbind result_bind]; [|reflexivity].
    destruct (_parse_type_arguments _); cbn [mbind result_bind]; [|reflexivity].
    fold entry_params.
    destruct (_encode_function_arguments (function_arguments data) entry_params);
      [discriminate Hargs|reflexivity]. }
  split; [exact Hef|].
  intros. unfold build_simple_transaction_sync.
  destruct (match sender_arg with inl s => AccountAddress_from_str s | inr a => Ok a end);
    cbn [mbind result_bind]; [|reflexivity].
  destruct (_build_entry_function data abi); [discriminate Hef|reflexivity].
Qed.

(** X26. The builder's first two errors. A sender given as a string is
    parsed before anything else, and its error is the builder's. Then a
    function id that does not split at [::] into exactly three parts is
    rejected as "Invalid function format", whatever the ABI, the type
    arguments and the arguments are. *)
Theorem function_id_needs_three_parts
    now data chain price abi with_fee_payer nonce delta max_gas expiry :
  (forall s e,
     AccountAddress_from_str s = Raise e ->
     build_simple_transaction_sync now (inl s) data chain price abi with_fee_payer
       nonce delta max_gas expiry = Raise e) /\
  (List.length (PyStr.split_colons (function data)) <> 3%nat ->
   _build_entry_function data abi
   = Raise (ValueError (InvalidFunctionFormat (function data))) /\
   forall sender_arg address,
     match sender_arg with inl s => AccountAddress_from_str s | inr a => Ok a end
     = Ok address ->
     build_simple_transaction_sync now sender_arg data chain price abi with_fee_payer
       nonce delta max_gas expiry
     = Raise (ValueError (InvalidFunctionFormat (function data)))).
Proof.
  split.
  - intros s e Hs. unfold build_simple_transaction_sync. rewrite Hs. reflexivity.
  - intros Hparts.
    assert (Hef : _build_entry_function data abi
                  = Raise (ValueError (InvalidFunctionFormat (function data)))).
    { unfold _build_entry_function.
      destruct (PyStr.split_colons (function data)) as [|a [|b [|c [|d parts]]]];
        try reflexivity.
      exfalso. apply Hparts. reflexivity. }
    split; [exact Hef|].
    intros sender_arg address Hsender. unfold build_simple_transaction_sync.
    rewrite Hsender. cbn [mbind result_bind]. rewrite Hef. reflexivity.
Qed.

End EncodingProperties.

(** [&u64] with 300, and [u8] with 300. *)
Lemma integer_argument_round_trip_witness :
  TransactionBuilder.encode_argument (Sample.PyInt 300) "&u64"
  = Ok [x2c; x01; x00; x00; x00; x00; x00; x00] /\
  is_ok (TransactionBuilder.encode_argument (Sample.PyInt 300) "u8") = false.
Proof.
  split.
  - destruct (@integer_argument_round_trip Sample.externals (Sample.PyInt 300) "&u64"
                "u64" 8%nat 300) as [Hin _].
    + cbn. tauto.
    + reflexivity.
    + reflexivity.
    + exact (proj1 (Hin ltac:(lia))).
  - destruct (@integer_argument_round_trip Sample.externals (Sample.PyInt 300) "u8"
                "u8" 1%nat 300) as [_ Hout].
    + cbn. tauto.
    + reflexivity.
    + reflexivity.
    + apply Hout. right. cbn. lia.
Defined.

(** [Option<u64>] with [None] and with 7. *)
Lemma optional_integer_argument_witness :
  TransactionBuilder.encode_argument Sample.PyNone "0x1::option::Option<u64>" = Ok [x00] /\
  TransactionBuilder.encode_argument (Sample.PyInt 7) "0x1::option::Option<u64>"
  = Ok [x01; x07; x00; x00; x00; x00; x00; x00; x00].
Proof.
  split.
  - destruct (@optional_integer_argument Sample.externals Sample.PyNone
                "0x1::option::Option<u64>" "u64" 8%nat) as [Hnone _].
    + cbn. tauto.
    + reflexivity.
    + apply Hnone. reflexivity.
  - destruct (@optional_integer_argument Sample.externals (Sample.PyInt 7)
                "0x1::option::Option<u64>" "u64" 8%nat) as [_ Hsome].
    + cbn. tauto.
    + reflexivity.
    + apply (Hsome 7); [reflexivity|reflexivity|lia].
Defined.

(** A function [(&signer, u64, &signer)] cannot be built. *)
Lemma signer_parameter_cannot_be_encoded_witness :
  is_ok (TransactionBuilder._build_entry_function Scenario.transfer
           {| TransactionBuilder.mf_name := "fn";
              TransactionBuilder.mf_visibility := "public";
              TransactionBuilder.mf_is_entry := true;
              TransactionBuilder.mf_is_view := false;
              TransactionBuilder.mf_params := ["&signer"; "u64"; "&signer"];
              TransactionBuilder.mf_return := [] |}) = false.
Proof.
  destruct (@signer_parameter_cannot_be_encoded Sample.externals "&signer") as [_ Hbuild].
  - reflexivity.
  - apply Hbuild. vm_compute. tauto.
Defined.

(** A function id with two parts. *)
Lemma function_id_needs_three_parts_witness :
  TransactionBuilder._build_entry_function
    {| TransactionBuilder.function := "0x1::fn";
       TransactionBuilder.function_arguments := [];
       TransactionBuilder.type_arguments := None |} Scenario.transfer_abi
  = Raise (ValueError (InvalidFunctionFormat "0x1::fn")).
Proof.
  destruct (@function_id_needs_three_parts Sample.externals Scenario.noon
              {| TransactionBuilder.function := "0x1::fn";
                 TransactionBuilder.function_arguments := [];
                 TransactionBuilder.type_arguments := None |}
              208 100 Scenario.transfer_abi true Scenario.nonce None None None)
    as [_ Hformat].
  apply Hformat. vm_compute. lia.
Defined.

(** ** The refresh loop and the vault address *)

Section RefreshProperties.

Context {env : Externals}.
Import Env GasPriceManager.

(** One fetch, whether it returns or raises: one request, no sleep, the
    flags of the manager kept, and a price kept or replaced by the
    nonzero one fetched. *)
Lemma fetch_and_set_gas_price_step url opts (w : World) r w1 :
  fetch_and_set_gas_price url opts w = (r, w1) ->
  List.length (requests w1) = S (List.length (requests w)) /\
  sleeps w1 = sleeps w /\
  _is_initialized (manager w1) = _is_initialized (manager w) /\
  _refresh_task (manager w1) = _refresh_task (manager w) /\
  (gas_price (manager w1) = gas_price (manager w) \/
   exists p, r = Ok p /\ p <> 0 /\ gas_price (manager w1) = Some p) /\
  (forall e, r = Raise e -> gas_price (manager w1) = gas_price (manager w) /\
                            logged w1 = logged w ++ [(ERROR, "Failed to fetch gas price", e)]) /\
  (forall p, r = Ok p -> logged w1 = logged w).
Proof.
  unfold fetch_and_set_gas_price, try_except, bind at 1. intros Hrun.
  assert (Hest : forall r0 w0, fetch_gas_price_estimation url opts w = (r0, w0) ->
            sleeps w0 = sleeps w).
  { unfold fetch_gas_price_estimation, bind, send, lift, raise. intros r0 w0 Hfetch.
    destruct (reply_tape w (List.length (requests w))) as [e|response];
      [inversion Hfetch; reflexivity|].
    destruct (negb (is_success response)); [inversion Hfetch; reflexivity|].
    destruct (response_json response) as [data|e]; [|inversion Hfetch; reflexivity].
    destruct (Dict.get_attr data "gas_estimate"); inversion Hfetch; reflexivity. }
  destruct (fetch_gas_price_estimation url opts w) as [[g|e0] wa] eqn:Ef;
    destruct (fetch_gas_price_estimation_frame _ _ _ _ _ Ef) as (Hman & Hlog & Hlen);
    specialize (Hest _ _ eq_refl).
  - destruct (g =? 0) eqn:Eg; cbn in Hrun; inversion Hrun; subst; cbn;
      rewrite ?Hman, ?Hlog, ?Hlen, ?Hest.
    + repeat split; try (left; reflexivity); try discriminate; congruence.
    + apply Z.eqb_neq in Eg. repeat split; try discriminate.
      right. exists g. repeat split. exact Eg.
  - cbn in Hrun. inversion Hrun; subst; cbn. rewrite ?Hman, ?Hlog, ?Hlen, ?Hest.
    repeat split; try (left; reflexivity); try discriminate; congruence.
Qed.

(** X27. The refresh loop never lets an exception out and never clears
    the cache. After any number of rounds it has slept the refresh
    interval once per round and sent one estimate request per round; the
    manager is initialized exactly if it was; a price cached before is
    still cached or has been replaced by a fetched one, and a price
    fetched by the loop is not zero. *)
Theorem refresh_loop_keeps_a_cached_price url opts (rounds : nat) (w : World) :
  exists w',
    _refresh_loop url opts rounds w = (Ok tt, w') /\
    List.length (requests w') = (List.length (requests w) + rounds)%nat /\
    sleeps w' = sleeps w ++ List.repeat (refresh_interval_seconds opts) rounds /\
    _is_initialized (manager w') = _is_initialized (manager w) /\
    (gas_price (manager w) <> None -> gas_price (manager w') <> None) /\
    (forall p, gas_price (manager w') = Some p ->
               gas_price (manager w) = Some p \/ p <> 0).
Proof.
  revert w. induction rounds as [|n IH]; intros w.
  - exists w. cbn. rewrite app_nil_r, Nat.add_0_r. repeat split; auto.
  - cbn [_refresh_loop]. unfold bind at 1, sleep at 1.
    set (w0 := {| randbits_tape := randbits_tape w; randbits_drawn := randbits_drawn w;
                  clock_tape := clock_tape w; clock_read := clock_read w;
                  reply_tape := reply_tape w; requests := requests w;
                  sleeps := sleeps w ++ [refresh_interval_seconds opts];
                  logged := logged w; manager := manager w |}).
    unfold bind at 1, try_except at 1, bind at 1.
    destruct (fetch_and_set_gas_price url opts w0) as [[p|e] w1] eqn:Hfetch;
      destruct (fetch_and_set_gas_price_step _ _ _ _ _ Hfetch)
        as (Hlen & Hsl & Hinit & _ & Hprice & _).
    + unfold ret at 1.
      destruct (IH w1) as (w' & Hrun & Hlen' & Hsl' & Hinit' & Hkeep & Hnew).
      exists w'. split; [exact Hrun|]. subst w0. cbn in Hlen, Hsl, Hinit, Hprice.
      split; [lia|]. split; [rewrite Hsl', Hsl, <- app_assoc; reflexivity|].
      split; [congruence|]. split.
      * intros Hsome. apply Hkeep.
        destruct Hprice as [Hsame|(q & _ & _ & Hq)]; congruence.
      * intros q Hq. destruct (Hnew q Hq) as [Hold|Hnz]; [|right; exact Hnz].
        destruct Hprice as [Hsame|(q' & _ & Hnz & Hq')].
        -- left. congruence.
        -- right. congruence.
    + unfold log at 1.
      match goal with
      | |- exists w', _refresh_loop _ _ _ ?wl = _ /\ _ => set (w2 := wl)
      end.
      destruct (IH w2) as (w' & Hrun & Hlen' & Hsl' & Hinit' & Hkeep & Hnew).
      exists w'. split; [exact Hrun|]. subst w2 w0.
      cbn in Hlen, Hsl, Hinit, Hprice, Hlen', Hsl', Hinit', Hkeep, Hnew.
      split; [lia|]. split; [rewrite Hsl', Hsl, <- app_assoc; reflexivity|].
      split; [congruence|].
      destruct Hprice as [Hsame|(q' & Hq' & _)]; [|discriminate Hq'].
      split.
      * intros Hsome. apply Hkeep. congruence.
      * intros q Hq. destruct (Hnew q Hq) as [Hold|Hnz]; [left; congruence|right; exact Hnz].
Qed.

End RefreshProperties.

Section VaultProperties.

Import Utils.

Lemma find_after_rejected {A} (test : A -> bool) (before : list A) (x : A) (after : list A) :
  Forall (fun e => test e = false) before -> test x = true ->
  List.find test (before ++ x :: after) = Some x.
Proof.
  intros Hbefore Hx. induction Hbefore as [|e before He _ IH]; cbn.
  - rewrite Hx. reflexivity.
  - rewrite He. exact IH.
Qed.

(** X28. The vault address of a vault-creating transaction is read off
    the first event whose type contains [::vault::VaultCreatedEvent], and
    later events are not looked at: a string [vault] is returned as it
    is, of an object [vault] its [inner] member is returned, and anything
    else raises, as does a transaction whose [events] is not a list. *)
Theorem vault_address_is_read_off_the_first_vault_event
    (create_vault_tx : list (string * json)) :
  ((forall events, Dict.get "events" create_vault_tx <> Some (JList events)) ->
   extract_vault_address_from_create_tx create_vault_tx = None) /\
  (forall before event after data,
     Dict.get "events" create_vault_tx = Some (JList (before ++ JDict event :: after)) ->
     Forall (fun e => is_vault_created_event e = false) before ->
     is_vault_created_event (JDict event) = true ->
     Dict.get "data" event = Some (JDict data) ->
     (forall s, Dict.get "vault" data = Some (JStr s) ->
        extract_vault_address_from_create_tx create_vault_tx = Some (JStr s)) /\
     (forall d, Dict.get "vault" data = Some (JDict d) ->
        extract_vault_address_from_create_tx create_vault_tx = Dict.get "inner" d) /\
     ((forall s, Dict.get "vault" data <> Some (JStr s)) ->
      (forall d, Dict.get "vault" data <> Some (JDict d)) ->
      extract_vault_address_from_create_tx create_vault_tx = None)).
Proof.
  split.
  - intros Hnolist. unfold extract_vault_address_from_create_tx.
    destruct (Dict.get "events" create_vault_tx) as [[| | | | |events|]|] eqn:Hevents;
      try reflexivity.
    exfalso. exact (Hnolist events eq_refl).
  - intros before event after data Hevents Hbefore Hevent Hdata.
    assert (Hloop : vault_of_events (before ++ JDict event :: after)
                    = match Dict.get "vault" data with
                      | Some (JStr vault_val) => Some (JStr vault_val)
                      | Some (JDict vault_val) => Some (JDict vault_val)
                      | _ => None
                      end).
    { unfold vault_of_events.
      rewrite (find_after_rejected _ _ _ _ Hbefore Hevent), Hdata. reflexivity. }
    unfold extract_vault_address_from_create_tx. rewrite Hevents, Hloop.
    split; [|split].
    + intros s ->. reflexivity.
    + intros d ->. reflexivity.
    + intros Hnostr Hnodict.
      destruct (Dict.get "vault" data) as [[| | | |s|l|d]|]; try reflexivity.
      * exfalso. exact (Hnostr s eq_refl).
      * exfalso. exact (Hnodict d eq_refl).
Qed.

End VaultProperties.

(** The first vault-created event names the vault [0xf1]; the second is
    not looked at. *)
Lemma vault_address_is_read_off_the_first_vault_event_witness :
  Utils.extract_vault_address_from_create_tx Scenario.create_vault_tx = Some (JStr "0xf1").
Proof.
  destruct (vault_address_is_read_off_the_first_vault_event Scenario.create_vault_tx)
    as [_ Hfirst].
  destruct (Hfirst
              [JDict [("type", JStr "0x1::coin::DepositEvent"); ("data", JDict [])]]
              [("type", JStr "0x5::vault::VaultCreatedEvent");
               ("data", JDict [("vault", JDict [("inner", JStr "0xf1")])])]
              [JDict [("type", JStr "0x5::vault::VaultCreatedEvent");
                      ("data", JDict [("vault", JStr "0xf2")])]]
              [("vault", JDict [("inner", JStr "0xf1")])])
    as (_ & Hobject & _).
  - reflexivity.
  - repeat constructor.
  - reflexivity.
  - reflexivity.
  - exact (Hobject [("inner", JStr "0xf1")] eq_refl).
Defined.

(** ** The extra config, written and read back *)

Section DecodeProperties.

Context {env : Externals}.
Import TransactionBuilder Decode.

(** An integer write appends the bytes it writes to an empty buffer. *)
Lemma uint_appends (max : Z) (len : nat) (n : Z) (out out' : list byte) :
  Bcs.uint max len n out = Ok out' ->
  Bcs.uint max len n [] = Ok (Bcs.to_bytes_little len n) /\
  out' = out ++ Bcs.to_bytes_little len n.
Proof.
  unfold Bcs.uint, Bcs._write_int, Bcs.throw, Bcs.write.
  destruct (max <? n); [discriminate|].
  destruct ((n <? 0) || (256 ^ Z.of_nat len <=? n)); [discriminate|].
  intros [= <-]. split; reflexivity.
Qed.

(** What [serialize] writes, [deserialize] reads back. *)
Lemma TransactionExtraConfigV1_round_trip (deserializer : Reader)
    (config : TransactionExtraConfigV1) (bytes rest : list byte) :
  reads_back deserializer (multisig_address config) ->
  Bcs.output (TransactionExtraConfigV1_serialize config) = Ok bytes ->
  TransactionExtraConfigV1_deserialize deserializer (bytes ++ rest) = Decoded config rest.
Proof.
  intros (Huleb & Hu8 & Hu64 & Haddr).
  destruct config as [multisig nonce]. cbn [multisig_address] in Haddr.
  unfold Bcs.output, TransactionExtraConfigV1_serialize, Bcs.seq, _EXTRA_CONFIG_VARIANT_V1.
  cbn [multisig_address replay_protection_nonce].
  rewrite uleb128_one_byte by lia. cbn [mbind result_bind app].
  intros Hwrite.
  assert (Hflag : forall b, 0 <= b < 256 -> forall rest0,
            read_u8 deserializer (Bcs.byte_of_Z b :: rest0) = Ok (b, rest0)).
  { intros b Hb rest0. apply (Hu8 b [Bcs.byte_of_Z b] rest0).
    exact (u8_in_range b [] Hb). }
  assert (Hvariant : forall rest0,
            read_uleb128 deserializer (Bcs.byte_of_Z 0 :: rest0) = Ok (0, rest0)).
  { intros rest0. apply (Huleb 0 [Bcs.byte_of_Z 0] rest0); [lia|].
    apply uleb128_one_byte. lia. }
  (* the multisig part *)
  destruct multisig as [a|].
  - destruct (Bcs.u8 1 [Bcs.byte_of_Z 0]) as [o1|] eqn:H1; [|discriminate Hwrite].
    apply uint_appends in H1 as [_ ->]. cbn [mbind result_bind] in Hwrite.
    destruct (AccountAddress_serialize a _) as [o2|] eqn:H2;
      cbn [mbind result_bind] in Hwrite; [|discriminate Hwrite].
    destruct (Haddr a _ _ eq_refl H2) as (abs & -> & Hread).
    destruct nonce as [n|].
    + destruct (Bcs.u8 1 _) as [o3|] eqn:H3; cbn [mbind result_bind] in Hwrite;
        [|discriminate Hwrite].
      apply uint_appends in H3 as [_ ->].
      pose proof Hwrite as Hn. apply uint_appends in Hn as [Hn0 ->].
      unfold TransactionExtraConfigV1_deserialize, _EXTRA_CONFIG_VARIANT_V1.
      rewrite <- !app_assoc. cbn [app]. rewrite Hvariant. cbn [Z.eqb negb].
      change (Bcs.to_bytes_little 1 1) with [Bcs.byte_of_Z 1]. cbn [app].
      rewrite Hflag by lia. cbn [Z.eqb Pos.eqb]. rewrite Hread.
      cbn [app]. rewrite Hflag by lia. cbn [Z.eqb Pos.eqb].
      rewrite (Hu64 n _ rest Hn0). reflexivity.
    + pose proof Hwrite as Hn. apply uint_appends in Hn as [_ ->].
      unfold TransactionExtraConfigV1_deserialize, _EXTRA_CONFIG_VARIANT_V1.
      rewrite <- !app_assoc. cbn [app]. rewrite Hvariant. cbn [Z.eqb negb].
      change (Bcs.to_bytes_little 1 1) with [Bcs.byte_of_Z 1]. cbn [app].
      rewrite Hflag by lia. cbn [Z.eqb Pos.eqb]. rewrite Hread.
      change (Bcs.to_bytes_little 1 0) with [Bcs.byte_of_Z 0]. cbn [app].
      rewrite Hflag by lia. cbn [Z.eqb]. reflexivity.
  - destruct (Bcs.u8 0 [Bcs.byte_of_Z 0]) as [o1|] eqn:H1; [|discriminate Hwrite].
    apply uint_appends in H1 as [_ ->]. cbn [mbind result_bind] in Hwrite.
    destruct nonce as [n|].
    + destruct (Bcs.u8 1 _) as [o3|] eqn:H3; cbn [mbind result_bind] in Hwrite;
        [|discriminate Hwrite].
      apply uint_appends in H3 as [_ ->].
      pose proof Hwrite as Hn. apply uint_appends in Hn as [Hn0 ->].
      unfold TransactionExtraConfigV1_deserialize, _EXTRA_CONFIG_VARIANT_V1.
      rewrite <- !app_assoc. cbn [app]. rewrite Hvariant. cbn [Z.eqb negb].
      change (Bcs.to_bytes_little 1 0) with [Bcs.byte_of_Z 0].
      change (Bcs.to_bytes_little 1 1) with [Bcs.byte_of_Z 1]. cbn [app].
      rewrite Hflag by lia. cbn [Z.eqb]. rewrite Hflag by lia. cbn [Z.eqb Pos.eqb].
      rewrite (Hu64 n _ rest Hn0). reflexivity.
    + pose proof Hwrite as Hn. apply uint_appends in Hn as [_ ->].
      unfold TransactionExtraConfigV1_deserialize, _EXTRA_CONFIG_VARIANT_V1.
      rewrite <- !app_assoc. cbn [app]. rewrite Hvariant. cbn [Z.eqb negb].
      change (Bcs.to_bytes_little 1 0) with [Bcs.byte_of_Z 0]. cbn [app].
      rewrite Hflag by lia. cbn [Z.eqb]. rewrite Hflag by lia. cbn [Z.eqb].
      reflexivity.
Qed.

(** X29. What [TransactionExtraConfigV1.serialize] writes,
    [TransactionExtraConfigV1.deserialize] reads back, leaving the input
    that follows: for every config that serializes, with a deserializer
    whose reads invert the serializer's writes. The converse fails:
    [deserialize] takes every presence flag other than 1 for "absent",
    not only 0. A variant other than 0 is rejected. *)
Theorem extra_config_is_read_back (deserializer : Reader) :
  (forall config bytes rest,
     reads_back deserializer (multisig_address config) ->
     Bcs.output (TransactionExtraConfigV1_serialize config) = Ok bytes ->
     TransactionExtraConfigV1_deserialize deserializer (bytes ++ rest)
     = Decoded config rest) /\
  (forall input i1 flag1 i2 flag2 i3,
     read_uleb128 deserializer input = Ok (0, i1) ->
     read_u8 deserializer i1 = Ok (flag1, i2) -> flag1 <> 1 ->
     read_u8 deserializer i2 = Ok (flag2, i3) -> flag2 <> 1 ->
     TransactionExtraConfigV1_deserialize deserializer input
     = Decoded {| multisig_address := None; replay_protection_nonce := None |} i3) /\
  (forall input variant i1,
     read_uleb128 deserializer input = Ok (variant, i1) -> variant <> 0 ->
     TransactionExtraConfigV1_deserialize deserializer input = UnknownVariant variant).
Proof.
  split; [|split].
  - intros config bytes rest. apply TransactionExtraConfigV1_round_trip.
  - intros input i1 flag1 i2 flag2 i3 Hv H1 Hf1 H2 Hf2.
    unfold TransactionExtraConfigV1_deserialize, _EXTRA_CONFIG_VARIANT_V1.
    rewrite Hv. cbn [Z.eqb negb]. rewrite H1.
    replace (flag1 =? 1) with false by (symmetry; apply Z.eqb_neq; exact Hf1).
    rewrite H2.
    replace (flag2 =? 1) with false by (symmetry; apply Z.eqb_neq; exact Hf2).
    reflexivity.
  - intros input variant i1 Hv Hne.
    unfold TransactionExtraConfigV1_deserialize, _EXTRA_CONFIG_VARIANT_V1.
    rewrite Hv.
    replace (variant =? 0) with false by (symmetry; apply Z.eqb_neq; exact Hne).
    reflexivity.
Qed.

End DecodeProperties.

(** A successful integer write was given a value in range. *)
Lemma uint_ok_range (max : Z) (len : nat) (n : Z) (out out' : list byte) :
  Bcs.uint max len n out = Ok out' -> 0 <= n < 256 ^ Z.of_nat len.
Proof.
  unfold Bcs.uint, Bcs._write_int, Bcs.throw.
  destruct (max <? n); [discriminate|].
  destruct (n <? 0) eqn:Hneg; [discriminate|].
  destruct (256 ^ Z.of_nat len <=? n) eqn:Hbig; [discriminate|].
  intros _. apply Z.ltb_ge in Hneg. apply Z.leb_gt in Hbig. lia.
Qed.

Lemma take_written (bs rest : list byte) :
  Sample.take (List.length bs) (bs ++ rest) = Ok (bs, rest).
Proof.
  unfold Sample.take. rewrite length_app.
  replace (List.length bs <=? List.length bs + List.length rest)%nat with true
    by (symmetry; apply Nat.leb_le; lia).
  rewrite take_app_length, drop_app_length. reflexivity.
Qed.

(** The sample reader reads back what the serializer writes and the
    address of 32 bytes [0x0b]. *)
Lemma sample_reader_reads_back :
  Decode.reads_back Sample.reader (Some (Sample.address Scenario.bob)).
Proof.
  split; [|split; [|split]].
  - intros n bs rest Hn Hbs. rewrite uleb128_one_byte in Hbs by exact Hn.
    injection Hbs as <-. cbn [app Sample.reader Decode.read_uleb128].
    unfold Sample.take.
    cbn [List.length Nat.leb List.firstn List.skipn mbind result_bind
         Bcs.from_bytes_little].
    rewrite Z_of_byte_of_Z, Z.mod_small by lia.
    rewrite Z.mul_0_r, Z.add_0_r.
    replace (n <? 128) with true by (symmetry; apply Z.ltb_lt; lia).
    reflexivity.
  - intros n bs rest Hbs.
    pose proof (uint_ok_range _ _ _ _ _ Hbs) as Hn. change (256 ^ Z.of_nat 1) with 256 in Hn.
    rewrite (u8_in_range n [] Hn) in Hbs. injection Hbs as <-.
    cbn [app Sample.reader Decode.read_u8]. unfold Sample.take.
    cbn [List.length Nat.leb List.firstn List.skipn mbind result_bind
         Bcs.from_bytes_little].
    rewrite Z_of_byte_of_Z, Z.mod_small by lia.
    rewrite Z.mul_0_r, Z.add_0_r. reflexivity.
  - intros n bs rest Hbs.
    pose proof (uint_ok_range _ _ _ _ _ Hbs) as Hn.
    change (256 ^ Z.of_nat 8) with (2 ^ 64) in Hn.
    rewrite (u64_in_range n [] Hn) in Hbs. injection Hbs as <-.
    pose proof (from_to_bytes_little 8 n ltac:(lia)) as Hback.
    change (256 ^ Z.of_nat 8) with (2 ^ 64) in Hback. rewrite Z.mod_small in Hback by lia.
    cbn [Sample.reader Decode.read_u64]. rewrite ?app_nil_l.
    pose proof (take_written (Bcs.to_bytes_little 8 n) rest) as Htake.
    rewrite length_to_bytes_little in Htake.
    change (Sample.take 8 (Bcs.to_bytes_little 8 n ++ rest)
            ≫= (λ '(bs, rest0), Ok (Bcs.from_bytes_little bs, rest0)) = Ok (n, rest)).
    rewrite Htake. cbn [mbind result_bind]. rewrite Hback. reflexivity.
  - intros address out out' [= <-] Hwrite. cbn in Hwrite. injection Hwrite as <-.
    eexists. split; [reflexivity|]. intros rest. reflexivity.
Qed.

(** A config with Bob's address and the nonce, followed by one more
    byte; and the bytes 0, 2, 2 read as the empty config. *)
Lemma extra_config_is_read_back_witness :
  let config := {| TransactionBuilder.multisig_address := Some (Sample.address Scenario.bob);
                   TransactionBuilder.replay_protection_nonce := Some Scenario.nonce |} in
  (forall bytes,
     Bcs.output (TransactionBuilder.TransactionExtraConfigV1_serialize config) = Ok bytes ->
     Decode.TransactionExtraConfigV1_deserialize Sample.reader (bytes ++ [xff])
     = Decode.Decoded config [xff]) /\
  Decode.TransactionExtraConfigV1_deserialize Sample.reader [x00; x02; x02]
  = Decode.Decoded {| TransactionBuilder.multisig_address := None;
                      TransactionBuilder.replay_protection_nonce := None |} [].
Proof.
  intros config.
  destruct (@extra_config_is_read_back Sample.externals Sample.reader)
    as (Hback & Hlenient & _).
  split.
  - intros bytes Hbytes. apply Hback; [exact sample_reader_reads_back|exact Hbytes].
  - apply (Hlenient [x00; x02; x02] [x02; x02] 2 [x02] 2 []);
      solve [reflexivity | discriminate].
Defined.
